(** * Workspaces web API (app/background-process/web-apis/workspaces.js)

    A shallow embedding of the workspace synchronisation module of the
    Beaker browser: the option massaging, the ignore-rule compiler, the
    path-scope filter and the five operations that work on a
    (local folder, dat archive) pair: [setupFolder], [listChangedFiles],
    [diff], [publish] and [revert].

    The operations are asynchronous JavaScript functions that talk to
    collaborators living in other modules (the workspace and archive
    databases, the dat library, the scoped file systems, the
    [diff-file-tree] package).  They are embedded as programs of a small
    free monad whose actions are the calls to those collaborators, so that
    the order and the arguments of the calls are part of the model.

    Three readings of a program are used.  [AllCalls] and
    [WritesAfterLoad] speak of every call a program can make, whatever the
    collaborators answer.  [run] evaluates a program that only reads
    against fixed answers (an oracle).  [exec] runs a program in a world
    made of workspace records, local trees and archives, where the engines
    of [diff-file-tree] and the [timer] of lib/time follow the spec, since
    their code is not part of the sources at hand.

    Strings are sequences of one-byte characters; on ASCII paths this is
    what the JavaScript methods compute. *)

From Stdlib Require Import ZArith Ascii.
From stdpp Require Import gmap strings list fin_maps.

Set Warnings "-register-all".

(** ** JavaScript strings *)

(** [s.startsWith(p)] *)
Fixpoint startsWith (s p : string) : bool :=
  match p, s with
  | EmptyString, _ => true
  | String _ _, EmptyString => false
  | String c p', String d s' => bool_decide (c = d) && startsWith s' p'
  end.

(** [s.endsWith(suf)] *)
Fixpoint endsWith (s suf : string) : bool :=
  bool_decide (s = suf) ||
  match s with
  | EmptyString => false
  | String _ s' => endsWith s' suf
  end.

(** [s.slice(0, -1)]: everything but the last character. *)
Fixpoint slice_0_m1 (s : string) : string :=
  match s with
  | EmptyString => EmptyString
  | String _ EmptyString => EmptyString
  | String c s' => String c (slice_0_m1 s')
  end.

(** [s.charAt(n)]: a one-character string, or the empty string when [n]
    is out of range. *)
Definition charAt (s : string) (n : nat) : string :=
  match String.get n s with
  | Some c => String c EmptyString
  | None => EmptyString
  end.

(** [s.split(sep)] for a one-character separator. *)
Fixpoint split (sep : ascii) (s : string) : list string :=
  match s with
  | EmptyString => [EmptyString]
  | String c s' =>
      if bool_decide (c = sep) then EmptyString :: split sep s'
      else match split sep s' with
           | x :: xs => String c x :: xs
           | [] => [String c EmptyString]
           end
  end.

(** [l.join(sep)] *)
Fixpoint join (sep : string) (l : list string) : string :=
  match l with
  | [] => EmptyString
  | x :: xs =>
      match xs with
      | [] => x
      | _ :: _ => x +:+ sep +:+ join sep xs
      end
  end.

(** [Boolean(s)] for a string: the empty string is the only falsy one. *)
Definition Boolean (s : string) : bool := negb (bool_decide (s = "")).

(** ** JavaScript values, as far as the module inspects them *)

Inductive jsval : Type :=
| JUndefined
| JNull
| JBoolean (b : bool)
| JNumber (n : Z)
| JString (s : string)
| JArray (l : list jsval)
| JObject.

(** The [opts] argument of the diffing operations: an object whose three
    inspected properties may hold anything ([JUndefined] when absent). *)
Record Opts : Type := {
  opts_compareContent : jsval;
  opts_shallow : jsval;
  opts_paths : jsval
}.

(** The options object handed to [dft.diff].  [do_paths = None] stands for
    [paths: false], [do_filter = None] for a [filter] not yet assigned. *)
Record DiffOpts : Type := {
  do_compareContent : bool;
  do_shallow : bool;
  do_paths : option (list string);
  do_filter : option (string → bool)
}.

(** ** Errors *)

Inductive Error : Type :=
| PlainError (message : string)              (* new Error(...) *)
| InvalidEncodingError (message : string)
| SourceTooLargeError
| ArchiveNotWritableError (message : string)
| TimeoutError.                              (* raised by [timer] *)

(** ** Data exchanged with the collaborators *)

(** The two kinds of tree handles: a scoped file system rooted at a local
    folder, and a dat archive. *)
Inductive FS : Type :=
| ScopedFS (root : string)
| ArchiveFS (url : string).

Record Stat : Type := {
  st_isFile : bool;
  st_isDirectory : bool;
  st_size : Z
}.

Record WorkspaceRecord : Type := {
  localFilesPath : option string;
  publishTargetUrl : option string
}.

Record ArchiveMeta : Type := { isOwner : bool }.
Record UserSettings : Type := { isSaved : bool }.

(** [change] of a diff entry: ['add'], ['del'] or ['mod']. *)
Inductive Change : Type := ChangeAdd | ChangeDel | ChangeMod.

Record DiffEntry : Type := {
  d_change : Change;
  d_path : string;
  d_isDirectory : bool
}.

Global Instance Change_eq_dec : EqDecision Change.
Proof. solve_decision. Defined.

(** ** Collaborators that are plain functions or constants *)

Class Externals : Type := {
  (** [path.sep] *)
  path_sep : ascii;
  (** [path.normalize] *)
  path_normalize : string → string;
  (** [isFileNameBinary] of lib/mime: [true], [false] or [undefined] *)
  isFileNameBinary : string → option bool;
  (** [WORKSPACE_VALID_NAME_REGEX.test] of lib/const *)
  WORKSPACE_VALID_NAME_REGEX_test : string → bool;
  (** [datLibrary.fromURLToKey] *)
  fromURLToKey : string → string;
  (** one glob pattern against one path, as [anymatch] decides it *)
  glob_match : string → string → bool;
  (** the result type of [diff.diffLines] and the function itself *)
  LineDiff : Type;
  diffLines : string → string → LineDiff
}.

(** [anymatch(matchers, path)]: true when some matcher accepts the path. *)
Definition anymatch `{Externals} (matchers : list string) (filepath : string) : bool :=
  existsb (fun m => glob_match m filepath) matchers.

Definition MAX_DIFF_SIZE : Z := 100000.

(** ** Calls to the asynchronous collaborators *)

Inductive call : Type :=
| workspacesDb_get (profileId : jsval) (name : string)
| archivesDb_getMeta (key : string)
| archivesDb_getUserSettings (profileId : Z) (key : string)
  (** [timer(ms, ...)] racing [datLibrary.getOrLoadArchive(url)] *)
| timer_getOrLoadArchive (ms : Z) (url : string)
  (** [fs.stat(filepath, cb)] and [fs.readFile(filepath, ..., cb)]: the
      answer is the [data] argument of the callback, absent on error *)
| fs_stat (fs : FS) (filepath : string)
| fs_readFile (fs : FS) (filepath : string)
| isFileContentBinary (fs : FS) (filepath : string)
| dft_diff (left right : FS) (opts : option DiffOpts)
| dft_applyRight (left right : FS) (d : list DiffEntry)
| dft_applyLeft (left right : FS) (d : list DiffEntry).

Definition answer (c : call) : Type :=
  match c with
  | workspacesDb_get _ _ => option WorkspaceRecord
  | archivesDb_getMeta _ => option ArchiveMeta
  | archivesDb_getUserSettings _ _ => option UserSettings
  | timer_getOrLoadArchive _ _ => option FS
  | fs_stat _ _ => option Stat
  | fs_readFile _ _ => option string
  | isFileContentBinary _ _ => bool
  | dft_diff _ _ _ => list DiffEntry
  | dft_applyRight _ _ _ => unit
  | dft_applyLeft _ _ _ => unit
  end.

(** Programs: return, throw, or call a collaborator and continue with its
    answer. *)
Inductive prog (R : Type) : Type :=
| Ret (r : R)
| Throw (e : Error)
| Call (c : call) (k : answer c → prog R).

Arguments Ret {R} r.
Arguments Throw {R} e.
Arguments Call {R} c k.

Fixpoint bind {A B : Type} (p : prog A) (f : A → prog B) : prog B :=
  match p with
  | Ret a => f a
  | Throw e => Throw e
  | Call c k => Call c (fun x => bind (k x) f)
  end.

(** [await c] *)
Definition await (c : call) : prog (answer c) := Call c Ret.

Global Instance prog_ret : MRet prog := @Ret.
Global Instance prog_bind : MBind prog := fun A B f p => bind p f.

(** ** The module *)

Definition LF : ascii := "010"%char.

Section Workspaces.
Context `{Externals}.

(** *** Internal helpers *)

Definition massageDiffOpts (opts : Opts) : DiffOpts :=
  {| do_compareContent :=
       match opts_compareContent opts with JBoolean b => b | _ => true end;
     do_shallow :=
       match opts_shallow opts with JBoolean b => b | _ => true end;
     do_paths :=
       match opts_paths opts with
       | JArray l =>
           Some (omap (fun v => match v with JString s => Some s | _ => None end) l)
       | _ => None
       end;
     do_filter := None |}.

(** [opts.filter = f] and [opts.shallow = b] *)
Definition set_filter (opts : DiffOpts) (f : string → bool) : DiffOpts :=
  {| do_compareContent := do_compareContent opts;
     do_shallow := do_shallow opts;
     do_paths := do_paths opts;
     do_filter := Some f |}.

Definition set_shallow (opts : DiffOpts) (b : bool) : DiffOpts :=
  {| do_compareContent := do_compareContent opts;
     do_shallow := b;
     do_paths := do_paths opts;
     do_filter := do_filter opts |}.

Definition assertValidProfileId (profileId : jsval) : prog unit :=
  match profileId with
  | JNumber _ => Ret tt
  | _ => Throw (PlainError "Must provide a valid profile id")
  end.

Definition assertValidName (name : string) : prog unit :=
  if WORKSPACE_VALID_NAME_REGEX_test name then Ret tt
  else Throw (PlainError ("Invalid workspace name (" +:+ name +:+ ")")).

Definition assertDatIsSavedAndOwned (url : string) : prog unit :=
  let key := fromURLToKey url in
  meta ← await (archivesDb_getMeta key);
  userSettings ← await (archivesDb_getUserSettings 0 key);
  if negb (from_option isOwner false meta)
  then Throw (ArchiveNotWritableError "You can't edit a dat you don't own.")
  else if negb (from_option isSaved false userSettings)
  then Throw (ArchiveNotWritableError "The workspace's dat has been deleted.")
  else Ret tt.

(** A string property is falsy when it is absent or empty. *)
Definition truthy (o : option string) : option string :=
  match o with
  | Some s => if Boolean s then Some s else None
  | None => None
  end.

(** Returns the two properties of the record it has checked, which the
    callers read from [ws] right after. *)
Definition validateWorkspaceRecord (name : string) (ws : option WorkspaceRecord)
  : prog (string * string) :=
  match ws with
  | None => Throw (PlainError ("No workspace found at " +:+ name))
  | Some ws =>
      match truthy (localFilesPath ws) with
      | None => Throw (PlainError ("No files path set for " +:+ name))
      | Some files =>
          match truthy (publishTargetUrl ws) with
          | None => Throw (PlainError ("No target site set for " +:+ name))
          | Some url => assertDatIsSavedAndOwned url;; Ret (files, url)
          end
      end
  end.

(** Modelled from the spec: [timer] of lib/time, which is not part of the
    sources at hand.  The block
    [await timer(ms, async (checkin) => { scopedFS = scopedFSes.get(..);
    archive = await datLibrary.getOrLoadArchive(..) })]
    either binds both handles or fails with a Timeout error when the
    archive is not loaded within the window of [ms] milliseconds. *)
Definition timer (ms : Z) (localFilesPath url : string) : prog (FS * FS) :=
  loaded ← await (timer_getOrLoadArchive ms url);
  match loaded with
  | Some archive => Ret (ScopedFS localFilesPath, archive)
  | None => Throw TimeoutError
  end.

(** helper to read a file via promise and return a null on fail *)
Definition stat (fs : FS) (filepath : string) : prog (option Stat) :=
  data ← await (fs_stat fs filepath);
  Ret data.

(** helper to read a file via promise and return an empty string on fail *)
Definition readFile (fs : FS) (filepath : string) : prog string :=
  data ← await (fs_readFile fs filepath);
  Ret (default "" data).

(** The pure part of [readDatIgnore]: from the raw file to the rules. *)
Definition readDatIgnore_rules (rulesRaw : string) : list string :=
  map path_normalize
    (map (fun rule => if negb (startsWith rule "/") then "**/" +:+ rule else rule)
         (List.filter Boolean (split LF rulesRaw))
     ++ ["/.git"; "/.dat"]).

Definition readDatIgnore (fs : FS) : prog (list string) :=
  rulesRaw ← readFile fs ".datignore";
  Ret (readDatIgnore_rules rulesRaw).

(** The [for] loop of the closure returned by [makeDiffFilterByPaths],
    over the normalized target paths that remain to be visited. *)
Fixpoint makeDiffFilterByPaths_loop (targetPaths : list string) (filepath : string) : bool :=
  match targetPaths with
  | [] => true
  | targetPath :: rest =>
      if (if endsWith targetPath (String path_sep "")
          then (* a directory *)
            bool_decide (filepath = slice_0_m1 targetPath)  (* the directory itself *)
            || startsWith filepath targetPath                (* a file within the directory *)
          else (* a file *)
            bool_decide (filepath = targetPath))
      then false
      else if startsWith targetPath filepath
              && bool_decide (charAt targetPath (String.length filepath) = "/")
      then false (* a parent folder *)
      else makeDiffFilterByPaths_loop rest filepath
  end.

Definition makeDiffFilterByPaths (targetPaths : list string) : string → bool :=
  let targetPaths := map path_normalize targetPaths in
  fun filepath => makeDiffFilterByPaths_loop targetPaths filepath.

(** The block "build ignore rules" shared by [listChangedFiles],
    [publish] and [revert]. *)
Definition buildFilter (opts : DiffOpts) (scopedFS : FS) : prog DiffOpts :=
  match do_paths opts with
  | Some paths => Ret (set_filter opts (makeDiffFilterByPaths paths))
  | None =>
      ignoreRules ← readDatIgnore scopedFS;
      Ret (set_filter opts (fun filepath => anymatch ignoreRules filepath))
  end.

(** *** Exported api *)

(** initialize a target folder with the dat files *)
Definition setupFolder (profileId : jsval) (name : string) (opts : Opts) : prog bool :=
  assertValidProfileId profileId;;
  (* fetch workspace *)
  ws ← await (workspacesDb_get profileId name);
  ws ← validateWorkspaceRecord name ws;
  (* get the scoped fs and archive *)
  fses ← timer 3000 ws.1 ws.2;
  let scopedFS := fses.1 in
  let archive := fses.2 in
  (* do an 'add-only' apply from the archive *)
  diff ← await (dft_diff archive scopedFS None);
  let diff := List.filter (fun d => bool_decide (d_change d = ChangeAdd)) diff in
  await (dft_applyRight archive scopedFS diff);;
  Ret true.

(** list the files that have changed *)
Definition listChangedFiles (profileId : jsval) (name : string) (opts : Opts)
  : prog (list DiffEntry) :=
  assertValidProfileId profileId;;
  assertValidName name;;
  let opts := massageDiffOpts opts in
  ws ← await (workspacesDb_get profileId name);
  ws ← validateWorkspaceRecord name ws;
  fses ← timer 3000 ws.1 ws.2;
  let scopedFS := fses.1 in
  let archive := fses.2 in
  (* build ignore rules *)
  opts ← buildFilter opts scopedFS;
  (* run diff *)
  await (dft_diff scopedFS archive (Some opts)).

(** diff a file in a workspace *)
Definition diff (profileId : jsval) (name : string) (filepath : string) : prog LineDiff :=
  assertValidProfileId profileId;;
  assertValidName name;;
  let filepath := path_normalize filepath in
  (* check the filename to see if it's binary *)
  let isBinary := isFileNameBinary filepath in
  if bool_decide (isBinary = Some true)
  then Throw (InvalidEncodingError "Cannot diff a binary file")
  else
  ws ← await (workspacesDb_get profileId name);
  ws ← validateWorkspaceRecord name ws;
  fses ← timer 3000 ws.1 ws.2;
  let scopedFS := fses.1 in
  let archive := fses.2 in
  (* make sure we can handle the buffers involved *)
  st ← stat scopedFS filepath;
  binary ← (if negb (bool_decide (isBinary = Some false)) && from_option st_isFile false st
            then await (isFileContentBinary scopedFS filepath) else Ret false);
  if (binary : bool) then Throw (InvalidEncodingError "Cannot diff a binary file") else
  if from_option st_isFile false st && (from_option st_size 0 st >? MAX_DIFF_SIZE)%Z
  then Throw SourceTooLargeError else
  st ← stat archive filepath;
  binary ← (if negb (bool_decide (isBinary = Some false)) && from_option st_isFile false st
            then await (isFileContentBinary archive filepath) else Ret false);
  if (binary : bool) then Throw (InvalidEncodingError "Cannot diff a binary file") else
  if from_option st_isFile false st && (from_option st_size 0 st >? MAX_DIFF_SIZE)%Z
  then Throw SourceTooLargeError else
  (* read the file in both sources *)
  newFile ← readFile scopedFS filepath;
  oldFile ← readFile archive filepath;
  (* return the diff *)
  Ret (diffLines oldFile newFile).

(** publish the files that have changed *)
Definition publish (profileId : jsval) (name : string) (opts : Opts) : prog unit :=
  assertValidProfileId profileId;;
  assertValidName name;;
  let opts := massageDiffOpts opts in
  ws ← await (workspacesDb_get profileId name);
  ws ← validateWorkspaceRecord name ws;
  fses ← timer 3000 ws.1 ws.2;
  let scopedFS := fses.1 in
  let archive := fses.2 in
  (* build ignore rules *)
  opts ← buildFilter opts scopedFS;
  (* run and apply diff *)
  let opts := set_shallow opts false in (* can't do shallow *)
  diff ← await (dft_diff scopedFS archive (Some opts));
  await (dft_applyRight scopedFS archive diff).

(** revert the files that have changed *)
Definition revert (profileId : jsval) (name : string) (opts : Opts) : prog unit :=
  assertValidProfileId profileId;;
  assertValidName name;;
  let opts := massageDiffOpts opts in
  ws ← await (workspacesDb_get profileId name);
  ws ← validateWorkspaceRecord name ws;
  fses ← timer 3000 ws.1 ws.2;
  let scopedFS := fses.1 in
  let archive := fses.2 in
  (* build ignore rules *)
  opts ← buildFilter opts scopedFS;
  (* run and apply diff *)
  let opts := set_shallow opts false in (* can't do shallow *)
  diff ← await (dft_diff scopedFS archive (Some opts));
  await (dft_applyLeft scopedFS archive diff).

End Workspaces.

(** ** Trees, and the diff and apply engines *)

(** A tree is a finite map from absolute paths (["/a/b"]) to what sits
    there. *)
Inductive Node : Type :=
| File (content : string)
| Directory.

Global Instance Node_eq_dec : EqDecision Node.
Proof. solve_decision. Defined.

Abbreviation Tree := (gmap string Node).

Definition isDirectoryNode (n : Node) : bool :=
  match n with Directory => true | File _ => false end.

(** [p] lies strictly below [q]. *)
Definition below (q p : string) : bool := startsWith p (q +:+ "/").

(** The chain of folders above a path: [["/a"; "/a/b"]] for ["/a/b/c"]. *)
Fixpoint ancestors_from (acc s : string) : list string :=
  match s with
  | EmptyString => []
  | String c s' =>
      (if bool_decide (c = "/"%char) && Boolean acc then [acc] else [])
      ++ ancestors_from (acc +:+ String c "") s'
  end.

Definition ancestors (p : string) : list string := ancestors_from "" p.

(** The four definitions that follow are the parts of [diffEngine] below.

    A path is excluded when the filter answers [true] on it or on a
    candidate above it. *)
Definition excluded (f : string → bool) (candidates : list string) (p : string) : bool :=
  existsb (fun q => (bool_decide (q = p) || below q p) && f q) candidates.

(** A folder that one tree holds and the other lacks. *)
Definition oneSidedDirectory (l r : Tree) (q : string) : bool :=
  match l !! q, r !! q with
  | Some Directory, None => true
  | None, Some Directory => true
  | _, _ => false
  end.

(** A path below such a folder, which a shallow diff does not list. *)
Definition suppressed (l r : Tree) (candidates : list string) (p : string) : bool :=
  existsb (fun q => below q p && oneSidedDirectory l r q) candidates.

(** The entry for one path: present on the left only, on the right only,
    or on both with contents that are compared and differ. *)
Definition classify (compareContent : bool) (l r : Tree) (p : string) : option DiffEntry :=
  match l !! p, r !! p with
  | Some n, None =>
      Some {| d_change := ChangeAdd; d_path := p; d_isDirectory := isDirectoryNode n |}
  | None, Some n =>
      Some {| d_change := ChangeDel; d_path := p; d_isDirectory := isDirectoryNode n |}
  | Some n, Some n' =>
      if compareContent && negb (bool_decide (n = n'))
      then Some {| d_change := ChangeMod; d_path := p; d_isDirectory := isDirectoryNode n |}
      else None
  | None, None => None
  end.

(** Modelled from the spec: the Diff Engine ([diff] of the diff-file-tree
    package, which is not part of the sources at hand).  The candidate
    paths are those of both trees.  A path on which the filter answers
    [true] is skipped together with everything below it, which is how the
    callers in this module use [opts.filter].  A path present only in the
    left tree is an addition, one present only in the right tree a
    removal, one present in both a modification when the contents are
    compared and differ.  With [shallow], what lies below a folder present
    on one side only is not listed.  Both options default to [true]. *)
Definition diffEngine (l r : Tree) (opts : option DiffOpts) : list DiffEntry :=
  let compareContent := from_option do_compareContent true opts in
  let shallow := from_option do_shallow true opts in
  let f := default (fun _ => false) (opts ≫= do_filter) in
  let candidates := elements (dom l ∪ dom r) in
  omap (classify compareContent l r)
       (List.filter
          (fun p => negb (excluded f candidates p)
                    && negb (shallow && suppressed l r candidates p))
          candidates).

(** The definitions that follow are the parts of [applyRightEngine] and
    [applyLeftEngine] below.

    The missing folders above a path are created; those that exist are
    left alone. *)
Definition mkParents (p : string) (t : Tree) : Tree :=
  foldl (fun t q => match t !! q with
                    | None => <[q := Directory]> t
                    | Some _ => t
                    end)
        t (ancestors p).

(** Copies what sits at a path from the source to the destination. *)
Definition copyPath (src dst : Tree) (p : string) : Tree :=
  match src !! p with
  | Some n => <[p := n]> (mkParents p dst)
  | None => dst
  end.

(** Deletes a path from the destination, with what lies below it. *)
Definition removePath (dst : Tree) (p : string) : Tree :=
  filter (fun kv => ¬ (kv.1 = p ∨ below p kv.1 = true)) dst.

(** left to right: the left tree is the source, the right one is written *)
Definition applyRightEntry (l r : Tree) (e : DiffEntry) : Tree :=
  match d_change e with
  | ChangeAdd | ChangeMod => copyPath l r (d_path e)
  | ChangeDel => removePath r (d_path e)
  end.

(** right to left: the right tree is the truth, the left one is written *)
Definition applyLeftEntry (r l : Tree) (e : DiffEntry) : Tree :=
  match d_change e with
  | ChangeAdd => removePath l (d_path e)
  | ChangeDel | ChangeMod => copyPath r l (d_path e)
  end.

(** Modelled from the spec: the Apply Engine from left to right
    ([applyRight] of the diff-file-tree package).  Entry by entry, in
    order: an addition or a modification copies the path from the left
    tree to the right one, creating the missing folders above it; a
    removal deletes the path from the right tree. *)
Definition applyRightEngine (l r : Tree) (d : list DiffEntry) : Tree :=
  foldl (applyRightEntry l) r d.

(** Modelled from the spec: the Apply Engine from right to left
    ([applyLeft] of the diff-file-tree package), where the right tree is
    the truth: what the diff lists as an addition is deleted from the left
    tree, what it lists as a removal or a modification is copied from the
    right tree to the left one. *)
Definition applyLeftEngine (l r : Tree) (d : list DiffEntry) : Tree :=
  foldl (applyLeftEntry r) l d.

(** ** The world the collaborators stand for *)

Record World : Type := {
  w_workspaces : jsval → string → option WorkspaceRecord;
  w_meta : string → option ArchiveMeta;
  w_userSettings : Z → string → option UserSettings;
  (** does the archive behind [url] load within [ms] milliseconds? *)
  w_resolvesWithin : string → Z → bool;
  (** the local folders, by root, and the archives, by url *)
  w_scoped : string → Tree;
  w_archives : string → Tree;
  (** the content sniff of lib/mime *)
  w_contentBinary : string → bool
}.

Definition tree_of (w : World) (fs : FS) : Tree :=
  match fs with
  | ScopedFS root => w_scoped w root
  | ArchiveFS url => w_archives w url
  end.

Definition set_tree (w : World) (fs : FS) (t : Tree) : World :=
  match fs with
  | ScopedFS root =>
      {| w_workspaces := w_workspaces w; w_meta := w_meta w;
         w_userSettings := w_userSettings w;
         w_resolvesWithin := w_resolvesWithin w;
         w_scoped := fun r => if bool_decide (r = root) then t else w_scoped w r;
         w_archives := w_archives w;
         w_contentBinary := w_contentBinary w |}
  | ArchiveFS url =>
      {| w_workspaces := w_workspaces w; w_meta := w_meta w;
         w_userSettings := w_userSettings w;
         w_resolvesWithin := w_resolvesWithin w;
         w_scoped := w_scoped w;
         w_archives := fun u => if bool_decide (u = url) then t else w_archives w u;
         w_contentBinary := w_contentBinary w |}
  end.

(** A path handed to a tree is taken from its root. *)
Definition rooted (filepath : string) : string :=
  if startsWith filepath "/" then filepath else "/" +:+ filepath.

Definition statNode (n : Node) : Stat :=
  match n with
  | File content =>
      {| st_isFile := true; st_isDirectory := false;
         st_size := Z.of_nat (String.length content) |}
  | Directory =>
      {| st_isFile := false; st_isDirectory := true; st_size := 0 |}
  end.

Definition readNode (n : Node) : option string :=
  match n with
  | File content => Some content
  | Directory => None
  end.

(** Modelled from the spec: what each collaborator (the workspace and
    archive databases, the dat library behind [timer], the scoped file
    systems and archives, the content sniff of lib/mime, the diff-file-tree
    package), none of which is part of the sources at hand, answers in a
    world, and the world it leaves.  Only the two apply calls change the
    world.  A collaborator always answers: failures of its own are outside
    the model. *)
Definition handle (w : World) (c : call) : answer c * World :=
  match c return answer c * World with
  | workspacesDb_get profileId name => (w_workspaces w profileId name, w)
  | archivesDb_getMeta key => (w_meta w key, w)
  | archivesDb_getUserSettings profileId key => (w_userSettings w profileId key, w)
  | timer_getOrLoadArchive ms url =>
      (if w_resolvesWithin w url ms then Some (ArchiveFS url) else None, w)
  | fs_stat fs filepath => (statNode <$> tree_of w fs !! rooted filepath, w)
  | fs_readFile fs filepath => (tree_of w fs !! rooted filepath ≫= readNode, w)
  | isFileContentBinary fs filepath =>
      (from_option (w_contentBinary w) false (tree_of w fs !! rooted filepath ≫= readNode), w)
  | dft_diff lfs rfs opts => (diffEngine (tree_of w lfs) (tree_of w rfs) opts, w)
  | dft_applyRight lfs rfs d =>
      (tt, set_tree w rfs (applyRightEngine (tree_of w lfs) (tree_of w rfs) d))
  | dft_applyLeft lfs rfs d =>
      (tt, set_tree w lfs (applyLeftEngine (tree_of w lfs) (tree_of w rfs) d))
  end.

Inductive result (R : Type) : Type :=
| Ok (r : R)
| Err (e : Error).

Arguments Ok {R} r.
Arguments Err {R} e.

(** Running a program in a world. *)
Fixpoint exec {R : Type} (p : prog R) (w : World) : result R * World :=
  match p with
  | Ret r => (Ok r, w)
  | Throw e => (Err e, w)
  | Call c k => let aw := handle w c in exec (k aw.1) aw.2
  end.

(** Running a program that only reads against fixed answers. *)
Definition Oracle : Type := ∀ c : call, answer c.

Fixpoint run {R : Type} (o : Oracle) (p : prog R) : result R :=
  match p with
  | Ret r => Ok r
  | Throw e => Err e
  | Call c k => run o (k (o c))
  end.

(** A property of every call a program can make, whatever the answers. *)
Fixpoint AllCalls {R : Type} (P : call → Prop) (p : prog R) : Prop :=
  match p with
  | Ret _ => True
  | Throw _ => True
  | Call c k => P c ∧ ∀ a, AllCalls P (k a)
  end.

(** No tree is written before an archive has been loaded: [loaded] tells
    whether a [timer] call has already answered with an archive. *)
Definition writes (c : call) : bool :=
  match c with
  | dft_applyRight _ _ _ | dft_applyLeft _ _ _ => true
  | _ => false
  end.

Definition loads (c : call) : answer c → bool :=
  match c return answer c → bool with
  | timer_getOrLoadArchive _ _ => fun a => match a with Some _ => true | None => false end
  | _ => fun _ => false
  end.

Fixpoint WritesAfterLoad {R : Type} (loaded : bool) (p : prog R) : Prop :=
  match p with
  | Ret _ => True
  | Throw _ => True
  | Call c k =>
      (writes c = true → loaded = true)
      ∧ ∀ a, WritesAfterLoad (loaded || loads c a) (k a)
  end.

(** A property of every call made when the program runs in a world,
    together with the world in which the call is made. *)
Fixpoint ExecAll {R : Type} (P : World → call → Prop) (p : prog R) (w : World) : Prop :=
  match p with
  | Ret _ => True
  | Throw _ => True
  | Call c k => P w c ∧ ExecAll P (k (handle w c).1) (handle w c).2
  end.


(** A [dft.diff] call asks for a deep diff. *)
Definition diffsDeep (c : call) : Prop :=
  match c with
  | dft_diff _ _ opts => ∃ o, opts = Some o ∧ do_shallow o = false
  | _ => True
  end.

(** A [timer] call waits for 3000 milliseconds. *)
Definition waits3000 (c : call) : Prop :=
  match c with
  | timer_getOrLoadArchive ms _ => ms = 3000%Z
  | _ => True
  end.

(** An apply call from left to right carries additions only, and there is
    no apply call from right to left. *)
Definition appliesAdditions (c : call) : Prop :=
  match c with
  | dft_applyRight _ _ d => Forall (fun e => d_change e = ChangeAdd) d
  | dft_applyLeft _ _ _ => False
  | _ => True
  end.

(** The answers a world gives, as an oracle. *)
Definition oracle_of (w : World) : Oracle := fun c => (handle w c).1.

(** ** When an operation gets as far as loading the archive *)

Section Ready.
Context `{Externals}.

(** The workspace record is found and complete, and its dat is owned
    and saved: [validateWorkspaceRecord] lets it through. *)
Definition workspaceReady (w : World) (profileId : jsval) (name files url : string) : Prop :=
  ∃ ws, w_workspaces w profileId name = Some ws
        ∧ truthy (localFilesPath ws) = Some files
        ∧ truthy (publishTargetUrl ws) = Some url
        ∧ from_option isOwner false (w_meta w (fromURLToKey url)) = true
        ∧ from_option isSaved false (w_userSettings w 0 (fromURLToKey url)) = true.

(** The same for an oracle, whose archive moreover loads in time. *)
Definition oracleReady (o : Oracle) (profileId : jsval) (name files url : string)
    (archive : FS) : Prop :=
  ∃ ws, o (workspacesDb_get profileId name) = Some ws
        ∧ truthy (localFilesPath ws) = Some files
        ∧ truthy (publishTargetUrl ws) = Some url
        ∧ from_option isOwner false (o (archivesDb_getMeta (fromURLToKey url))) = true
        ∧ from_option isSaved false
            (o (archivesDb_getUserSettings 0 (fromURLToKey url))) = true
        ∧ o (timer_getOrLoadArchive 3000 url) = Some archive.

(** What the guards of [diff] look at on one side. *)
Definition sniffedBinary (o : Oracle) (fs : FS) (filepath : string) : bool :=
  negb (bool_decide (isFileNameBinary filepath = Some false))
  && from_option st_isFile false (o (fs_stat fs filepath))
  && o (isFileContentBinary fs filepath).

Definition oversize (o : Oracle) (fs : FS) (filepath : string) : bool :=
  from_option st_isFile false (o (fs_stat fs filepath))
  && (from_option st_size 0 (o (fs_stat fs filepath)) >? MAX_DIFF_SIZE)%Z.

End Ready.

(** ** Ancestor directories, in the words of the spec *)

(** The names a path is made of. *)
Definition pathSegments (p : string) : list string :=
  List.filter Boolean (split "/" p).

Fixpoint isInitialPart (a b : list string) : bool :=
  match a, b with
  | [], _ => true
  | _ :: _, [] => false
  | x :: a', y :: b' => bool_decide (x = y) && isInitialPart a' b'
  end.

(** [dir] is a strict ancestor directory of [p]: both are taken from the
    root or both are not, the names of [dir] open those of [p], and [p]
    has more of them. *)
Definition strictAncestorDirectory (dir p : string) : bool :=
  bool_decide (startsWith dir "/" = startsWith p "/")
  && isInitialPart (pathSegments dir) (pathSegments p)
  && bool_decide (length (pathSegments dir) < length (pathSegments p)).

(** ** A concrete platform and a concrete world for the examples *)

(** [path.normalize] of Node on a POSIX system: empty and ["."] segments
    are dropped, [".."] climbs where it can, a trailing separator is kept. *)
Fixpoint normalizeSegments (allowAboveRoot : bool) (segs res : list string) : list string :=
  match segs with
  | [] => rev res
  | seg :: segs' =>
      if bool_decide (seg = "") || bool_decide (seg = ".")
      then normalizeSegments allowAboveRoot segs' res
      else if bool_decide (seg = "..")
      then match res with
           | top :: res' =>
               if bool_decide (top = "..")
               then normalizeSegments allowAboveRoot segs' (".." :: res)
               else normalizeSegments allowAboveRoot segs' res'
           | [] =>
               normalizeSegments allowAboveRoot segs'
                 (if allowAboveRoot then [".."] else [])
           end
      else normalizeSegments allowAboveRoot segs' (seg :: res)
  end.


Definition posix_normalize (p : string) : string :=
  if bool_decide (p = "") then "." else
  let isAbsolute := startsWith p "/" in
  let trailingSeparator := endsWith p "/" in
  let body := join "/" (normalizeSegments (negb isAbsolute) (split "/" p) []) in
  if bool_decide (body = "")
  then (if isAbsolute then "/" else if trailingSeparator then "./" else ".")
  else (if isAbsolute then "/" else "") +:+ body
       +:+ (if trailingSeparator then "/" else "").

(** Stand-ins for the tables of lib/mime and lib/const and for the glob
    matcher: enough to run the operations on the sample world. *)
Definition sample_isFileNameBinary (filepath : string) : option bool :=
  if endsWith filepath ".png" || endsWith filepath ".jpg" then Some true
  else if endsWith filepath ".txt" || endsWith filepath ".md"
          || endsWith filepath ".html" then Some false
  else None.

Definition sample_validName (name : string) : bool :=
  Boolean name && negb (existsb (fun s => negb (bool_decide (s = name))) (split "/" name)).

Definition sample_fromURLToKey (url : string) : string :=
  if startsWith url "dat://" then String.substring 6 (String.length url - 6) url else url.

Definition sample_glob_match (pattern filepath : string) : bool :=
  if startsWith pattern "**/"
  then let name := String.substring 3 (String.length pattern - 3) pattern in
       bool_decide (filepath = name) || endsWith filepath ("/" +:+ name)
  else bool_decide (filepath = pattern).

Inductive LineChange : Type :=
| Unchanged (value : string)
| Removed (value : string)
| Added (value : string).

Definition sample_diffLines (oldStr newStr : string) : list LineChange :=
  if bool_decide (oldStr = newStr) then [Unchanged oldStr]
  else [Removed oldStr; Added newStr].

Definition posix : Externals :=
  {| path_sep := "/"%char;
     path_normalize := posix_normalize;
     isFileNameBinary := sample_isFileNameBinary;
     WORKSPACE_VALID_NAME_REGEX_test := sample_validName;
     fromURLToKey := sample_fromURLToKey;
     glob_match := sample_glob_match;
     LineDiff := list LineChange;
     diffLines := sample_diffLines |}.

Definition sample_local : Tree :=
  <["/index.html" := File "hello"]>
  (<["/notes.txt" := File "only here"]>
  (<["/.datignore" := File ("notes.txt" +:+ String LF "/build")]>
  (<["/docs" := Directory]>
  (<["/docs/a.md" := File "A"]> ∅)))).

Definition sample_archive : Tree :=
  <["/index.html" := File "hello"]>
  (<["/dat.json" := File "{}"]>
  (<["/img" := Directory]>
  (<["/img/logo.png" := File "PNG"]> ∅))).

(** One workspace, ["site"], owned and saved; [fast] tells whether its
    archive loads within any window at all. *)
Definition sample_world (fast : bool) : World :=
  {| w_workspaces := fun profileId name =>
       if bool_decide (name = "site")
       then Some {| localFilesPath := Some "/home/bob/site";
                    publishTargetUrl := Some "dat://abc" |}
       else None;
     w_meta := fun key =>
       if bool_decide (key = "abc") then Some {| isOwner := true |} else None;
     w_userSettings := fun _ key =>
       if bool_decide (key = "abc") then Some {| isSaved := true |} else None;
     w_resolvesWithin := fun _ _ => fast;
     w_scoped := fun root =>
       if bool_decide (root = "/home/bob/site") then sample_local else ∅;
     w_archives := fun url =>
       if bool_decide (url = "dat://abc") then sample_archive else ∅;
     w_contentBinary := fun content => startsWith content "PNG" |}.

Definition noOpts : Opts :=
  {| opts_compareContent := JUndefined; opts_shallow := JUndefined;
     opts_paths := JUndefined |}.

Definition pathsOpts (paths : list string) : Opts :=
  {| opts_compareContent := JUndefined; opts_shallow := JBoolean true;
     opts_paths := JArray (JString <$> paths) |}.

(** The sample world seen by [diff], except that both sides hold a regular
    file of the given sizes at every path. *)
Definition sample_oracle (localSize archiveSize : Z) : Oracle :=
  fun c =>
    match c return answer c with
    | fs_stat (ScopedFS _) _ =>
        Some {| st_isFile := true; st_isDirectory := false; st_size := localSize |}
    | fs_stat (ArchiveFS _) _ =>
        Some {| st_isFile := true; st_isDirectory := false; st_size := archiveSize |}
    | fs_readFile (ScopedFS _) _ => Some "new text"
    | fs_readFile (ArchiveFS _) _ => Some "old text"
    | c => oracle_of (sample_world true) c
    end.

(** The sample world seen by [diff] when the local folder cannot be read
    at all. *)
Definition unreadable_oracle : Oracle :=
  fun c =>
    match c return answer c with
    | fs_stat (ScopedFS _) _ => None
    | fs_readFile (ScopedFS _) _ => None
    | c => oracle_of (sample_world true) c
    end.

(** ** The rest of the exported api

    [list], [get], [set], [create], [remove] and [addToDatignore], with
    the helpers [assertDatUrl], [assertDatHasNoWorkspace] and
    [assertSafeFilesPath].  They talk to more collaborators (the rest of
    the workspace database, [app.getPath] of Electron, [fs.stat] of Node,
    [mkdirp], [writeFile] of a scoped file system) and throw more kinds of
    errors, so their programs live in a second free monad that contains
    the first one. *)

Inductive ApiError : Type :=
| Thrown (e : Error)                           (* an error of the operations above *)
| InvalidURLError (message : string)
| ProtectedFileNotWritableError (message : string)
| NotAFolderError (message : string)
| TypeError                                    (* [path.normalize] of what is no string *)
| Rejected (err : string).                     (* the error [mkdirp] rejects with *)

(** The [opts] of [set] and [create], with their documented types: each
    property is a string or is absent. *)
Record WorkspaceOpts : Type := {
  wo_name : option string;
  wo_localFilesPath : option string;
  wo_publishTargetUrl : option string
}.

(** The record [get] returns: the two stored properties and the two marks
    [get] puts on the record ([wi_localFilesPathIsMissing = false] when
    the mark is not set). *)
Record WorkspaceInfo : Type := {
  wi_localFilesPath : option string;
  wi_publishTargetUrl : option string;
  wi_localFilesPathIsMissing : bool;
  wi_missingLocalFilesPath : option string
}.

Inductive apiCall : Type :=
| base (c : call)
| workspacesDb_list (profileId : jsval)
| workspacesDb_getByPublishTargetUrl (profileId : jsval) (url : string)
| workspacesDb_set (profileId : jsval) (name : string) (opts : WorkspaceOpts)
| workspacesDb_remove (profileId : jsval) (name : string)
| workspacesDb_getUnusedName
| app_getPath (name : string)
  (** [fs.stat(path, cb)] of Node: the [st] argument of the callback *)
| node_stat (path : string)
  (** [mkdirp(path, cb)]: the [err] argument of the callback *)
| mkdirp (path : string)
  (** [fs.writeFile(filepath, data, cb)]: the [err] argument of the callback *)
| fs_writeFile (fs : FS) (filepath data : string).

Definition apiAnswer (c : apiCall) : Type :=
  match c with
  | base c => answer c
  | workspacesDb_list _ => list WorkspaceRecord
  | workspacesDb_getByPublishTargetUrl _ _ => option WorkspaceRecord
  | workspacesDb_set _ _ _ => unit
  | workspacesDb_remove _ _ => unit
  | workspacesDb_getUnusedName => string
  | app_getPath _ => string
  | node_stat _ => option Stat
  | mkdirp _ => option string
  | fs_writeFile _ _ _ => option string
  end.

Inductive api (R : Type) : Type :=
| ARet (r : R)
| AThrow (e : ApiError)
| ACall (c : apiCall) (k : apiAnswer c → api R).

Arguments ARet {R} r.
Arguments AThrow {R} e.
Arguments ACall {R} c k.

Fixpoint abind {A B : Type} (p : api A) (f : A → api B) : api B :=
  match p with
  | ARet a => f a
  | AThrow e => AThrow e
  | ACall c k => ACall c (fun x => abind (k x) f)
  end.

Global Instance api_ret : MRet api := @ARet.
Global Instance api_bind : MBind api := fun A B f p => abind p f.

Definition acall (c : apiCall) : api (apiAnswer c) := ACall c ARet.

(** A program of the operations above, as a program here. *)
Fixpoint lift {R : Type} (p : prog R) : api R :=
  match p with
  | Ret r => ARet r
  | Throw e => AThrow (Thrown e)
  | Call c k => ACall (base c) (fun x => lift (k x))
  end.

Definition DISALLOWED_SAVE_PATH_NAMES : list string :=
  ["home"; "desktop"; "documents"; "downloads"; "music"; "pictures"; "videos"].

Section MoreWorkspaces.
Context `{Externals}.

(** Returns the url it has checked to be a string. *)
Definition assertDatUrl (url : option string) : api string :=
  match url with
  | Some url =>
      if startsWith url "dat://" then ARet url
      else AThrow (InvalidURLError "Invalid publishTargetUrl - must be a dat:// url.")
  | None => AThrow (InvalidURLError "Invalid publishTargetUrl - must be a dat:// url.")
  end.

Definition assertDatHasNoWorkspace (profileId : jsval) (url : string) : api unit :=
  ws ← acall (workspacesDb_getByPublishTargetUrl profileId url);
  match ws with
  | Some _ => AThrow (Thrown (PlainError "A workspace already exists for this dat"))
  | None => ARet tt
  end.

(** The [for] loop of [assertSafeFilesPath]: check whether this is an OS
    path. *)
Fixpoint assertSafeFilesPath_loop (names : list string) (localFilesPath : string) : api unit :=
  match names with
  | [] => ARet tt
  | disallowedSavePathName :: rest =>
      disallowedSavePath ← acall (app_getPath disallowedSavePathName);
      if bool_decide (path_normalize localFilesPath = path_normalize disallowedSavePath)
      then AThrow (ProtectedFileNotWritableError
                     ("This is the OS " +:+ disallowedSavePathName
                      +:+ " folder, which is protected. Please pick another folder or subfolder."))
      else assertSafeFilesPath_loop rest localFilesPath
  end.

Definition assertSafeFilesPath (localFilesPath : string) : api unit :=
  assertSafeFilesPath_loop DISALLOWED_SAVE_PATH_NAMES localFilesPath;;
  (* stat the file *)
  stat ← acall (node_stat localFilesPath);
  match stat with
  | Some stat =>
      if negb (st_isDirectory stat)
      then AThrow (NotAFolderError "Invalid target folder: not a folder")
      else ARet tt
  | None =>
      (* create the target folder *)
      err ← acall (mkdirp localFilesPath);
      match err with
      | Some err => AThrow (Rejected err)
      | None => ARet tt
      end
  end.

Definition list_ (profileId : jsval) : api (list WorkspaceRecord) :=
  lift (assertValidProfileId profileId);;
  acall (workspacesDb_list profileId).

Definition get (profileId : jsval) (name : string) : api (option WorkspaceInfo) :=
  lift (assertValidProfileId profileId);;
  (* get the record *)
  ws ← (if startsWith name "dat://"
        then assertDatUrl (Some name);;
             acall (workspacesDb_getByPublishTargetUrl profileId name)
        else lift (assertValidName name);;
             acall (base (workspacesDb_get profileId name)));
  (* check that the files path is valid *)
  match ws with
  | Some ws =>
      match truthy (localFilesPath ws) with
      | Some files =>
          stat ← acall (node_stat files);
          if negb (from_option st_isDirectory false stat)
          then ARet (Some {| wi_localFilesPath := None; (* unset to avoid accidents *)
                             wi_publishTargetUrl := publishTargetUrl ws;
                             wi_localFilesPathIsMissing := true;
                             wi_missingLocalFilesPath := Some files |})
          else ARet (Some {| wi_localFilesPath := localFilesPath ws;
                             wi_publishTargetUrl := publishTargetUrl ws;
                             wi_localFilesPathIsMissing := false;
                             wi_missingLocalFilesPath := None |})
      | None =>
          ARet (Some {| wi_localFilesPath := localFilesPath ws;
                        wi_publishTargetUrl := publishTargetUrl ws;
                        wi_localFilesPathIsMissing := true;
                        wi_missingLocalFilesPath := None |})
      end
  | None => ARet None
  end.

(** create or update a workspace *)
Definition set (profileId : jsval) (name : string) (opts : WorkspaceOpts) : api unit :=
  lift (assertValidProfileId profileId);;
  lift (assertValidName name);;
  localFilesPath ← match wo_localFilesPath opts with
                   | Some localFilesPath =>
                       let localFilesPath := path_normalize localFilesPath in
                       assertSafeFilesPath localFilesPath;;
                       ARet (Some localFilesPath)
                   | None => ARet None
                   end;
  match wo_publishTargetUrl opts with
  | Some _ =>
      url ← assertDatUrl (wo_publishTargetUrl opts);
      lift (assertDatIsSavedAndOwned url)
  | None => ARet tt
  end;;
  acall (workspacesDb_set profileId name
           {| wo_name := wo_name opts;
              wo_localFilesPath := localFilesPath;
              wo_publishTargetUrl := wo_publishTargetUrl opts |}).

(** create a new workspace *)
Definition create (profileId : jsval) (opts : WorkspaceOpts) : api WorkspaceOpts :=
  lift (assertValidProfileId profileId);;
  url ← assertDatUrl (wo_publishTargetUrl opts);
  lift (assertDatIsSavedAndOwned url);;
  assertDatHasNoWorkspace profileId url;;
  name ← match truthy (wo_name opts) with
         | Some name => ARet name
         | None => acall workspacesDb_getUnusedName
         end;
  lift (assertValidName name);;
  localFilesPath ← match wo_localFilesPath opts with
                   | Some localFilesPath => ARet (path_normalize localFilesPath)
                   | None => AThrow TypeError
                   end;
  assertSafeFilesPath localFilesPath;;
  let opts := {| wo_name := Some name;
                 wo_localFilesPath := Some localFilesPath;
                 wo_publishTargetUrl := wo_publishTargetUrl opts |} in
  acall (workspacesDb_set profileId name opts);;
  ARet opts.

(** remove a workspace *)
Definition remove (profileId : jsval) (name : string) : api unit :=
  lift (assertValidProfileId profileId);;
  lift (assertValidName name);;
  acall (workspacesDb_remove profileId name).

(** The new content of the ignore file: the lines of the old one and the
    line to add, without the empty ones, each closed by a line feed.  (The
    [catch] branch of the source is never taken: what the [try] block
    holds does not throw on a string.) *)
Definition addToDatignore_content (v : option string) (line : string) : string :=
  join (String LF "") (List.filter Boolean (split LF (default "" v) ++ [line]))
  +:+ String LF "".

(** add the given line to the .datignore in the workspace *)
Definition addToDatignore (profileId : jsval) (name : string) (line : jsval) : api unit :=
  lift (assertValidProfileId profileId);;
  lift (assertValidName name);;
  match line with
  | JString line =>
      if Boolean line then
        (* fetch workspace *)
        ws ← acall (base (workspacesDb_get profileId name));
        ws ← lift (validateWorkspaceRecord name ws);
        let scopedFS := ScopedFS ws.1 in
        (* read & update rules *)
        v ← acall (base (fs_readFile scopedFS ".datignore"));
        let datignore := addToDatignore_content v line in
        (* write new file *)
        acall (fs_writeFile scopedFS ".datignore" datignore);;
        ARet tt
      else AThrow (Thrown (PlainError "Must provide a pattern to add to the .datignore"))
  | _ => AThrow (Thrown (PlainError "Must provide a pattern to add to the .datignore"))
  end.

End MoreWorkspaces.

(** Running a program of the api against fixed answers, and the calls it
    makes on the way. *)
Definition ApiOracle : Type := ∀ c : apiCall, apiAnswer c.

Inductive apiResult (R : Type) : Type :=
| AOk (r : R)
| AErr (e : ApiError).

Arguments AOk {R} r.
Arguments AErr {R} e.

Fixpoint apiRun {R : Type} (o : ApiOracle) (p : api R) : apiResult R :=
  match p with
  | ARet r => AOk r
  | AThrow e => AErr e
  | ACall c k => apiRun o (k (o c))
  end.

Fixpoint apiTrace {R : Type} (o : ApiOracle) (p : api R) : list apiCall :=
  match p with
  | ARet _ => []
  | AThrow _ => []
  | ACall c k => c :: apiTrace o (k (o c))
  end.

(** A property of every call a program of the api can make. *)
Fixpoint AllApiCalls {R : Type} (P : apiCall → Prop) (p : api R) : Prop :=
  match p with
  | ARet _ => True
  | AThrow _ => True
  | ACall c k => P c ∧ ∀ a, AllApiCalls P (k a)
  end.

(** The calls that change something outside the program. *)
Definition apiWrites (c : apiCall) : bool :=
  match c with
  | base c => writes c
  | workspacesDb_set _ _ _ | workspacesDb_remove _ _ | mkdirp _
  | fs_writeFile _ _ _ => true
  | _ => false
  end.

(** The only thing a call may write is the ignore file of a local
    folder; no archive is loaded, no tree is diffed, and the only file
    read is the ignore file. *)
Definition touchesDatignoreOnly (c : apiCall) : Prop :=
  match c with
  | base (workspacesDb_get _ _) | base (archivesDb_getMeta _)
  | base (archivesDb_getUserSettings _ _) => True
  | base (fs_readFile fs p) => p = ".datignore" ∧ ∃ root, fs = ScopedFS root
  | fs_writeFile fs p _ => p = ".datignore" ∧ ∃ root, fs = ScopedFS root
  | _ => False
  end.

(** The answers of a sample machine: the sample world for the calls of
    the first part, the folders of a user called bob, one of which is the
    folder of the workspace, and a file where a folder is expected. *)
Definition sample_api : ApiOracle :=
  fun c =>
    match c return apiAnswer c with
    | base c => oracle_of (sample_world true) c
    | workspacesDb_list _ =>
        [ {| localFilesPath := Some "/home/bob/site";
             publishTargetUrl := Some "dat://abc" |} ]
    | workspacesDb_getByPublishTargetUrl _ url =>
        if bool_decide (url = "dat://abc")
        then Some {| localFilesPath := Some "/home/bob/site";
                     publishTargetUrl := Some "dat://abc" |}
        else None
    | workspacesDb_set _ _ _ => tt
    | workspacesDb_remove _ _ => tt
    | workspacesDb_getUnusedName => "untitled-1"
    | app_getPath name =>
        if bool_decide (name = "home") then "/home/bob" else "/home/bob/" +:+ name
    | node_stat path =>
        if bool_decide (path = "/home/bob/site")
        then Some {| st_isFile := false; st_isDirectory := true; st_size := 0 |}
        else if bool_decide (path = "/home/bob/notes.txt")
        then Some {| st_isFile := true; st_isDirectory := false; st_size := 9 |}
        else None
    | mkdirp _ => None
    | fs_writeFile _ _ _ => None
    end.

(** The same machine before any workspace is stored: no target has a
    workspace yet. *)
Definition fresh_api : ApiOracle :=
  fun c =>
    match c return apiAnswer c with
    | workspacesDb_getByPublishTargetUrl _ _ => None
    | c => sample_api c
    end.

(** A machine on which every folder of the operating system is the home
    folder. *)
Definition kiosk_api : ApiOracle :=
  fun c =>
    match c return apiAnswer c with
    | app_getPath _ => "/home/bob"
    | c => sample_api c
    end.

(** The calls a program of the first part makes against fixed answers. *)
Fixpoint trace {R : Type} (o : Oracle) (p : prog R) : list call :=
  match p with
  | Ret _ => []
  | Throw _ => []
  | Call c k => c :: trace o (k (o c))
  end.


(** The same call with the apply turned around: what [dft.applyRight]
    would write to the right side, [dft.applyLeft] writes to the left. *)
Definition turned (c : call) : call :=
  match c with
  | dft_applyRight l r d => dft_applyLeft l r d
  | c => c
  end.
(** * Properties *)

(** ** JavaScript strings *)

Lemma append_nil_l (s : string) : "" +:+ s = s.
Proof. reflexivity. Qed.

Lemma append_cons (c : ascii) (s t : string) :
  String c s +:+ t = String c (s +:+ t).
Proof. reflexivity. Qed.

Lemma append_empty_r (s : string) : s +:+ "" = s.
Proof. induction s as [|c s IH]; [done | by rewrite append_cons, IH]. Qed.

Lemma append_assoc (a b c : string) : (a +:+ b) +:+ c = a +:+ (b +:+ c).
Proof. induction a as [|x a IH]; [done | by rewrite !append_cons, IH]. Qed.

Lemma append_length (a b : string) :
  String.length (a +:+ b) = String.length a + String.length b.
Proof.
  induction a as [|x a IH]; [done |].
  rewrite append_cons. simpl. by rewrite IH.
Qed.

Lemma append_eq_self (a b : string) : a +:+ b = a → b = "".
Proof.
  intros Heq. apply (f_equal String.length) in Heq.
  rewrite append_length in Heq. destruct b; [done | simpl in Heq; lia].
Qed.

Lemma startsWith_spec (s p : string) :
  startsWith s p = true ↔ ∃ rest, s = p +:+ rest.
Proof.
  revert s. induction p as [|c p IH]; intros s.
  - destruct s; cbn [startsWith]; split; eauto.
  - destruct s as [|d s]; cbn [startsWith].
    + split; [done | intros [rest Hrest]; done].
    + rewrite andb_true_iff, bool_decide_eq_true, IH. split.
      * intros [-> [rest ->]]. by exists rest.
      * intros [rest Hrest]. injection Hrest as -> ->. eauto.
Qed.

Lemma startsWith_refl (s : string) : startsWith s s = true.
Proof. apply startsWith_spec. exists "". by rewrite append_empty_r. Qed.

Lemma endsWith_spec (s suf : string) :
  endsWith s suf = true ↔ ∃ front, s = front +:+ suf.
Proof.
  induction s as [|c s IH]; cbn [endsWith];
    rewrite orb_true_iff, bool_decide_eq_true.
  - split.
    + intros [<- | ?]; [by exists "" | done].
    + intros [front Hfront]. left.
      destruct front; [done | discriminate].
  - rewrite IH. split.
    + intros [<- | [front ->]]; [by exists "" | by exists (String c front)].
    + intros [[|d front] Hfront]; [by left |].
      rewrite append_cons in Hfront.
      injection Hfront as -> ->. right. eauto.
Qed.

Lemma slice_0_m1_snoc (front : string) (c : ascii) :
  slice_0_m1 (front +:+ String c "") = front.
Proof.
  induction front as [|d front IH]; [done |].
  rewrite append_cons. cbn [slice_0_m1]. rewrite IH.
  by destruct front.
Qed.

Lemma split_nonempty (sep : ascii) (s : string) : split sep s ≠ [].
Proof.
  destruct s as [|c s]; cbn [split]; [done |].
  case_bool_decide; [done |]. by destruct (split sep s).
Qed.

(** Joining the pieces with the separator gives the string back. *)
Lemma join_split (sep : ascii) (s : string) :
  join (String sep "") (split sep s) = s.
Proof.
  induction s as [|c s IH]; cbn [split]; [done |].
  pose proof (split_nonempty sep s) as Hne.
  case_bool_decide as Hc.
  - subst c. cbn [join]. destruct (split sep s) as [|x xs]; [done |].
    by rewrite IH.
  - destruct (split sep s) as [|x xs]; [done |].
    cbn [join] in *. destruct xs as [|y ys].
    + by rewrite IH.
    + rewrite append_cons. by rewrite IH.
Qed.

(** The "parent folder" test of the path-scope filter: the target goes on
    with ["/"] right after the path. *)
Lemma parent_test_spec (targetPath filepath : string) :
  startsWith targetPath filepath
  && bool_decide (charAt targetPath (String.length filepath) = "/") = true
  ↔ ∃ rest, targetPath = filepath +:+ String "/" rest.
Proof.
  revert targetPath. induction filepath as [|c f IH]; intros t.
  - destruct t as [|d t]; cbn [startsWith String.length andb].
    + rewrite bool_decide_eq_true. unfold charAt; cbn [String.get].
      split; [done | intros [? ?]; done].
    + rewrite bool_decide_eq_true. unfold charAt; cbn [String.get]. split.
      * intros [= ->]. eauto.
      * intros [rest [= -> ->]]. done.
  - destruct t as [|d t]; cbn [startsWith String.length andb].
    + split; [done | intros [? ?]; done].
    + rewrite <- andb_assoc, andb_true_iff, bool_decide_eq_true.
      change (charAt (String d t) (S (String.length f)))
        with (charAt t (String.length f)).
      rewrite IH. split.
      * intros [-> [rest ->]]. eauto.
      * intros [rest [= -> ->]]. eauto.
Qed.

Section WorkspacesFacts.
Context `{Externals}.

(** ** The path-scope filter *)

(** One round of the loop, in terms of how the path and the target are
    written. *)
Lemma makeDiffFilterByPaths_round (targetPath filepath : string) :
  (if endsWith targetPath (String path_sep "")
   then bool_decide (filepath = slice_0_m1 targetPath)
        || startsWith filepath targetPath
   else bool_decide (filepath = targetPath)) = true
  ↔ filepath = targetPath
    ∨ (∃ dir rest, targetPath = dir +:+ String path_sep ""
                   ∧ filepath = targetPath +:+ rest)
    ∨ targetPath = filepath +:+ String path_sep "".
Proof.
  destruct (endsWith targetPath (String path_sep "")) eqn:Hends.
  - apply endsWith_spec in Hends as [dir ->].
    rewrite orb_true_iff, bool_decide_eq_true, slice_0_m1_snoc, startsWith_spec.
    split.
    + intros [-> | [rest ->]]; [by right; right | right; left; eauto].
    + intros [-> | [(dir' & rest & _ & ->) | Heq]].
      * right. exists "". by rewrite append_empty_r.
      * right. eauto.
      * left. revert Heq. clear. revert filepath.
        induction dir as [|c dir IH]; intros [|d f]; simpl; intros Heq;
          try done.
        -- injection Heq as _ Heq. by destruct f.
        -- injection Heq as _ Heq. by destruct dir.
        -- injection Heq as -> Heq. f_equal. by apply IH.
  - rewrite bool_decide_eq_true. split; [by left |].
    intros [-> | [(dir & rest & -> & _) | ->]]; [done | |].
    + rewrite (proj2 (endsWith_spec _ _)) in Hends; [done | eauto].
    + rewrite (proj2 (endsWith_spec _ _)) in Hends; [done | eauto].
Qed.

Lemma makeDiffFilterByPaths_loop_false (targetPaths : list string) (filepath : string) :
  makeDiffFilterByPaths_loop targetPaths filepath = false
  ↔ ∃ targetPath, targetPath ∈ targetPaths
      ∧ (filepath = targetPath
         ∨ (∃ dir rest, targetPath = dir +:+ String path_sep ""
                        ∧ filepath = targetPath +:+ rest)
         ∨ targetPath = filepath +:+ String path_sep ""
         ∨ ∃ rest, targetPath = filepath +:+ String "/" rest).
Proof.
  induction targetPaths as [|t ts IH]; simpl.
  - split; [done | intros (? & Hin & _); by apply elem_of_nil in Hin].
  - pose proof (makeDiffFilterByPaths_round t filepath) as Hround.
    pose proof (parent_test_spec t filepath) as Hparent.
    destruct (if endsWith t (String path_sep "") then _ else _) eqn:Hhit.
    + split; [intros _ | done].
      exists t. split; [apply elem_of_cons; by left |].
      destruct (proj1 Hround eq_refl) as [?|[?|?]]; eauto.
    + destruct (startsWith t filepath && _) eqn:Hpar.
      * split; [intros _ | done].
        exists t. split; [apply elem_of_cons; by left |].
        do 3 right. by apply Hparent.
      * rewrite IH. split.
        -- intros (t' & Hin & Hcase). exists t'.
           split; [apply elem_of_cons; by right | done].
        -- intros (t' & [-> | Hin]%elem_of_cons & Hcase); [| eauto].
           destruct Hcase as [?|[?|[?|?]]].
           ++ assert (false = true) by (apply Hround; eauto). done.
           ++ assert (false = true) by (apply Hround; eauto). done.
           ++ assert (false = true) by (apply Hround; eauto). done.
           ++ assert (false = true) by (by apply Hparent). done.
Qed.

(** C3 (amended).  The path-scope filter answers [false] exactly on: a
    path equal to a normalized target; a path that extends a target
    ending with the separator; the folder of such a target written
    without the separator; and a path that a target extends by ["/"] and
    a remainder (an ancestor folder written without a trailing
    separator).  It answers [true] on every other path, the root ["/"]
    included.  When no target ends with the separator, only equality and
    the ancestor case remain: a target is never matched as a prefix of a
    longer path. *)
Theorem makeDiffFilterByPaths_false_iff (targetPaths : list string) (filepath : string) :
  (makeDiffFilterByPaths targetPaths filepath = false
   ↔ ∃ targetPath, targetPath ∈ map path_normalize targetPaths
       ∧ (filepath = targetPath
          ∨ (∃ dir rest, targetPath = dir +:+ String path_sep ""
                         ∧ filepath = targetPath +:+ rest)
          ∨ targetPath = filepath +:+ String path_sep ""
          ∨ ∃ rest, targetPath = filepath +:+ String "/" rest))
  ∧ ((∀ targetPath, targetPath ∈ map path_normalize targetPaths →
        endsWith targetPath (String path_sep "") = false) →
     (makeDiffFilterByPaths targetPaths filepath = false
      ↔ ∃ targetPath, targetPath ∈ map path_normalize targetPaths
          ∧ (filepath = targetPath
             ∨ ∃ rest, targetPath = filepath +:+ String "/" rest))).
Proof.
  unfold makeDiffFilterByPaths.
  split; [apply makeDiffFilterByPaths_loop_false |].
  intros Hfiles. rewrite makeDiffFilterByPaths_loop_false.
  split; intros (t & Hin & Hcase); exists t; (split; [done |]).
  - specialize (Hfiles t Hin).
    destruct Hcase as [?|[(dir & rest & -> & _)|[->|?]]]; eauto.
    + rewrite (proj2 (endsWith_spec _ _)) in Hfiles; [done | eauto].
    + rewrite (proj2 (endsWith_spec _ _)) in Hfiles; [done | eauto].
  - destruct Hcase as [?|?]; eauto.
Qed.

End WorkspacesFacts.

Lemma makeDiffFilterByPaths_false_iff_witness :
  (∀ targetPath, targetPath ∈ map posix_normalize ["/a/b"] →
     endsWith targetPath "/" = false)
  ∧ (makeDiffFilterByPaths (H := posix) ["/a/b"] "/a/b/c" = false
     ↔ ∃ targetPath, targetPath ∈ map posix_normalize ["/a/b"]
         ∧ ("/a/b/c" = targetPath
            ∨ ∃ rest, targetPath = "/a/b/c" +:+ String "/" rest)).
Proof.
  assert (Hfiles : ∀ targetPath, targetPath ∈ map posix_normalize ["/a/b"] →
                     endsWith targetPath "/" = false).
  { intros t Hin.
    replace (map posix_normalize ["/a/b"]) with ["/a/b"] in Hin
      by (vm_compute; reflexivity).
    apply list_elem_of_singleton in Hin as ->. vm_compute. reflexivity. }
  split; [exact Hfiles |].
  exact (proj2 (makeDiffFilterByPaths_false_iff (H := posix) ["/a/b"] "/a/b/c") Hfiles).
Defined.

(** The root is a strict ancestor directory of the target ["/a/b"], and
    yet the filter answers [true] on it. *)
Lemma makeDiffFilterByPaths_root_counterexample :
  strictAncestorDirectory "/" "/a/b" = true
  ∧ makeDiffFilterByPaths (H := posix) ["/a/b"] "/" = true.
Proof. split; vm_compute; reflexivity. Qed.

(** ** Programs *)

Lemma exec_bind {A B : Type} (p : prog A) (f : A → prog B) (w : World) :
  exec (p ≫= f) w
  = match exec p w with
    | (Ok a, w') => exec (f a) w'
    | (Err e, w') => (Err e, w')
    end.
Proof.
  change (p ≫= f) with (bind p f). revert w.
  induction p as [a|e|c k IH]; intros w; cbn [bind exec]; [done | done |].
  apply IH.
Qed.

Lemma run_bind {A B : Type} (o : Oracle) (p : prog A) (f : A → prog B) :
  run o (p ≫= f)
  = match run o p with
    | Ok a => run o (f a)
    | Err e => Err e
    end.
Proof.
  change (p ≫= f) with (bind p f).
  induction p as [a|e|c k IH]; cbn [bind run]; [done | done |].
  apply IH.
Qed.

Lemma AllCalls_bind {A B : Type} (P : call → Prop) (p : prog A) (f : A → prog B) :
  AllCalls P p → (∀ a, AllCalls P (f a)) → AllCalls P (p ≫= f).
Proof.
  change (p ≫= f) with (bind p f). intros Hp Hf.
  induction p as [a|e|c k IH]; cbn [bind AllCalls] in *; [done | done |].
  destruct Hp as [Hc Hk]. split; [done |]. intros a. by apply IH.
Qed.

(** ** The diff and apply engines *)

Lemma classify_Some (compareContent : bool) (l r : Tree) (p : string) (e : DiffEntry) :
  classify compareContent l r p = Some e →
  d_path e = p
  ∧ (d_change e = ChangeAdd → is_Some (l !! p) ∧ r !! p = None).
Proof.
  unfold classify.
  destruct (l !! p) as [n|], (r !! p) as [n'|];
    [destruct (compareContent && _) | | |]; intros [= <-]; simpl; eauto.
  all: split; [done | intros [=]].
Qed.

Lemma diffEngine_elem (l r : Tree) (opts : option DiffOpts) (e : DiffEntry) :
  e ∈ diffEngine l r opts →
  d_path e ∈ elements (dom l ∪ dom r)
  ∧ excluded (default (fun _ => false) (opts ≫= do_filter))
             (elements (dom l ∪ dom r)) (d_path e) = false
  ∧ classify (from_option do_compareContent true opts) l r (d_path e) = Some e.
Proof.
  unfold diffEngine. intros (p & Hp & Hc)%list_elem_of_omap.
  apply list_elem_of_In, filter_In in Hp as [Hp Hkeep].
  apply andb_true_iff in Hkeep as [Hex _]. apply negb_true_iff in Hex.
  destruct (classify_Some _ _ _ _ _ Hc) as [-> _].
  by rewrite list_elem_of_In.
Qed.

Lemma excluded_self (f : string → bool) (candidates : list string) (p : string) :
  p ∈ candidates → excluded f candidates p = false → f p = false.
Proof.
  intros Hin Hex. destruct (f p) eqn:Hf; [| done].
  assert (excluded f candidates p = true); [| congruence].
  apply existsb_exists. exists p. split; [by apply list_elem_of_In |].
  by rewrite bool_decide_eq_true_2.
Qed.

(** Nothing the engine reports lies on a path where the filter answers
    [true]. *)
Lemma diffEngine_filter_false (l r : Tree) (opts : DiffOpts) (f : string → bool)
    (e : DiffEntry) :
  do_filter opts = Some f →
  e ∈ diffEngine l r (Some opts) → f (d_path e) = false.
Proof.
  intros Hf (Hin & Hex & _)%diffEngine_elem.
  simpl in Hex. rewrite Hf in Hex. simpl in Hex.
  by eapply excluded_self.
Qed.

(** An addition is a path of the left tree that the right tree lacks. *)
Lemma diffEngine_add (l r : Tree) (opts : option DiffOpts) (e : DiffEntry) :
  e ∈ diffEngine l r opts → d_change e = ChangeAdd →
  is_Some (l !! d_path e) ∧ r !! d_path e = None.
Proof.
  intros (_ & _ & Hc)%diffEngine_elem Hadd.
  by apply (classify_Some _ _ _ _ _ Hc).
Qed.

Lemma filter_nothing {A : Type} (g : A → bool) (l : list A) :
  (∀ x, In x l → g x = false) → List.filter g l = [].
Proof.
  induction l as [|x l IH]; intros Hg; simpl; [done |].
  rewrite (Hg x) by (by left). apply IH. intros y Hy. apply Hg. by right.
Qed.

(** A filter that answers [true] everywhere leaves an empty diff. *)
Lemma diffEngine_all_excluded (l r : Tree) (opts : DiffOpts) (f : string → bool) :
  do_filter opts = Some f → (∀ p, f p = true) →
  diffEngine l r (Some opts) = [].
Proof.
  intros Hf Hall. unfold diffEngine. simpl. rewrite Hf. simpl.
  rewrite filter_nothing; [done |].
  intros p Hp. apply andb_false_iff. left. apply negb_false_iff.
  apply existsb_exists. exists p. split; [done |].
  by rewrite bool_decide_eq_true_2, Hall.
Qed.

(** A tree does not differ from itself. *)
Lemma diffEngine_refl (t : Tree) (opts : option DiffOpts) : diffEngine t t opts = [].
Proof.
  unfold diffEngine.
  generalize (List.filter
    (λ p, negb (excluded (default (λ _, false) (opts ≫= do_filter))
                  (elements (dom t ∪ dom t)) p)
          && negb (from_option do_shallow true opts
                   && suppressed t t (elements (dom t ∪ dom t)) p))
    (elements (dom t ∪ dom t))).
  intros ps. induction ps as [|p ps IH]; [done |].
  cbn [omap list_omap]. fold (omap (classify (from_option do_compareContent true opts) t t) ps).
  rewrite IH. unfold classify. destruct (t !! p) as [n|]; [| done].
  by rewrite bool_decide_eq_true_2, andb_false_r.
Qed.

Lemma omap_paths_NoDup (f : string → option DiffEntry) (ps : list string) :
  (∀ p e, f p = Some e → d_path e = p) →
  NoDup ps → NoDup (map d_path (omap f ps)).
Proof.
  intros Hf. induction 1 as [|p ps Hnotin Hnodup IH]; [constructor |].
  cbn [omap list_omap]. fold (omap f ps).
  destruct (f p) as [e|] eqn:He; [| done].
  cbn [map]. apply NoDup_cons. split; [| done].
  rewrite (Hf _ _ He). intros Hin. apply Hnotin.
  apply list_elem_of_In, in_map_iff in Hin as (e' & Hpath & He').
  apply list_elem_of_In, list_elem_of_omap in He' as (p' & Hp' & Hfp').
  by rewrite <- Hpath, (Hf _ _ Hfp').
Qed.

(** No path is reported twice. *)
Lemma diffEngine_NoDup (l r : Tree) (opts : option DiffOpts) :
  NoDup (map d_path (diffEngine l r opts)).
Proof.
  unfold diffEngine. apply omap_paths_NoDup.
  - intros p e He. by apply (classify_Some _ _ _ _ _ He).
  - apply NoDup_ListNoDup, List.NoDup_filter, NoDup_ListNoDup, NoDup_elements.
Qed.

Lemma mkParents_subseteq (p : string) (t : Tree) : t ⊆ mkParents p t.
Proof.
  unfold mkParents. generalize (ancestors p). intros qs. revert t.
  induction qs as [|q qs IH]; intros t; simpl; [done |].
  etrans; [| apply IH].
  destruct (t !! q) eqn:Hq; [done | by apply insert_subseteq].
Qed.

Lemma copyPath_keeps (src t0 t : Tree) (p : string) :
  t0 !! p = None → t0 ⊆ t → t0 ⊆ copyPath src t p.
Proof.
  intros Hp Hsub. unfold copyPath. destruct (src !! p); [| done].
  apply insert_subseteq_r; [done |].
  etrans; [done | apply mkParents_subseteq].
Qed.

(** Applying additions of paths that a tree lacks keeps all it holds. *)
Lemma applyRightEngine_adds (src t0 t : Tree) (d : list DiffEntry) :
  (∀ e, e ∈ d → d_change e = ChangeAdd ∧ t0 !! d_path e = None) →
  t0 ⊆ t → t0 ⊆ applyRightEngine src t d.
Proof.
  unfold applyRightEngine. revert t.
  induction d as [|e d IH]; intros t Hd Hsub; simpl; [done |].
  apply IH.
  - intros e' He'. apply Hd. by apply elem_of_cons; right.
  - destruct (Hd e) as [Hadd Hnone]; [by apply elem_of_cons; left |].
    unfold applyRightEntry. rewrite Hadd. by apply copyPath_keeps.
Qed.

(** ** Running the operations *)

Lemma mkParents_lookup (p : string) (t : Tree) (q : string) (n : Node) :
  mkParents p t !! q = Some n → t !! q = Some n ∨ n = Directory.
Proof.
  unfold mkParents. generalize (ancestors p). intros qs. revert t.
  induction qs as [|a qs IH]; intros t; simpl; [by left |].
  intros Hq. destruct (IH _ Hq) as [Hstep | ->]; [| by right].
  destruct (t !! a) eqn:Ha; [by left |].
  apply lookup_insert_Some in Hstep as [[_ <-] | [_ Hstep]]; eauto.
Qed.

Lemma copyPath_lookup (src t : Tree) (p q : string) (n : Node) :
  copyPath src t p !! q = Some n →
  t !! q = Some n ∨ n = Directory ∨ src !! q = Some n.
Proof.
  unfold copyPath. destruct (src !! p) as [m|] eqn:Hp; [| by left].
  intros [[<- <-] | [_ Hq]]%lookup_insert_Some; [by right; right |].
  destruct (mkParents_lookup _ _ _ _ Hq); eauto.
Qed.

(** What a tree holds after additions have been applied is what it held,
    a folder that was created, or what the source holds at that path. *)
Lemma applyRightEngine_adds_lookup (src t : Tree) (d : list DiffEntry)
    (q : string) (n : Node) :
  (∀ e, e ∈ d → d_change e = ChangeAdd) →
  applyRightEngine src t d !! q = Some n →
  t !! q = Some n ∨ n = Directory ∨ src !! q = Some n.
Proof.
  unfold applyRightEngine. revert t.
  induction d as [|e d IH]; intros t Hd; simpl; [by left |].
  intros Hq. apply IH in Hq as [Hq | Hq]; [| by right |].
  - unfold applyRightEntry in Hq.
    rewrite (Hd e) in Hq by (by apply elem_of_cons; left).
    by apply copyPath_lookup in Hq.
  - intros e' He'. apply Hd. by apply elem_of_cons; right.
Qed.

Ltac exec_simpl :=
  cbn [exec run AllCalls WritesAfterLoad ExecAll bind mbind prog_bind mret
       prog_ret await handle fst snd writes loads orb].

Section Operations.
Context `{Externals}.

Lemma workspaceReady_unique (w : World) (profileId : jsval)
    (name files url files' url' : string) :
  workspaceReady w profileId name files url →
  workspaceReady w profileId name files' url' →
  files' = files ∧ url' = url.
Proof.
  intros (ws & Hws & Hf & Hu & _) (ws' & Hws' & Hf' & Hu' & _).
  rewrite Hws in Hws'. injection Hws' as <-.
  rewrite Hf in Hf'. rewrite Hu in Hu'.
  by injection Hf' as <-; injection Hu' as <-.
Qed.

(** [validateWorkspaceRecord] in a world: it fails and leaves the world
    alone, or the workspace is ready and the operation goes on. *)
Lemma exec_validateWorkspaceRecord {R : Type} (w : World) (profileId : jsval)
    (name : string) (K : string * string → prog R) :
  (∃ e, exec (validateWorkspaceRecord name (w_workspaces w profileId name) ≫= K) w
        = (Err e, w)
        ∧ ∀ files url, ¬ workspaceReady w profileId name files url)
  ∨ (∃ files url, workspaceReady w profileId name files url
        ∧ exec (validateWorkspaceRecord name (w_workspaces w profileId name) ≫= K) w
          = exec (K (files, url)) w).
Proof.
  unfold validateWorkspaceRecord.
  destruct (w_workspaces w profileId name) as [ws|] eqn:Hws.
  2:{ left. eexists. split; [reflexivity |].
      intros ? ? (? & ? & _). congruence. }
  destruct (truthy (localFilesPath ws)) as [files|] eqn:Hfiles.
  2:{ left. eexists. split; [reflexivity |].
      intros ? ? (? & ? & ? & _). congruence. }
  destruct (truthy (publishTargetUrl ws)) as [url|] eqn:Hurl.
  2:{ left. eexists. split; [reflexivity |].
      intros ? ? (? & ? & ? & ? & _). congruence. }
  unfold assertDatIsSavedAndOwned. exec_simpl.
  destruct (from_option isOwner false (w_meta w (fromURLToKey url))) eqn:Howner.
  2:{ left. eexists. split; [reflexivity |].
      intros ? ? (? & ? & ? & ? & ? & _). congruence. }
  destruct (from_option isSaved false (w_userSettings w 0 (fromURLToKey url)))
    eqn:Hsaved.
  2:{ left. eexists. split; [reflexivity |].
      intros ? ? (? & ? & ? & ? & ? & ?). congruence. }
  right. exists files, url. split; [| reflexivity].
  exists ws. eauto.
Qed.

(** Case analysis on the opening shared by the operations. *)
Ltac opening w profileId name files url Hready Hfast :=
  try match goal with
  | |- context [bind (validateWorkspaceRecord name ?ws) ?K] =>
      change (bind (validateWorkspaceRecord name ws) K)
        with (validateWorkspaceRecord name ws ≫= K)
  end;
  match goal with
  | |- context [exec (validateWorkspaceRecord name (w_workspaces w profileId name) ≫= ?K) w] =>
      destruct (exec_validateWorkspaceRecord w profileId name K)
        as [(? & -> & Hready) | (files & url & Hready & ->)];
      [| unfold timer; exec_simpl;
         destruct (w_resolvesWithin w url 3000) eqn:Hfast; exec_simpl ]
  end.

(** *** setupFolder *)

Lemma setupFolder_applies_additions (profileId : jsval) (name : string) (opts : Opts) :
  AllCalls appliesAdditions (setupFolder profileId name opts).
Proof.
  unfold setupFolder, assertValidProfileId.
  destruct profileId; exec_simpl; try done.
  split; [done |]. intros [ws|]; unfold validateWorkspaceRecord; [| done].
  destruct (truthy (localFilesPath ws)); [| done].
  destruct (truthy (publishTargetUrl ws)); [| done].
  unfold assertDatIsSavedAndOwned. exec_simpl.
  split; [done |]. intros meta. split; [done |]. intros settings.
  destruct (negb _); [done |]. destruct (negb _); [done |].
  unfold timer. exec_simpl. split; [done |]. intros [archive|]; [| done].
  exec_simpl. split; [done |]. intros d. split; [| done].
  apply Forall_forall. intros e He.
  apply list_elem_of_In, filter_In in He as [_ He].
  by apply bool_decide_eq_true in He.
Qed.

Lemma setupFolder_keeps_local (profileId : jsval) (name : string) (opts : Opts)
    (w : World) :
  (∀ root, w_scoped w root ⊆ w_scoped (exec (setupFolder profileId name opts) w).2 root)
  ∧ (∀ url, w_archives (exec (setupFolder profileId name opts) w).2 url
            = w_archives w url)
  ∧ (∀ root p n,
       w_scoped (exec (setupFolder profileId name opts) w).2 root !! p = Some n →
       w_scoped w root !! p = Some n
       ∨ n = Directory
       ∨ ∃ url, workspaceReady w profileId name root url
                ∧ w_archives w url !! p = Some n).
Proof.
  unfold setupFolder, assertValidProfileId.
  destruct profileId; exec_simpl; try (by eauto).
  opening w (JNumber n) name files url Hready Hfast; try (by eauto).
  split; [| split; [done |]].
  - intros root. cbn [set_tree w_scoped tree_of]. case_bool_decide; [subst | done].
    apply applyRightEngine_adds; [| done].
    intros e He. apply list_elem_of_In, filter_In in He as [He Hadd].
    apply bool_decide_eq_true in Hadd. split; [done |].
    apply list_elem_of_In in He. by apply (diffEngine_add _ _ _ _ He).
  - intros root p m. cbn [set_tree w_scoped tree_of].
    case_bool_decide; [subst | by left].
    intros Hp. apply applyRightEngine_adds_lookup in Hp as [?|[?|?]]; eauto.
    intros e He. apply list_elem_of_In, filter_In in He as [_ Hadd].
    by apply bool_decide_eq_true in Hadd.
Qed.

(** C1.  [setupFolder] hands [applyRight] additions only and never
    calls [applyLeft]; run in any world, it leaves every entry of every
    local tree as it was (so a file or folder that only the local tree
    holds is untouched), changes no archive, and what a local tree holds
    afterwards is what it held, a folder created above an addition, or
    what the archive of the workspace holds at that path. *)
Theorem setupFolder_add_only (profileId : jsval) (name : string) (opts : Opts)
    (w : World) :
  AllCalls appliesAdditions (setupFolder profileId name opts)
  ∧ (∀ root, w_scoped w root
             ⊆ w_scoped (exec (setupFolder profileId name opts) w).2 root)
  ∧ (∀ url, w_archives (exec (setupFolder profileId name opts) w).2 url
            = w_archives w url)
  ∧ (∀ root p n,
       w_scoped (exec (setupFolder profileId name opts) w).2 root !! p = Some n →
       w_scoped w root !! p = Some n
       ∨ n = Directory
       ∨ ∃ url, workspaceReady w profileId name root url
                ∧ w_archives w url !! p = Some n).
Proof.
  split; [apply setupFolder_applies_additions | apply setupFolder_keeps_local].
Qed.

(** *** The ignore rules *)

Lemma anymatch_false (rules : list string) (filepath : string) :
  anymatch rules filepath = false
  ↔ ∀ rule, rule ∈ rules → glob_match rule filepath = false.
Proof.
  unfold anymatch. split.
  - intros Hany rule Hin. destruct (glob_match rule filepath) eqn:Hm; [| done].
    assert (existsb (λ m, glob_match m filepath) rules = true); [| congruence].
    apply existsb_exists. exists rule. by rewrite <- list_elem_of_In.
  - intros Hall. destruct (existsb _ rules) eqn:Hex; [| done].
    apply existsb_exists in Hex as (rule & Hin & Hm).
    rewrite Hall in Hm; [done | by apply list_elem_of_In].
Qed.


Lemma listChangedFiles_ignores (w : World) (profileId : jsval) (name : string)
    (opts : Opts) (entries : list DiffEntry) (w' : World) :
  do_paths (massageDiffOpts opts) = None →
  exec (listChangedFiles profileId name opts) w = (Ok entries, w') →
  ∃ files url, workspaceReady w profileId name files url
    ∧ ∀ e rule, e ∈ entries →
        rule ∈ readDatIgnore_rules
                 (default "" (w_scoped w files !! "/.datignore" ≫= readNode)) →
        glob_match rule (d_path e) = false.
Proof.
  intros Hpaths. unfold listChangedFiles, assertValidProfileId, assertValidName.
  destruct profileId; exec_simpl; try done.
  destruct (WORKSPACE_VALID_NAME_REGEX_test name); exec_simpl; [| done].
  opening w (JNumber n) name files url Hready Hfast; try done.
  unfold buildFilter. rewrite Hpaths.
  unfold readDatIgnore, readFile. exec_simpl.
  intros [= <- <-]. exists files, url. split; [done |].
  intros e rule He Hrule.
  apply diffEngine_filter_false with (f := λ filepath,
    anymatch (readDatIgnore_rules
                (default "" (w_scoped w files !! "/.datignore" ≫= readNode)))
             filepath) in He; [| done].
  by apply (proj1 (anymatch_false _ _) He).
Qed.

Lemma readDatIgnore_rules_empty :
  readDatIgnore_rules "" = [path_normalize "/.git"; path_normalize "/.dat"].
Proof. reflexivity. Qed.

Lemma readDatIgnore_rules_eq (rulesRaw : string) :
  readDatIgnore_rules rulesRaw
  = map (fun line => path_normalize
                       (if startsWith line "/" then line else "**/" +:+ line))
        (List.filter (fun line => negb (bool_decide (line = "")))
                     (split LF rulesRaw))
    ++ [path_normalize "/.git"; path_normalize "/.dat"].
Proof.
  unfold readDatIgnore_rules, Boolean.
  rewrite map_app, map_map. f_equal. apply map_ext.
  intros line. by destruct (startsWith line "/").
Qed.

Lemma readDatIgnore_rules_elem (rulesRaw rule : string) :
  rule ∈ readDatIgnore_rules rulesRaw
  ↔ (∃ line, line ∈ split LF rulesRaw ∧ line ≠ ""
             ∧ rule = path_normalize
                        (if startsWith line "/" then line else "**/" +:+ line))
    ∨ rule = path_normalize "/.git"
    ∨ rule = path_normalize "/.dat".
Proof.
  rewrite readDatIgnore_rules_eq, elem_of_app, !elem_of_cons, elem_of_nil.
  rewrite list_elem_of_In, in_map_iff.
  split.
  - intros [(line & <- & Hline) | [-> | [-> | []]]]; eauto.
    apply filter_In in Hline as [Hline Hne]. left. exists line.
    apply negb_true_iff, bool_decide_eq_false in Hne.
    by rewrite list_elem_of_In.
  - intros [(line & Hline & Hne & ->) | [-> | ->]]; eauto.
    left. exists line. split; [done |]. apply filter_In.
    split; [by apply list_elem_of_In |].
    by apply negb_true_iff, bool_decide_eq_false.
Qed.

(** *** The three operations on a ready workspace *)

(** The block "build ignore rules" always goes through: with an
    allow-list it reads nothing and sets the path-scope filter, without
    one it reads the ignore file and sets the ignore-rule filter. *)
Lemma run_buildFilter (o : Oracle) (opts : DiffOpts) (fs : FS) :
  run o (buildFilter opts fs)
  = Ok (set_filter opts
          match do_paths opts with
          | Some paths => makeDiffFilterByPaths paths
          | None =>
              fun filepath =>
                anymatch (readDatIgnore_rules
                            (default "" (o (fs_readFile fs ".datignore"))))
                         filepath
          end)
  ∧ trace o (buildFilter opts fs)
    = match do_paths opts with
      | Some _ => []
      | None => [fs_readFile fs ".datignore"]
      end.
Proof.
  unfold buildFilter, readDatIgnore, readFile.
  destruct (do_paths opts); exec_simpl; cbn [trace]; done.
Qed.

(** What [listChangedFiles], [publish] and [revert] do, call by call,
    once the workspace is ready and the archive loads: the diff of the
    local folder against the archive with the options the block above
    has built, which [listChangedFiles] returns and which [publish] and
    [revert], after they have set [shallow] to [false], apply. *)
Lemma ready_operations (o : Oracle) (n : Z) (name files url : string) (archive : FS)
    (opts : Opts) (handed : DiffOpts) :
  WORKSPACE_VALID_NAME_REGEX_test name = true →
  oracleReady o (JNumber n) name files url archive →
  run o (buildFilter (massageDiffOpts opts) (ScopedFS files)) = Ok handed →
  (run o (listChangedFiles (JNumber n) name opts)
   = Ok (o (dft_diff (ScopedFS files) archive (Some handed)))
   ∧ trace o (listChangedFiles (JNumber n) name opts)
     = [workspacesDb_get (JNumber n) name;
        archivesDb_getMeta (fromURLToKey url);
        archivesDb_getUserSettings 0 (fromURLToKey url);
        timer_getOrLoadArchive 3000 url]
       ++ trace o (buildFilter (massageDiffOpts opts) (ScopedFS files))
       ++ [dft_diff (ScopedFS files) archive (Some handed)])
  ∧ (run o (publish (JNumber n) name opts) = Ok tt
     ∧ trace o (publish (JNumber n) name opts)
       = [workspacesDb_get (JNumber n) name;
          archivesDb_getMeta (fromURLToKey url);
          archivesDb_getUserSettings 0 (fromURLToKey url);
          timer_getOrLoadArchive 3000 url]
         ++ trace o (buildFilter (massageDiffOpts opts) (ScopedFS files))
         ++ [dft_diff (ScopedFS files) archive (Some (set_shallow handed false));
             dft_applyRight (ScopedFS files) archive
               (o (dft_diff (ScopedFS files) archive
                     (Some (set_shallow handed false))))])
  ∧ (run o (revert (JNumber n) name opts) = Ok tt
     ∧ trace o (revert (JNumber n) name opts)
       = [workspacesDb_get (JNumber n) name;
          archivesDb_getMeta (fromURLToKey url);
          archivesDb_getUserSettings 0 (fromURLToKey url);
          timer_getOrLoadArchive 3000 url]
         ++ trace o (buildFilter (massageDiffOpts opts) (ScopedFS files))
         ++ [dft_diff (ScopedFS files) archive (Some (set_shallow handed false));
             dft_applyLeft (ScopedFS files) archive
               (o (dft_diff (ScopedFS files) archive
                     (Some (set_shallow handed false))))]).
Proof.
  intros Hname (ws & Hws & Hfiles & Hurl & Howner & Hsaved & Hload) Hbuild.
  assert (Hunit : ∀ x y : unit, Ok x = Ok y :> result unit)
    by (by intros [] []).
  unfold listChangedFiles, publish, revert, assertValidProfileId, assertValidName.
  set (massaged := massageDiffOpts opts) in *. clearbody massaged.
  rewrite (proj1 (run_buildFilter _ _ _)) in Hbuild. injection Hbuild as <-.
  rewrite (proj2 (run_buildFilter _ _ _)).
  rewrite Hname. exec_simpl. cbn [trace]. rewrite Hws.
  unfold validateWorkspaceRecord. rewrite Hfiles, Hurl.
  unfold assertDatIsSavedAndOwned. exec_simpl. cbn [trace].
  rewrite Howner, Hsaved. cbn [negb]. exec_simpl. cbn [trace].
  unfold timer. exec_simpl. cbn [trace]. rewrite Hload. exec_simpl.
  unfold buildFilter, readDatIgnore, readFile.
  destruct (do_paths massaged); exec_simpl; unfold await; cbn [trace app].
  all: repeat split; try done; apply (Hunit _ tt).
Qed.

(** The same in a world, where the engines answer. *)
Lemma exec_ready_operations (w : World) (n : Z) (name files url : string)
    (opts : Opts) :
  WORKSPACE_VALID_NAME_REGEX_test name = true →
  workspaceReady w (JNumber n) name files url →
  w_resolvesWithin w url 3000 = true →
  run (oracle_of w) (buildFilter (massageDiffOpts opts) (ScopedFS files))
  = Ok (set_filter (massageDiffOpts opts)
          match do_paths (massageDiffOpts opts) with
          | Some paths => makeDiffFilterByPaths paths
          | None =>
              fun filepath =>
                anymatch (readDatIgnore_rules
                            (default "" (w_scoped w files !! "/.datignore" ≫= readNode)))
                         filepath
          end)
  ∧ ∀ handed,
      run (oracle_of w) (buildFilter (massageDiffOpts opts) (ScopedFS files))
      = Ok handed →
      exec (listChangedFiles (JNumber n) name opts) w
      = (Ok (diffEngine (w_scoped w files) (w_archives w url) (Some handed)), w)
      ∧ exec (publish (JNumber n) name opts) w
        = (Ok tt,
           set_tree w (ArchiveFS url)
             (applyRightEngine (w_scoped w files) (w_archives w url)
                (diffEngine (w_scoped w files) (w_archives w url)
                   (Some (set_shallow handed false)))))
      ∧ exec (revert (JNumber n) name opts) w
        = (Ok tt,
           set_tree w (ScopedFS files)
             (applyLeftEngine (w_scoped w files) (w_archives w url)
                (diffEngine (w_scoped w files) (w_archives w url)
                   (Some (set_shallow handed false))))).
Proof.
  intros Hname (ws & Hws & Hfiles & Hurl & Howner & Hsaved) Hfast.
  split; [apply run_buildFilter |].
  intros handed Hbuild.
  unfold listChangedFiles, publish, revert, assertValidProfileId, assertValidName.
  set (massaged := massageDiffOpts opts) in *. clearbody massaged.
  rewrite (proj1 (run_buildFilter _ _ _)) in Hbuild. injection Hbuild as <-.
  rewrite Hname. exec_simpl. rewrite Hws.
  unfold validateWorkspaceRecord. rewrite Hfiles, Hurl.
  unfold assertDatIsSavedAndOwned. exec_simpl.
  rewrite Howner, Hsaved. cbn [negb]. exec_simpl.
  unfold timer. exec_simpl. rewrite Hfast. exec_simpl.
  unfold buildFilter, readDatIgnore, readFile.
  destruct (do_paths massaged); exec_simpl; done.
Qed.

(** C2.  The lines of the ignore file are its pieces between line feeds.
    The rules read from it are, in order, one pattern per non-empty line
    (the line itself when it starts with ["/"], the line after ["**/"]
    otherwise) and then the two fixed rules ["/.git"] and ["/.dat"], all
    normalized: a rule is the pattern of a non-empty line or one of the
    two fixed rules, which are there whatever the file holds; a file that
    cannot be read gives the two fixed rules alone.  Without a [paths]
    array, no entry that [listChangedFiles] returns lies on a path matched
    by one of the rules read from the local folder.  And that is the
    filter at work: without a [paths] array and for a ready workspace,
    [listChangedFiles] reads [".datignore"] of the local folder, hands
    [dft.diff] the massaged options with the filter that answers
    [anymatch] of the rules of that file, and returns what [dft.diff]
    answers; in a world it returns the diff of the two trees under that
    filter and leaves the world as it was. *)
Theorem datignore_rules_filter :
  (∀ rulesRaw,
     join (String LF "") (split LF rulesRaw) = rulesRaw
     ∧ readDatIgnore_rules rulesRaw
       = map (fun line => path_normalize
                            (if startsWith line "/" then line else "**/" +:+ line))
             (List.filter (fun line => negb (bool_decide (line = "")))
                          (split LF rulesRaw))
         ++ [path_normalize "/.git"; path_normalize "/.dat"]
     ∧ ∀ rule,
         rule ∈ readDatIgnore_rules rulesRaw
         ↔ (∃ line, line ∈ split LF rulesRaw ∧ line ≠ ""
                    ∧ rule = path_normalize
                               (if startsWith line "/" then line else "**/" +:+ line))
           ∨ rule = path_normalize "/.git"
           ∨ rule = path_normalize "/.dat")
  ∧ (∀ (o : Oracle) fs, o (fs_readFile fs ".datignore") = None →
       run o (readDatIgnore fs)
       = Ok [path_normalize "/.git"; path_normalize "/.dat"])
  ∧ (∀ w profileId name opts entries w',
       do_paths (massageDiffOpts opts) = None →
       exec (listChangedFiles profileId name opts) w = (Ok entries, w') →
       ∃ files url, workspaceReady w profileId name files url
         ∧ ∀ e rule, e ∈ entries →
             rule ∈ readDatIgnore_rules
                      (default "" (w_scoped w files !! "/.datignore" ≫= readNode)) →
             glob_match rule (d_path e) = false)
  ∧ (∀ (o : Oracle) n name opts files url archive,
       WORKSPACE_VALID_NAME_REGEX_test name = true →
       oracleReady o (JNumber n) name files url archive →
       do_paths (massageDiffOpts opts) = None →
       run o (listChangedFiles (JNumber n) name opts)
       = Ok (o (dft_diff (ScopedFS files) archive
                  (Some (set_filter (massageDiffOpts opts)
                           (fun filepath =>
                              anymatch
                                (readDatIgnore_rules
                                   (default ""
                                      (o (fs_readFile (ScopedFS files) ".datignore"))))
                                filepath)))))
       ∧ trace o (listChangedFiles (JNumber n) name opts)
         = [workspacesDb_get (JNumber n) name;
            archivesDb_getMeta (fromURLToKey url);
            archivesDb_getUserSettings 0 (fromURLToKey url);
            timer_getOrLoadArchive 3000 url;
            fs_readFile (ScopedFS files) ".datignore";
            dft_diff (ScopedFS files) archive
              (Some (set_filter (massageDiffOpts opts)
                       (fun filepath =>
                          anymatch
                            (readDatIgnore_rules
                               (default ""
                                  (o (fs_readFile (ScopedFS files) ".datignore"))))
                            filepath)))])
  ∧ (∀ w n name opts files url,
       WORKSPACE_VALID_NAME_REGEX_test name = true →
       workspaceReady w (JNumber n) name files url →
       w_resolvesWithin w url 3000 = true →
       do_paths (massageDiffOpts opts) = None →
       exec (listChangedFiles (JNumber n) name opts) w
       = (Ok (diffEngine (w_scoped w files) (w_archives w url)
                (Some (set_filter (massageDiffOpts opts)
                         (fun filepath =>
                            anymatch
                              (readDatIgnore_rules
                                 (default ""
                                    (w_scoped w files !! "/.datignore" ≫= readNode)))
                              filepath)))),
          w)).
Proof.
  split; [| split; [| split; [| split]]].
  - intros rulesRaw. split; [apply join_split | split].
    + apply readDatIgnore_rules_eq.
    + intros rule. apply readDatIgnore_rules_elem.
  - intros o fs Hread. unfold readDatIgnore, readFile. exec_simpl.
    by rewrite Hread.
  - apply listChangedFiles_ignores.
  - intros o n name opts files url archive Hname Hready Hpaths.
    destruct (ready_operations o n name files url archive opts _ Hname Hready
                (proj1 (run_buildFilter _ _ _))) as [[Hrun Htrace] _].
    rewrite Hrun, Htrace, (proj2 (run_buildFilter _ _ _)), Hpaths. done.
  - intros w n name opts files url Hname Hready Hfast Hpaths.
    destruct (exec_ready_operations w n name files url opts Hname Hready Hfast)
      as [Hbuild Hexec].
    destruct (Hexec _ Hbuild) as [Hlist _].
    rewrite Hlist, Hpaths. done.
Qed.

(** *** publish and revert *)

(** With a deep diff, whatever sits on one side only and is not skipped
    by the filter is reported, also below a folder that is itself new. *)
Lemma diffEngine_deep (l r : Tree) (opts : DiffOpts) (p : string) (e : DiffEntry) :
  do_shallow opts = false →
  p ∈ dom l ∪ dom r →
  excluded (default (fun _ => false) (do_filter opts))
           (elements (dom l ∪ dom r)) p = false →
  classify (do_compareContent opts) l r p = Some e →
  e ∈ diffEngine l r (Some opts).
Proof.
  intros Hdeep Hp Hex Hc. unfold diffEngine. apply list_elem_of_omap.
  exists p. split; [| done].
  apply list_elem_of_In, filter_In. split.
  - by apply list_elem_of_In, elem_of_elements.
  - cbn [from_option mbind option_bind]. simpl in Hex |- *.
    rewrite Hex, Hdeep. done.
Qed.

Lemma publish_revert_diff_deep (profileId : jsval) (name : string) (opts : Opts) :
  AllCalls diffsDeep (publish profileId name opts)
  ∧ AllCalls diffsDeep (revert profileId name opts).
Proof.
  split.
  all: unfold publish, revert, assertValidProfileId, assertValidName.
  all: destruct profileId; exec_simpl; try done.
  all: destruct (WORKSPACE_VALID_NAME_REGEX_test name); exec_simpl; [| done].
  all: split; [done |]; intros [ws|]; unfold validateWorkspaceRecord; [| done].
  all: destruct (truthy (localFilesPath ws)); [| done].
  all: destruct (truthy (publishTargetUrl ws)); [| done].
  all: unfold assertDatIsSavedAndOwned; exec_simpl.
  all: split; [done |]; intros meta; split; [done |]; intros settings.
  all: destruct (negb _); [done |]; destruct (negb _); [done |].
  all: unfold timer; exec_simpl; split; [done |]; intros [archive|]; [| done].
  all: unfold buildFilter; destruct (do_paths (massageDiffOpts opts)); exec_simpl.
  all: unfold readDatIgnore, readFile; exec_simpl.
  all: repeat (split; [done |]; intros ?).
  all: split; [eexists; split; reflexivity | intros ?; split; done].
Qed.

(** C4.  Whatever the caller's options, every [dft.diff] call that
    [publish] or [revert] can make carries options whose [shallow] is
    [false].  For a ready workspace the call is made: [publish] and
    [revert] succeed, and their last two calls are the diff of the local
    folder against the archive, with the options that the block "build
    ignore rules" yields and [shallow] set to [false], and the apply, to
    the right or to the left, of the very list that this diff answers.
    In a world the tree written is the one the apply engine makes of
    that deep diff, which lists every path that differs and is not
    skipped by the filter, also below a folder that one side lacks. *)
Theorem publish_revert_force_deep (profileId : jsval) (name : string) (opts : Opts) :
  (AllCalls diffsDeep (publish profileId name opts)
   ∧ AllCalls diffsDeep (revert profileId name opts))
  ∧ (∀ (o : Oracle) n files url archive,
       profileId = JNumber n →
       WORKSPACE_VALID_NAME_REGEX_test name = true →
       oracleReady o profileId name files url archive →
       ∃ handed,
         run o (buildFilter (massageDiffOpts opts) (ScopedFS files)) = Ok handed
         ∧ do_shallow (set_shallow handed false) = false
         ∧ run o (publish profileId name opts) = Ok tt
         ∧ trace o (publish profileId name opts)
           = [workspacesDb_get profileId name;
              archivesDb_getMeta (fromURLToKey url);
              archivesDb_getUserSettings 0 (fromURLToKey url);
              timer_getOrLoadArchive 3000 url]
             ++ trace o (buildFilter (massageDiffOpts opts) (ScopedFS files))
             ++ [dft_diff (ScopedFS files) archive (Some (set_shallow handed false));
                 dft_applyRight (ScopedFS files) archive
                   (o (dft_diff (ScopedFS files) archive
                         (Some (set_shallow handed false))))]
         ∧ run o (revert profileId name opts) = Ok tt
         ∧ trace o (revert profileId name opts)
           = [workspacesDb_get profileId name;
              archivesDb_getMeta (fromURLToKey url);
              archivesDb_getUserSettings 0 (fromURLToKey url);
              timer_getOrLoadArchive 3000 url]
             ++ trace o (buildFilter (massageDiffOpts opts) (ScopedFS files))
             ++ [dft_diff (ScopedFS files) archive (Some (set_shallow handed false));
                 dft_applyLeft (ScopedFS files) archive
                   (o (dft_diff (ScopedFS files) archive
                         (Some (set_shallow handed false))))])
  ∧ (∀ w n files url,
       profileId = JNumber n →
       WORKSPACE_VALID_NAME_REGEX_test name = true →
       workspaceReady w profileId name files url →
       w_resolvesWithin w url 3000 = true →
       ∃ handed,
         do_shallow handed = false
         ∧ do_compareContent handed = do_compareContent (massageDiffOpts opts)
         ∧ exec (publish profileId name opts) w
           = (Ok tt,
              set_tree w (ArchiveFS url)
                (applyRightEngine (w_scoped w files) (w_archives w url)
                   (diffEngine (w_scoped w files) (w_archives w url) (Some handed))))
         ∧ exec (revert profileId name opts) w
           = (Ok tt,
              set_tree w (ScopedFS files)
                (applyLeftEngine (w_scoped w files) (w_archives w url)
                   (diffEngine (w_scoped w files) (w_archives w url) (Some handed))))
         ∧ ∀ p e,
             p ∈ dom (w_scoped w files) ∪ dom (w_archives w url) →
             excluded (default (fun _ => false) (do_filter handed))
                      (elements (dom (w_scoped w files) ∪ dom (w_archives w url))) p
             = false →
             classify (do_compareContent handed) (w_scoped w files)
                      (w_archives w url) p = Some e →
             e ∈ diffEngine (w_scoped w files) (w_archives w url) (Some handed)).
Proof.
  split; [apply publish_revert_diff_deep | split].
  - intros o n files url archive -> Hname Hready.
    eexists. split; [apply run_buildFilter |]. split; [done |].
    destruct (ready_operations o n name files url archive opts _ Hname Hready
                (proj1 (run_buildFilter _ _ _)))
      as (_ & [Hpub Hpubtrace] & [Hrev Hrevtrace]).
    by rewrite Hpub, Hpubtrace, Hrev, Hrevtrace.
  - intros w n files url -> Hname Hready Hfast.
    destruct (exec_ready_operations w n name files url opts Hname Hready Hfast)
      as [Hbuild Hexec].
    destruct (Hexec _ Hbuild) as (_ & Hpub & Hrev).
    eexists. split; [| split; [| split; [exact Hpub | split; [exact Hrev |]]]].
    + done.
    + done.
    + intros p e Hp Hex Hc. by eapply diffEngine_deep.
Qed.

(** *** diff *)

(** What [diff] answers once the workspace is ready and the archive
    loaded, for a name that is not binary: the guards, local side first,
    then the line diff of what could be read. *)
Lemma run_diff (o : Oracle) (n : Z) (name filepath files url : string) (archive : FS) :
  WORKSPACE_VALID_NAME_REGEX_test name = true →
  isFileNameBinary (path_normalize filepath) ≠ Some true →
  oracleReady o (JNumber n) name files url archive →
  run o (diff (JNumber n) name filepath)
  = if sniffedBinary o (ScopedFS files) (path_normalize filepath)
    then Err (InvalidEncodingError "Cannot diff a binary file")
    else if oversize o (ScopedFS files) (path_normalize filepath)
    then Err SourceTooLargeError
    else if sniffedBinary o archive (path_normalize filepath)
    then Err (InvalidEncodingError "Cannot diff a binary file")
    else if oversize o archive (path_normalize filepath)
    then Err SourceTooLargeError
    else Ok (diffLines
               (default "" (o (fs_readFile archive (path_normalize filepath))))
               (default "" (o (fs_readFile (ScopedFS files) (path_normalize filepath))))).
Proof.
  intros Hname Hbin (ws & Hws & Hfiles & Hurl & Howner & Hsaved & Hload).
  unfold diff, assertValidProfileId, assertValidName.
  rewrite Hname. exec_simpl. rewrite bool_decide_eq_false_2 by done.
  exec_simpl. rewrite Hws. unfold validateWorkspaceRecord.
  rewrite Hfiles, Hurl. unfold assertDatIsSavedAndOwned. exec_simpl.
  rewrite Howner, Hsaved. cbn [negb]. exec_simpl.
  unfold timer. exec_simpl. rewrite Hload. exec_simpl.
  unfold stat, readFile, sniffedBinary, oversize. exec_simpl.
  set (fp := path_normalize filepath).
  set (localIsFile := from_option st_isFile false (o (fs_stat (ScopedFS files) fp))).
  set (archiveIsFile := from_option st_isFile false (o (fs_stat archive fp))).
  set (localBinary := o (isFileContentBinary (ScopedFS files) fp) : bool).
  set (archiveBinary := o (isFileContentBinary archive fp) : bool).
  destruct (negb (bool_decide (isFileNameBinary fp = Some false)));
    destruct localIsFile; cbn [andb]; exec_simpl;
    fold localBinary; try destruct localBinary; exec_simpl; try done.
  all: destruct (_ >? _)%Z; exec_simpl; try done.
  all: fold archiveIsFile; destruct archiveIsFile; cbn [andb]; exec_simpl;
    fold archiveBinary; try destruct archiveBinary; exec_simpl; try done.
  all: by destruct (_ >? _)%Z.
Qed.

(** C5.  When the name of the normalized path classifies it as binary,
    [diff] calls no collaborator at all, whatever the profile and
    workspace name, and for a valid profile id and workspace name it is
    the program that fails with an InvalidEncodingError: in every world,
    and before any tree is read. *)
Theorem diff_binary_name (profileId : jsval) (name filepath : string) :
  isFileNameBinary (path_normalize filepath) = Some true →
  AllCalls (fun _ => False) (diff profileId name filepath)
  ∧ (∀ n, profileId = JNumber n →
       WORKSPACE_VALID_NAME_REGEX_test name = true →
       diff profileId name filepath
       = Throw (InvalidEncodingError "Cannot diff a binary file")
       ∧ ∀ w, exec (diff profileId name filepath) w
              = (Err (InvalidEncodingError "Cannot diff a binary file"), w)).
Proof.
  intros Hbin. unfold diff, assertValidProfileId, assertValidName. split.
  - destruct profileId; exec_simpl; try done.
    destruct (WORKSPACE_VALID_NAME_REGEX_test name); exec_simpl; [| done].
    by rewrite Hbin.
  - intros n -> Hname. rewrite Hname. exec_simpl. rewrite Hbin.
    by rewrite bool_decide_eq_true_2.
Qed.

(** C6.  For a text file (a name that is not binary, a content that is
    not sniffed as binary) that is a regular file wherever it exists,
    [diff] fails with SourceTooLargeError exactly when the size on one
    side is above 100000, and otherwise returns the line diff: 100000
    bytes pass, 100001 do not. *)
Theorem diff_size_guard (o : Oracle) (n : Z) (name filepath files url : string)
    (archive : FS) :
  WORKSPACE_VALID_NAME_REGEX_test name = true →
  oracleReady o (JNumber n) name files url archive →
  isFileNameBinary (path_normalize filepath) ≠ Some true →
  sniffedBinary o (ScopedFS files) (path_normalize filepath) = false →
  sniffedBinary o archive (path_normalize filepath) = false →
  from_option st_isFile true (o (fs_stat (ScopedFS files) (path_normalize filepath))) = true →
  from_option st_isFile true (o (fs_stat archive (path_normalize filepath))) = true →
  (run o (diff (JNumber n) name filepath) = Err SourceTooLargeError
   ↔ (100000 < from_option st_size 0 (o (fs_stat (ScopedFS files) (path_normalize filepath)))
      ∨ 100000 < from_option st_size 0 (o (fs_stat archive (path_normalize filepath))))%Z)
  ∧ ((from_option st_size 0 (o (fs_stat (ScopedFS files) (path_normalize filepath))) ≤ 100000)%Z →
     (from_option st_size 0 (o (fs_stat archive (path_normalize filepath))) ≤ 100000)%Z →
     run o (diff (JNumber n) name filepath)
     = Ok (diffLines
             (default "" (o (fs_readFile archive (path_normalize filepath))))
             (default "" (o (fs_readFile (ScopedFS files) (path_normalize filepath)))))).
Proof.
  intros Hname Hready Hbin HsniffL HsniffA HfileL HfileA.
  rewrite (run_diff o n name filepath files url archive Hname Hbin Hready).
  rewrite HsniffL, HsniffA. unfold oversize, MAX_DIFF_SIZE.
  destruct (o (fs_stat (ScopedFS files) (path_normalize filepath))) as [stL|];
    destruct (o (fs_stat archive (path_normalize filepath))) as [stA|];
    cbn [from_option] in *; rewrite ?HfileL, ?HfileA; cbn [andb].
  all: repeat match goal with
       | |- context [(?a >? ?b)%Z] => destruct (Z.gtb_spec a b)
       end.
  all: split; [split |]; intros; first [done | lia | exfalso; lia].
Qed.

(** C9.  The helpers turn a failed [stat] into [null] and a failed
    [readFile] into the empty string, so whatever the two trees answer
    to [stat] and [readFile], [diff] returns the line diff of what could
    be read (the empty string standing for what could not) as soon as no
    side is sniffed as binary or oversize; a side where the file is
    missing passes both guards by itself. *)
Theorem diff_tolerates_missing (o : Oracle) (n : Z) (name filepath files url : string)
    (archive : FS) :
  WORKSPACE_VALID_NAME_REGEX_test name = true →
  oracleReady o (JNumber n) name files url archive →
  isFileNameBinary (path_normalize filepath) ≠ Some true →
  (∀ fs p, o (fs_stat fs p) = None → run o (stat fs p) = Ok None)
  ∧ (∀ fs p, o (fs_readFile fs p) = None → run o (readFile fs p) = Ok "")
  ∧ (∀ fs, o (fs_stat fs (path_normalize filepath)) = None →
       sniffedBinary o fs (path_normalize filepath) = false
       ∧ oversize o fs (path_normalize filepath) = false)
  ∧ (sniffedBinary o (ScopedFS files) (path_normalize filepath) = false →
     oversize o (ScopedFS files) (path_normalize filepath) = false →
     sniffedBinary o archive (path_normalize filepath) = false →
     oversize o archive (path_normalize filepath) = false →
     run o (diff (JNumber n) name filepath)
     = Ok (diffLines
             (default "" (o (fs_readFile archive (path_normalize filepath))))
             (default "" (o (fs_readFile (ScopedFS files) (path_normalize filepath))))))
  ∧ (o (fs_stat (ScopedFS files) (path_normalize filepath)) = None →
     o (fs_readFile (ScopedFS files) (path_normalize filepath)) = None →
     sniffedBinary o archive (path_normalize filepath) = false →
     oversize o archive (path_normalize filepath) = false →
     run o (diff (JNumber n) name filepath)
     = Ok (diffLines
             (default "" (o (fs_readFile archive (path_normalize filepath)))) ""))
  ∧ (o (fs_stat archive (path_normalize filepath)) = None →
     o (fs_readFile archive (path_normalize filepath)) = None →
     sniffedBinary o (ScopedFS files) (path_normalize filepath) = false →
     oversize o (ScopedFS files) (path_normalize filepath) = false →
     run o (diff (JNumber n) name filepath)
     = Ok (diffLines ""
             (default "" (o (fs_readFile (ScopedFS files) (path_normalize filepath)))))).
Proof.
  intros Hname Hready Hbin.
  assert (Hmissing : ∀ fs, o (fs_stat fs (path_normalize filepath)) = None →
            sniffedBinary o fs (path_normalize filepath) = false
            ∧ oversize o fs (path_normalize filepath) = false).
  { intros fs Hstat. unfold sniffedBinary, oversize. rewrite Hstat.
    cbn [from_option]. by rewrite andb_false_r. }
  rewrite (run_diff o n name filepath files url archive Hname Hbin Hready).
  split; [| split; [| split; [done | split; [| split]]]].
  - intros fs p Hstat. unfold stat. exec_simpl. by rewrite Hstat.
  - intros fs p Hread. unfold readFile. exec_simpl. by rewrite Hread.
  - by intros -> -> -> ->.
  - intros Hstat Hread -> ->.
    destruct (Hmissing _ Hstat) as [-> ->]. by rewrite Hread.
  - intros Hstat Hread -> ->.
    destruct (Hmissing _ Hstat) as [-> ->]. by rewrite Hread.
Qed.

(** *** Loading the archive *)

(** Walks a property of all calls through an operation: the checks of
    the arguments, the opening up to the loading of the archive, and
    what follows. *)
Ltac all_calls :=
  unfold setupFolder, listChangedFiles, diff, publish, revert,
    assertValidProfileId, assertValidName;
  match goal with
  | |- context [match ?profileId with JNumber _ => _ | _ => _ end] =>
      destruct profileId
  end; exec_simpl; try done;
  try (destruct (WORKSPACE_VALID_NAME_REGEX_test _); exec_simpl; [| done]);
  try (case_bool_decide; exec_simpl; [done |]);
  (split; [done |]); intros [ws|]; unfold validateWorkspaceRecord; [| done];
  destruct (truthy (localFilesPath ws)); [| done];
  destruct (truthy (publishTargetUrl ws)); [| done];
  unfold assertDatIsSavedAndOwned; exec_simpl;
  (split; [done |]); intros meta; (split; [done |]); intros settings;
  destruct (negb _); [done |]; destruct (negb _); [done |];
  unfold timer; exec_simpl; (split; [done |]); intros [archive|]; [| done];
  unfold buildFilter, readDatIgnore, readFile, stat; exec_simpl;
  repeat first
    [ done
    | progress exec_simpl
    | split
    | match goal with
      | |- ∀ _, _ => intros ?
      | |- context [match do_paths ?o with _ => _ end] => destruct (do_paths o)
      | |- context [if ?b then _ else _] => destruct b
      end ].

Lemma operations_wait_3000 (profileId : jsval) (name filepath : string) (opts : Opts) :
  AllCalls waits3000 (setupFolder profileId name opts)
  ∧ AllCalls waits3000 (listChangedFiles profileId name opts)
  ∧ AllCalls waits3000 (diff profileId name filepath)
  ∧ AllCalls waits3000 (publish profileId name opts)
  ∧ AllCalls waits3000 (revert profileId name opts).
Proof. repeat split; all_calls. Qed.

Lemma operations_write_after_load (profileId : jsval) (name filepath : string)
    (opts : Opts) :
  WritesAfterLoad false (setupFolder profileId name opts)
  ∧ WritesAfterLoad false (listChangedFiles profileId name opts)
  ∧ WritesAfterLoad false (diff profileId name filepath)
  ∧ WritesAfterLoad false (publish profileId name opts)
  ∧ WritesAfterLoad false (revert profileId name opts).
Proof. repeat split; all_calls. Qed.

(** A program that makes no apply call leaves the world alone, and
    returns what it returns against the answers of that world. *)
Lemma exec_run {R : Type} (p : prog R) (w : World) :
  AllCalls (fun c => writes c = false) p →
  exec p w = (run (oracle_of w) p, w).
Proof.
  induction p as [r|e|c k IH]; cbn [AllCalls exec run]; [done | done |].
  intros [Hc Hk]. unfold oracle_of at 1.
  destruct c; try discriminate Hc; cbn [handle fst snd]; apply IH, Hk.
Qed.

Lemma diff_only_reads (profileId : jsval) (name filepath : string) :
  AllCalls (fun c => writes c = false) (diff profileId name filepath)
  ∧ ∀ w, exec (diff profileId name filepath) w
         = (run (oracle_of w) (diff profileId name filepath), w).
Proof.
  assert (Hreads : AllCalls (fun c => writes c = false)
                     (diff profileId name filepath)) by all_calls.
  split; [done |]. intros w. by apply exec_run.
Qed.

Lemma operations_time_out (w : World) (n : Z) (name filepath files url : string)
    (opts : Opts) :
  WORKSPACE_VALID_NAME_REGEX_test name = true →
  isFileNameBinary (path_normalize filepath) ≠ Some true →
  workspaceReady w (JNumber n) name files url →
  w_resolvesWithin w url 3000 = false →
  exec (setupFolder (JNumber n) name opts) w = (Err TimeoutError, w)
  ∧ exec (listChangedFiles (JNumber n) name opts) w = (Err TimeoutError, w)
  ∧ exec (diff (JNumber n) name filepath) w = (Err TimeoutError, w)
  ∧ exec (publish (JNumber n) name opts) w = (Err TimeoutError, w)
  ∧ exec (revert (JNumber n) name opts) w = (Err TimeoutError, w).
Proof.
  intros Hname Hbin Hready Hslow.
  unfold setupFolder, listChangedFiles, diff, publish, revert,
    assertValidProfileId, assertValidName.
  rewrite Hname. exec_simpl. rewrite bool_decide_eq_false_2 by done.
  exec_simpl.
  repeat split.
  all: opening w (JNumber n) name files' url' Hready' Hfast;
    [ by destruct (Hready' _ _ Hready)
    | destruct (workspaceReady_unique _ _ _ _ _ _ _ Hready Hready') as [-> ->];
      congruence
    | done ].
Qed.

(** C7.  In the five operations every [timer] call waits for 3000
    milliseconds and no apply call is made before a [timer] call has
    answered with an archive; and in a world where the workspace is
    ready but its archive does not load within 3000 milliseconds, each
    operation fails with a Timeout error and leaves the world, both
    trees included, exactly as it was. *)
Theorem acquisition_timeout :
  (∀ profileId name filepath opts,
     (AllCalls waits3000 (setupFolder profileId name opts)
      ∧ AllCalls waits3000 (listChangedFiles profileId name opts)
      ∧ AllCalls waits3000 (diff profileId name filepath)
      ∧ AllCalls waits3000 (publish profileId name opts)
      ∧ AllCalls waits3000 (revert profileId name opts))
     ∧ (WritesAfterLoad false (setupFolder profileId name opts)
        ∧ WritesAfterLoad false (listChangedFiles profileId name opts)
        ∧ WritesAfterLoad false (diff profileId name filepath)
        ∧ WritesAfterLoad false (publish profileId name opts)
        ∧ WritesAfterLoad false (revert profileId name opts)))
  ∧ (∀ w n name filepath files url opts,
       WORKSPACE_VALID_NAME_REGEX_test name = true →
       isFileNameBinary (path_normalize filepath) ≠ Some true →
       workspaceReady w (JNumber n) name files url →
       w_resolvesWithin w url 3000 = false →
       exec (setupFolder (JNumber n) name opts) w = (Err TimeoutError, w)
       ∧ exec (listChangedFiles (JNumber n) name opts) w = (Err TimeoutError, w)
       ∧ exec (diff (JNumber n) name filepath) w = (Err TimeoutError, w)
       ∧ exec (publish (JNumber n) name opts) w = (Err TimeoutError, w)
       ∧ exec (revert (JNumber n) name opts) w = (Err TimeoutError, w)).
Proof.
  split.
  - intros. split;
      [apply operations_wait_3000 | apply operations_write_after_load].
  - intros. by eapply operations_time_out.
Qed.

(** *** What the filter means *)




(** *** An empty allow-list *)

Lemma tree_of_set_tree_same (w : World) (fs fs' : FS) :
  tree_of (set_tree w fs (tree_of w fs)) fs' = tree_of w fs'.
Proof.
  destruct fs, fs'; cbn [set_tree tree_of w_scoped w_archives]; try done.
  all: by case_bool_decide; subst.
Qed.

(** C10.  An empty [paths] array survives the massaging as an empty
    allow-list; the filter built from it answers [true] on every path;
    [listChangedFiles] then leaves the world alone and returns the empty
    list whenever it returns (and it does for a ready workspace whose
    archive loads in time); [publish] and [revert] leave every tree as
    it was. *)
Theorem empty_paths_exclude_all (opts : Opts) :
  opts_paths opts = JArray [] →
  do_paths (massageDiffOpts opts) = Some []
  ∧ (∀ filepath, makeDiffFilterByPaths [] filepath = true)
  ∧ (∀ w profileId name,
       (exec (listChangedFiles profileId name opts) w).2 = w
       ∧ (∀ entries, (exec (listChangedFiles profileId name opts) w).1 = Ok entries →
            entries = [])
       ∧ (∀ fs, tree_of (exec (publish profileId name opts) w).2 fs = tree_of w fs)
       ∧ (∀ fs, tree_of (exec (revert profileId name opts) w).2 fs = tree_of w fs))
  ∧ (∀ w n name files url,
       WORKSPACE_VALID_NAME_REGEX_test name = true →
       workspaceReady w (JNumber n) name files url →
       w_resolvesWithin w url 3000 = true →
       exec (listChangedFiles (JNumber n) name opts) w = (Ok [], w)).
Proof.
  intros Hpaths.
  assert (Hmassaged : do_paths (massageDiffOpts opts) = Some [])
    by (unfold massageDiffOpts; by rewrite Hpaths).
  assert (Hempty : ∀ l r o, do_filter o = Some (makeDiffFilterByPaths []) →
            diffEngine l r (Some o) = []).
  { intros l r o Hf. by eapply diffEngine_all_excluded. }
  split; [done | split; [done | split]].
  - intros w profileId name.
    unfold listChangedFiles, publish, revert, assertValidProfileId, assertValidName.
    destruct profileId; exec_simpl; try done.
    destruct (WORKSPACE_VALID_NAME_REGEX_test name); exec_simpl; [| done].
    unfold buildFilter. rewrite Hmassaged.
    repeat split.
    all: opening w (JNumber n) name files url Hready Hfast; try done.
    + intros entries [= <-]. by apply Hempty.
    + intros fs. rewrite Hempty by done. apply tree_of_set_tree_same.
    + intros fs. rewrite Hempty by done. apply tree_of_set_tree_same.
  - intros w n name files url Hname Hready Hfast.
    unfold listChangedFiles, assertValidProfileId, assertValidName.
    rewrite Hname. exec_simpl. unfold buildFilter. rewrite Hmassaged.
    opening w (JNumber n) name files' url' Hready' Hfast'.
    + by destruct (Hready' _ _ Hready).
    + by rewrite Hempty.
    + destruct (workspaceReady_unique _ _ _ _ _ _ _ Hready Hready') as [-> ->].
      congruence.
Qed.

(** *** More on the five operations *)

Lemma makeDiffFilterByPaths_loop_app (a b : list string) (filepath : string) :
  makeDiffFilterByPaths_loop (a ++ b) filepath
  = makeDiffFilterByPaths_loop a filepath && makeDiffFilterByPaths_loop b filepath.
Proof.
  induction a as [|t a IH]; cbn [app makeDiffFilterByPaths_loop]; [done |].
  destruct (if endsWith t (String path_sep "") then _ else _); [done |].
  by destruct (startsWith t filepath && _).
Qed.

(** X1.  The allow-list is a union of independent targets: the filter
    of two lists put together is the conjunction of their filters, and a
    path is in scope exactly when one target alone puts it in scope; so
    neither the order of the targets nor their repetition matters, and a
    longer list never takes a path out of scope. *)
Theorem makeDiffFilterByPaths_union (a b : list string) (filepath : string) :
  makeDiffFilterByPaths (a ++ b) filepath
  = makeDiffFilterByPaths a filepath && makeDiffFilterByPaths b filepath
  ∧ (makeDiffFilterByPaths a filepath = false
     ↔ ∃ targetPath, targetPath ∈ a
                     ∧ makeDiffFilterByPaths [targetPath] filepath = false).
Proof.
  unfold makeDiffFilterByPaths. split.
  - by rewrite map_app, makeDiffFilterByPaths_loop_app.
  - induction a as [|t a IH]; cbn [map].
    + split; [done | intros (? & Hin & _); by apply elem_of_nil in Hin].
    + change (path_normalize t :: map path_normalize a)
        with ([path_normalize t] ++ map path_normalize a).
      rewrite makeDiffFilterByPaths_loop_app, andb_false_iff, IH. split.
      * intros [Ht | (t' & Hin & Ht')].
        -- exists t. split; [by apply elem_of_cons; left | done].
        -- exists t'. split; [by apply elem_of_cons; right | done].
      * intros (t' & [-> | Hin]%elem_of_cons & Ht'); [by left | right; eauto].
Qed.

Lemma trace_bind {A B : Type} (o : Oracle) (p : prog A) (f : A → prog B) :
  trace o (p ≫= f)
  = trace o p ++ match run o p with
                 | Ok a => trace o (f a)
                 | Err _ => []
                 end.
Proof.
  change (p ≫= f) with (bind p f).
  induction p as [a|e|c k IH]; cbn [bind run trace app]; [done | done |].
  by rewrite IH.
Qed.

Lemma run_bind_Err {A B : Type} (o : Oracle) (p : prog A) (f : A → prog B) (e : Error) :
  run o p = Err e →
  run o (p ≫= f) = Err e ∧ trace o (p ≫= f) = trace o p.
Proof.
  intros He. rewrite run_bind, trace_bind, He. by rewrite app_nil_r.
Qed.

(** X2.  [validateWorkspaceRecord] lets a record through exactly when it
    is there, holds a non-empty files path and a non-empty target url,
    and the dat behind the url is owned and saved; the first thing that
    is wrong decides the error, in this order: no record, no files path,
    no target, not owned, not saved.  It asks at most the two archive
    databases. *)
Theorem validateWorkspaceRecord_decides (o : Oracle) (name : string)
    (ws : option WorkspaceRecord) :
  (∀ files url,
     run o (validateWorkspaceRecord name ws) = Ok (files, url)
     ↔ ∃ r, ws = Some r
            ∧ truthy (localFilesPath r) = Some files
            ∧ truthy (publishTargetUrl r) = Some url
            ∧ from_option isOwner false (o (archivesDb_getMeta (fromURLToKey url))) = true
            ∧ from_option isSaved false
                (o (archivesDb_getUserSettings 0 (fromURLToKey url))) = true)
  ∧ (ws = None →
     run o (validateWorkspaceRecord name ws)
     = Err (PlainError ("No workspace found at " +:+ name)))
  ∧ (∀ r, ws = Some r → truthy (localFilesPath r) = None →
     run o (validateWorkspaceRecord name ws)
     = Err (PlainError ("No files path set for " +:+ name)))
  ∧ (∀ r files, ws = Some r → truthy (localFilesPath r) = Some files →
     truthy (publishTargetUrl r) = None →
     run o (validateWorkspaceRecord name ws)
     = Err (PlainError ("No target site set for " +:+ name)))
  ∧ (∀ r files url, ws = Some r → truthy (localFilesPath r) = Some files →
     truthy (publishTargetUrl r) = Some url →
     from_option isOwner false (o (archivesDb_getMeta (fromURLToKey url))) = false →
     run o (validateWorkspaceRecord name ws)
     = Err (ArchiveNotWritableError "You can't edit a dat you don't own."))
  ∧ (∀ r files url, ws = Some r → truthy (localFilesPath r) = Some files →
     truthy (publishTargetUrl r) = Some url →
     from_option isOwner false (o (archivesDb_getMeta (fromURLToKey url))) = true →
     from_option isSaved false
       (o (archivesDb_getUserSettings 0 (fromURLToKey url))) = false →
     run o (validateWorkspaceRecord name ws)
     = Err (ArchiveNotWritableError "The workspace's dat has been deleted."))
  ∧ (∀ c, c ∈ trace o (validateWorkspaceRecord name ws) →
       (∃ key, c = archivesDb_getMeta key)
       ∨ ∃ key, c = archivesDb_getUserSettings 0 key).
Proof.
  assert (Htrace : ∀ url c,
            c ∈ archivesDb_getMeta (fromURLToKey url)
                :: archivesDb_getUserSettings 0 (fromURLToKey url) :: [] →
            (∃ key, c = archivesDb_getMeta key)
            ∨ ∃ key, c = archivesDb_getUserSettings 0 key).
  { intros url c [-> | [-> | []%elem_of_nil]%elem_of_cons]%elem_of_cons; eauto. }
  unfold validateWorkspaceRecord, assertDatIsSavedAndOwned.
  destruct ws as [r|]; exec_simpl; cbn [trace];
    [destruct (truthy (localFilesPath r)) as [files|] eqn:Hfiles;
       exec_simpl; cbn [trace];
       [destruct (truthy (publishTargetUrl r)) as [url|] eqn:Hurl;
          exec_simpl; cbn [trace];
          [destruct (from_option isOwner false
                       (o (archivesDb_getMeta (fromURLToKey url)))) eqn:Howner;
             cbn [negb]; exec_simpl; cbn [trace];
             [destruct (from_option isSaved false
                          (o (archivesDb_getUserSettings 0 (fromURLToKey url))))
                eqn:Hsaved; cbn [negb]; exec_simpl; cbn [trace] |] |] |] |].
  all: repeat split.
  all: try (intros c Hc; first [by apply elem_of_nil in Hc | by eapply Htrace]).
  all: try (intros; simplify_eq; done).
  all: try (intros (r' & ? & ? & ? & ? & ?); simplify_eq; congruence).
  all: try (intros (r' & ? & ? & ? & ? & ?)).
  all: intros.
  all: repeat match goal with
       | E : Some _ = Some _ |- _ => injection E as <-
       | E : Ok _ = Ok _ |- _ => injection E as <- <-
       | E1 : ?x = Some _, E2 : ?x = Some _ |- _ => rewrite E1 in E2
       | E1 : ?x = Some _, E2 : ?x = None |- _ => rewrite E1 in E2; discriminate E2
       | E1 : ?x = true, E2 : ?x = false |- _ => rewrite E1 in E2; discriminate E2
       end.
  all: try done.
  exists r. eauto.
Qed.

(** X3.  When [validateWorkspaceRecord] turns the record down, each of
    the five operations fails with that very error, and has then asked
    the workspace database once and nothing else beyond what the
    validation itself asks: no archive is loaded, no tree is read or
    written. *)
Theorem operations_stop_at_validation (o : Oracle) (n : Z) (name filepath : string)
    (opts : Opts) (e : Error) :
  WORKSPACE_VALID_NAME_REGEX_test name = true →
  isFileNameBinary (path_normalize filepath) ≠ Some true →
  run o (validateWorkspaceRecord name (o (workspacesDb_get (JNumber n) name))) = Err e →
  (run o (setupFolder (JNumber n) name opts) = Err e
   ∧ trace o (setupFolder (JNumber n) name opts)
     = workspacesDb_get (JNumber n) name
       :: trace o (validateWorkspaceRecord name (o (workspacesDb_get (JNumber n) name))))
  ∧ (run o (listChangedFiles (JNumber n) name opts) = Err e
     ∧ trace o (listChangedFiles (JNumber n) name opts)
       = workspacesDb_get (JNumber n) name
         :: trace o (validateWorkspaceRecord name (o (workspacesDb_get (JNumber n) name))))
  ∧ (run o (diff (JNumber n) name filepath) = Err e
     ∧ trace o (diff (JNumber n) name filepath)
       = workspacesDb_get (JNumber n) name
         :: trace o (validateWorkspaceRecord name (o (workspacesDb_get (JNumber n) name))))
  ∧ (run o (publish (JNumber n) name opts) = Err e
     ∧ trace o (publish (JNumber n) name opts)
       = workspacesDb_get (JNumber n) name
         :: trace o (validateWorkspaceRecord name (o (workspacesDb_get (JNumber n) name))))
  ∧ (run o (revert (JNumber n) name opts) = Err e
     ∧ trace o (revert (JNumber n) name opts)
       = workspacesDb_get (JNumber n) name
         :: trace o (validateWorkspaceRecord name (o (workspacesDb_get (JNumber n) name)))).
Proof.
  intros Hname Hbin Hfail.
  unfold setupFolder, listChangedFiles, diff, publish, revert,
    assertValidProfileId, assertValidName.
  rewrite Hname. exec_simpl. cbn [trace].
  rewrite bool_decide_eq_false_2 by done. exec_simpl. cbn [trace].
  repeat match goal with
  | |- context [bind (validateWorkspaceRecord name ?ws) ?K] =>
      change (bind (validateWorkspaceRecord name ws) K)
        with (validateWorkspaceRecord name ws ≫= K)
  end.
  repeat split.
  all: first [ exact (proj1 (run_bind_Err o _ _ e Hfail))
             | f_equal; exact (proj2 (run_bind_Err o _ _ e Hfail)) ].
Qed.

(** Walks a property of all calls through an operation like [all_calls],
    after [pre] has rewritten the unfolded operation and with [close] to
    settle the property at each call. *)
Ltac all_calls_by pre close :=
  unfold setupFolder, listChangedFiles, diff, publish, revert,
    assertValidProfileId, assertValidName;
  pre;
  match goal with
  | |- context [match ?profileId with JNumber _ => _ | _ => _ end] =>
      destruct profileId
  end; exec_simpl; try done;
  try (destruct (WORKSPACE_VALID_NAME_REGEX_test _); exec_simpl; [| done]);
  try (case_bool_decide; exec_simpl; [done |]);
  (split; [close |]); intros [ws|]; unfold validateWorkspaceRecord; [| done];
  destruct (truthy (localFilesPath ws)); [| done];
  destruct (truthy (publishTargetUrl ws)); [| done];
  unfold assertDatIsSavedAndOwned; exec_simpl;
  (split; [close |]); intros meta; (split; [close |]); intros settings;
  destruct (negb _); [done |]; destruct (negb _); [done |];
  unfold timer; exec_simpl; (split; [close |]); intros [archive|]; [| done];
  unfold buildFilter, readDatIgnore, readFile, stat; exec_simpl;
  repeat first
    [ done
    | progress exec_simpl
    | split; [close |]
    | match goal with
      | |- ∀ _, _ => intros ?
      | |- context [match do_paths ?o with _ => _ end] => destruct (do_paths o)
      | |- context [if ?b then _ else _] => destruct b
      end ].

(** X4.  A name that classifies the file as text spares the content
    sniff: [diff] then never calls [isFileContentBinary].  When the name
    says nothing, the local file is sniffed as soon as it is a regular
    file. *)
Theorem diff_text_name_skips_sniff (profileId : jsval) (name filepath : string) :
  (isFileNameBinary (path_normalize filepath) = Some false →
   AllCalls (fun c => match c with
                      | isFileContentBinary _ _ => False
                      | _ => True
                      end)
            (diff profileId name filepath))
  ∧ (∀ (o : Oracle) n files url archive,
       profileId = JNumber n →
       WORKSPACE_VALID_NAME_REGEX_test name = true →
       isFileNameBinary (path_normalize filepath) = None →
       oracleReady o (JNumber n) name files url archive →
       from_option st_isFile false
         (o (fs_stat (ScopedFS files) (path_normalize filepath))) = true →
       isFileContentBinary (ScopedFS files) (path_normalize filepath)
       ∈ trace o (diff profileId name filepath)).
Proof.
  split.
  - intros Htext.
    all_calls_by ltac:(rewrite Htext; rewrite (bool_decide_eq_true_2 (Some false = Some false)) by done; cbn [negb andb])
                 ltac:(done).
  - intros o n files url archive -> Hname Hnone
      (ws & Hws & Hfiles & Hurl & Howner & Hsaved & Hload) Hfile.
    unfold diff, assertValidProfileId, assertValidName.
    rewrite Hname, Hnone. exec_simpl. cbn [trace].
    rewrite bool_decide_eq_false_2 by done. exec_simpl. cbn [trace].
    rewrite Hws. unfold validateWorkspaceRecord. rewrite Hfiles, Hurl.
    unfold assertDatIsSavedAndOwned. exec_simpl. cbn [trace].
    rewrite Howner, Hsaved. cbn [negb]. exec_simpl. cbn [trace].
    unfold timer. exec_simpl. cbn [trace]. rewrite Hload. exec_simpl.
    unfold stat. exec_simpl. cbn [trace]. rewrite Hfile.
    rewrite bool_decide_eq_false_2 by done. cbn [negb andb]. exec_simpl.
    cbn [trace]. do 5 apply list_elem_of_further. apply list_elem_of_here.
Qed.

(** X5.  The guards of [diff] look at the local side first and only at
    regular files: a local file sniffed as binary fails with an encoding
    error whatever the archive holds; a local file that is oversize fails
    with SourceTooLargeError even when the archive side is binary; and a
    path that is a regular file on neither side is never turned down,
    whatever its size. *)
Theorem diff_guard_order (o : Oracle) (n : Z) (name filepath files url : string)
    (archive : FS) :
  WORKSPACE_VALID_NAME_REGEX_test name = true →
  oracleReady o (JNumber n) name files url archive →
  isFileNameBinary (path_normalize filepath) ≠ Some true →
  (sniffedBinary o (ScopedFS files) (path_normalize filepath) = true →
   run o (diff (JNumber n) name filepath)
   = Err (InvalidEncodingError "Cannot diff a binary file"))
  ∧ (sniffedBinary o (ScopedFS files) (path_normalize filepath) = false →
     oversize o (ScopedFS files) (path_normalize filepath) = true →
     run o (diff (JNumber n) name filepath) = Err SourceTooLargeError)
  ∧ (from_option st_isFile false
       (o (fs_stat (ScopedFS files) (path_normalize filepath))) = false →
     from_option st_isFile false (o (fs_stat archive (path_normalize filepath))) = false →
     run o (diff (JNumber n) name filepath)
     = Ok (diffLines
             (default "" (o (fs_readFile archive (path_normalize filepath))))
             (default "" (o (fs_readFile (ScopedFS files) (path_normalize filepath)))))).
Proof.
  intros Hname Hready Hbin.
  rewrite (run_diff o n name filepath files url archive Hname Hbin Hready).
  split; [| split].
  - by intros ->.
  - by intros -> ->.
  - intros HL HA. unfold sniffedBinary, oversize. rewrite HL, HA.
    by rewrite !andb_false_r.
Qed.

(** X6.  Which way the operations write.  [listChangedFiles] and [diff]
    make no apply call; [publish] only applies from a local folder to the
    right, [revert] only to a local folder on the left, [setupFolder] only
    to a local folder on the right.  So in any world [listChangedFiles]
    and [diff] change nothing, [publish] changes no local tree and no
    archive but the one of the workspace, and [revert] changes no
    archive. *)
Theorem operations_write_direction (profileId : jsval) (name filepath : string)
    (opts : Opts) :
  (AllCalls (fun c => writes c = false) (listChangedFiles profileId name opts)
   ∧ AllCalls (fun c => writes c = false) (diff profileId name filepath)
   ∧ AllCalls (fun c => match c with
                        | dft_applyRight l _ _ => ∃ root, l = ScopedFS root
                        | dft_applyLeft _ _ _ => False
                        | _ => True
                        end)
              (publish profileId name opts)
   ∧ AllCalls (fun c => match c with
                        | dft_applyLeft l _ _ => ∃ root, l = ScopedFS root
                        | dft_applyRight _ _ _ => False
                        | _ => True
                        end)
              (revert profileId name opts)
   ∧ AllCalls (fun c => match c with
                        | dft_applyRight _ r _ => ∃ root, r = ScopedFS root
                        | dft_applyLeft _ _ _ => False
                        | _ => True
                        end)
              (setupFolder profileId name opts))
  ∧ ∀ w,
      (exec (listChangedFiles profileId name opts) w).2 = w
      ∧ (exec (diff profileId name filepath) w).2 = w
      ∧ (∀ root, w_scoped (exec (publish profileId name opts) w).2 root
                 = w_scoped w root)
      ∧ (∀ url, w_archives (exec (publish profileId name opts) w).2 url
                ≠ w_archives w url →
                ∃ files, workspaceReady w profileId name files url)
      ∧ (∀ url, w_archives (exec (revert profileId name opts) w).2 url
                = w_archives w url).
Proof.
  split.
  - repeat split.
    all: all_calls_by ltac:(idtac) ltac:(by eauto).
  - intros w.
    assert (Hlist : AllCalls (fun c => writes c = false)
                      (listChangedFiles profileId name opts))
      by (all_calls_by ltac:(idtac) ltac:(done)).
    assert (Hdiff : AllCalls (fun c => writes c = false)
                      (diff profileId name filepath))
      by (all_calls_by ltac:(idtac) ltac:(done)).
    split; [by rewrite (exec_run _ _ Hlist) |].
    split; [by rewrite (exec_run _ _ Hdiff) |].
    unfold publish, revert, assertValidProfileId, assertValidName.
    destruct profileId; exec_simpl; try done.
    destruct (WORKSPACE_VALID_NAME_REGEX_test name); exec_simpl; [| done].
    repeat split.
    all: opening w (JNumber n) name files url' Hready Hfast; try done.
    all: unfold buildFilter, readDatIgnore, readFile;
      destruct (do_paths (massageDiffOpts opts)); exec_simpl; try done.
    all: intros url; cbn [set_tree w_archives tree_of];
      case_bool_decide; [subst; eauto | done].
Qed.

(** X7.  Explicit paths override the ignore rules: with a [paths] array,
    [listChangedFiles], [publish] and [revert] never read a file, not
    even the ignore file; and whatever the options, the only file whose
    content they read themselves is [".datignore"] of a local folder, and
    they never [stat] a path. *)
Theorem explicit_paths_skip_datignore (profileId : jsval) (name : string) (opts : Opts) :
  (∀ l, opts_paths opts = JArray l →
     AllCalls (fun c => match c with fs_readFile _ _ => False | _ => True end)
              (listChangedFiles profileId name opts)
     ∧ AllCalls (fun c => match c with fs_readFile _ _ => False | _ => True end)
                (publish profileId name opts)
     ∧ AllCalls (fun c => match c with fs_readFile _ _ => False | _ => True end)
                (revert profileId name opts))
  ∧ (AllCalls (fun c => match c with
                        | fs_readFile fs p => p = ".datignore" ∧ ∃ root, fs = ScopedFS root
                        | fs_stat _ _ | isFileContentBinary _ _ => False
                        | _ => True
                        end)
              (listChangedFiles profileId name opts)
     ∧ AllCalls (fun c => match c with
                          | fs_readFile fs p => p = ".datignore" ∧ ∃ root, fs = ScopedFS root
                          | fs_stat _ _ | isFileContentBinary _ _ => False
                          | _ => True
                          end)
                (publish profileId name opts)
     ∧ AllCalls (fun c => match c with
                          | fs_readFile fs p => p = ".datignore" ∧ ∃ root, fs = ScopedFS root
                          | fs_stat _ _ | isFileContentBinary _ _ => False
                          | _ => True
                          end)
                (revert profileId name opts)).
Proof.
  split.
  - intros l Hpaths.
    assert (Hmassaged : ∃ paths, do_paths (massageDiffOpts opts) = Some paths)
      by (unfold massageDiffOpts; rewrite Hpaths; eauto).
    destruct Hmassaged as [paths Hmassaged].
    repeat split.
    all: all_calls_by ltac:(unfold buildFilter; rewrite Hmassaged) ltac:(done).
  - repeat split.
    all: all_calls_by ltac:(idtac) ltac:(by eauto).
Qed.

Lemma split_app_sep (sep : ascii) (a b : string) :
  split sep (a +:+ String sep b) = split sep a ++ split sep b.
Proof.
  induction a as [|c a IH].
  - rewrite append_nil_l. cbn [split]. by rewrite bool_decide_eq_true_2.
  - rewrite append_cons. cbn [split]. rewrite IH.
    case_bool_decide; [done |].
    pose proof (split_nonempty sep a) as Hne.
    by destruct (split sep a).
Qed.

(** X8.  Line feeds cut the ignore file into independent parts: the
    rules of two parts put together by a line feed are the patterns of the
    first part followed by the rules of the second.  So a line feed at the
    end or at the start of the file changes nothing, and there are always
    two more rules than non-empty lines. *)
Theorem readDatIgnore_rules_lines (a b : string) :
  readDatIgnore_rules (a +:+ String LF b)
  = map (fun line => path_normalize
                       (if startsWith line "/" then line else "**/" +:+ line))
        (List.filter (fun line => negb (bool_decide (line = ""))) (split LF a))
    ++ readDatIgnore_rules b
  ∧ readDatIgnore_rules (a +:+ String LF "") = readDatIgnore_rules a
  ∧ readDatIgnore_rules (String LF a) = readDatIgnore_rules a
  ∧ length (readDatIgnore_rules a)
    = length (List.filter (fun line => negb (bool_decide (line = ""))) (split LF a)) + 2.
Proof.
  assert (Hcut : ∀ x y,
    readDatIgnore_rules (x +:+ String LF y)
    = map (fun line => path_normalize
                         (if startsWith line "/" then line else "**/" +:+ line))
          (List.filter (fun line => negb (bool_decide (line = ""))) (split LF x))
      ++ readDatIgnore_rules y).
  { intros x y. rewrite !readDatIgnore_rules_eq, split_app_sep.
    by rewrite List.filter_app, map_app, <- app_assoc. }
  split; [apply Hcut | split; [| split]].
  - rewrite Hcut. by rewrite (readDatIgnore_rules_eq a).
  - change (String LF a) with ("" +:+ String LF a). by rewrite Hcut.
  - rewrite readDatIgnore_rules_eq, length_app, length_map. done.
Qed.

End Operations.

(** ** The sample world *)

Lemma sample_world_ready (fast : bool) :
  workspaceReady (H := posix) (sample_world fast) (JNumber 0) "site"
    "/home/bob/site" "dat://abc".
Proof.
  exists {| localFilesPath := Some "/home/bob/site";
            publishTargetUrl := Some "dat://abc" |}.
  repeat split; vm_compute; reflexivity.
Defined.

Lemma sample_oracle_ready (localSize archiveSize : Z) :
  oracleReady (H := posix) (sample_oracle localSize archiveSize) (JNumber 0) "site"
    "/home/bob/site" "dat://abc" (ArchiveFS "dat://abc").
Proof.
  exists {| localFilesPath := Some "/home/bob/site";
            publishTargetUrl := Some "dat://abc" |}.
  repeat split; vm_compute; reflexivity.
Defined.

Lemma unreadable_oracle_ready :
  oracleReady (H := posix) unreadable_oracle (JNumber 0) "site"
    "/home/bob/site" "dat://abc" (ArchiveFS "dat://abc").
Proof.
  exists {| localFilesPath := Some "/home/bob/site";
            publishTargetUrl := Some "dat://abc" |}.
  repeat split; vm_compute; reflexivity.
Defined.

(** [setupFolder] brings what the archive alone holds and keeps the
    rest: the notes are still there, the manifest has arrived. *)
Example setupFolder_sample :
  let w' := (exec (setupFolder (H := posix) (JNumber 0) "site" noOpts)
                  (sample_world true)).2 in
  w_scoped w' "/home/bob/site" !! "/notes.txt" = Some (File "only here")
  ∧ w_scoped w' "/home/bob/site" !! "/dat.json" = Some (File "{}")
  ∧ w_scoped w' "/home/bob/site" !! "/docs/a.md" = Some (File "A").
Proof. repeat split; vm_compute; reflexivity. Qed.

(** [publish] asked for a shallow diff still copies what lies inside a
    new folder. *)
Example publish_sample :
  let w' := (exec (publish (H := posix) (JNumber 0) "site" (pathsOpts ["/docs/"]))
                  (sample_world true)).2 in
  w_archives w' "dat://abc" !! "/docs" = Some Directory
  ∧ w_archives w' "dat://abc" !! "/docs/a.md" = Some (File "A")
  ∧ w_archives w' "dat://abc" !! "/img/logo.png" = Some (File "PNG").
Proof. repeat split; vm_compute; reflexivity. Qed.

Lemma setupFolder_add_only_witness :
  w_scoped (sample_world true) "/home/bob/site" !! "/dat.json" = Some (File "{}")
  ∨ File "{}" = Directory
  ∨ ∃ url, workspaceReady (H := posix) (sample_world true) (JNumber 0) "site"
             "/home/bob/site" url
           ∧ w_archives (sample_world true) url !! "/dat.json" = Some (File "{}").
Proof.
  apply (proj2 (proj2 (proj2
           (setupFolder_add_only (H := posix) (JNumber 0) "site" noOpts
              (sample_world true))))).
  vm_compute. reflexivity.
Defined.

Lemma datignore_rules_filter_witness :
  (∃ files url,
     workspaceReady (H := posix) (sample_world true) (JNumber 0) "site" files url
     ∧ ∀ e rule,
         e ∈ [ {| d_change := ChangeDel; d_path := "/img"; d_isDirectory := true |};
               {| d_change := ChangeAdd; d_path := "/.datignore"; d_isDirectory := false |};
               {| d_change := ChangeAdd; d_path := "/docs"; d_isDirectory := true |};
               {| d_change := ChangeDel; d_path := "/dat.json"; d_isDirectory := false |} ] →
         rule ∈ readDatIgnore_rules (H := posix)
                  (default "" (w_scoped (sample_world true) files !! "/.datignore"
                               ≫= readNode)) →
         glob_match (Externals := posix) rule (d_path e) = false)
  ∧ exec (listChangedFiles (H := posix) (JNumber 0) "site" noOpts) (sample_world true)
    = (Ok (diffEngine (w_scoped (sample_world true) "/home/bob/site")
             (w_archives (sample_world true) "dat://abc")
             (Some (set_filter (massageDiffOpts noOpts)
                      (fun filepath =>
                         anymatch (H := posix)
                           (readDatIgnore_rules (H := posix)
                              (default ""
                                 (w_scoped (sample_world true) "/home/bob/site"
                                    !! "/.datignore" ≫= readNode)))
                           filepath)))),
       sample_world true).
Proof.
  split.
  - apply (proj1 (proj2 (proj2 (datignore_rules_filter (H := posix))))
             (sample_world true) (JNumber 0) "site" noOpts _ (sample_world true)).
    + reflexivity.
    + vm_compute. reflexivity.
  - apply (proj2 (proj2 (proj2 (proj2 (datignore_rules_filter (H := posix)))))
             (sample_world true) 0%Z "site" noOpts "/home/bob/site" "dat://abc").
    + vm_compute. reflexivity.
    + apply sample_world_ready.
    + reflexivity.
    + reflexivity.
Defined.

Lemma publish_revert_force_deep_witness :
  ∃ handed,
    do_shallow handed = false
    ∧ do_compareContent handed
      = do_compareContent (massageDiffOpts (pathsOpts ["/docs/"]))
    ∧ exec (publish (H := posix) (JNumber 0) "site" (pathsOpts ["/docs/"]))
           (sample_world true)
      = (Ok tt,
         set_tree (sample_world true) (ArchiveFS "dat://abc")
           (applyRightEngine (w_scoped (sample_world true) "/home/bob/site")
              (w_archives (sample_world true) "dat://abc")
              (diffEngine (w_scoped (sample_world true) "/home/bob/site")
                 (w_archives (sample_world true) "dat://abc") (Some handed))))
    ∧ exec (revert (H := posix) (JNumber 0) "site" (pathsOpts ["/docs/"]))
           (sample_world true)
      = (Ok tt,
         set_tree (sample_world true) (ScopedFS "/home/bob/site")
           (applyLeftEngine (w_scoped (sample_world true) "/home/bob/site")
              (w_archives (sample_world true) "dat://abc")
              (diffEngine (w_scoped (sample_world true) "/home/bob/site")
                 (w_archives (sample_world true) "dat://abc") (Some handed))))
    ∧ ∀ p e,
        p ∈ dom (w_scoped (sample_world true) "/home/bob/site")
            ∪ dom (w_archives (sample_world true) "dat://abc") →
        excluded (default (fun _ => false) (do_filter handed))
                 (elements (dom (w_scoped (sample_world true) "/home/bob/site")
                            ∪ dom (w_archives (sample_world true) "dat://abc"))) p
        = false →
        classify (do_compareContent handed)
                 (w_scoped (sample_world true) "/home/bob/site")
                 (w_archives (sample_world true) "dat://abc") p = Some e →
        e ∈ diffEngine (w_scoped (sample_world true) "/home/bob/site")
              (w_archives (sample_world true) "dat://abc") (Some handed).
Proof.
  apply (proj2 (proj2 (publish_revert_force_deep (H := posix) (JNumber 0) "site"
                         (pathsOpts ["/docs/"])))
           (sample_world true) 0%Z "/home/bob/site" "dat://abc" eq_refl).
  - vm_compute. reflexivity.
  - apply sample_world_ready.
  - reflexivity.
Defined.

Lemma diff_binary_name_witness :
  diff (H := posix) (JNumber 0) "site" "photo.png"
  = Throw (InvalidEncodingError "Cannot diff a binary file")
  ∧ ∀ w, exec (diff (H := posix) (JNumber 0) "site" "photo.png") w
         = (Err (InvalidEncodingError "Cannot diff a binary file"), w).
Proof.
  refine (proj2 (diff_binary_name (H := posix) (JNumber 0) "site" "photo.png" _)
            0%Z eq_refl _).
  - vm_compute. reflexivity.
  - vm_compute. reflexivity.
Defined.

Lemma diff_size_guard_witness :
  run (sample_oracle 100001 5) (diff (H := posix) (JNumber 0) "site" "notes.txt")
  = Err SourceTooLargeError
  ∧ run (sample_oracle 100000 100000) (diff (H := posix) (JNumber 0) "site" "notes.txt")
    = Ok (diffLines (Externals := posix) "old text" "new text").
Proof.
  split.
  - apply (proj1 (diff_size_guard (H := posix) (sample_oracle 100001 5) 0 "site"
                    "notes.txt" "/home/bob/site" "dat://abc" (ArchiveFS "dat://abc")
                    eq_refl (sample_oracle_ready _ _)
                    ltac:(vm_compute; discriminate)
                    eq_refl eq_refl eq_refl eq_refl)).
    left. vm_compute. reflexivity.
  - apply (proj2 (diff_size_guard (H := posix) (sample_oracle 100000 100000) 0 "site"
                    "notes.txt" "/home/bob/site" "dat://abc" (ArchiveFS "dat://abc")
                    eq_refl (sample_oracle_ready _ _)
                    ltac:(vm_compute; discriminate)
                    eq_refl eq_refl eq_refl eq_refl)).
    + vm_compute. discriminate.
    + vm_compute. discriminate.
Defined.

Lemma acquisition_timeout_witness :
  exec (setupFolder (H := posix) (JNumber 0) "site" noOpts) (sample_world false)
  = (Err TimeoutError, sample_world false)
  ∧ exec (listChangedFiles (H := posix) (JNumber 0) "site" noOpts) (sample_world false)
    = (Err TimeoutError, sample_world false)
  ∧ exec (diff (H := posix) (JNumber 0) "site" "index.html") (sample_world false)
    = (Err TimeoutError, sample_world false)
  ∧ exec (publish (H := posix) (JNumber 0) "site" noOpts) (sample_world false)
    = (Err TimeoutError, sample_world false)
  ∧ exec (revert (H := posix) (JNumber 0) "site" noOpts) (sample_world false)
    = (Err TimeoutError, sample_world false).
Proof.
  apply (proj2 (acquisition_timeout (H := posix)) (sample_world false) 0%Z "site"
           "index.html" "/home/bob/site" "dat://abc" noOpts).
  - vm_compute. reflexivity.
  - vm_compute. discriminate.
  - apply sample_world_ready.
  - reflexivity.
Defined.



Lemma diff_tolerates_missing_witness :
  run unreadable_oracle (diff (H := posix) (JNumber 0) "site" "index.html")
  = Ok (diffLines (Externals := posix) "hello" "").
Proof.
  apply (proj1 (proj2 (proj2 (proj2 (proj2
           (diff_tolerates_missing (H := posix) unreadable_oracle 0 "site"
              "index.html" "/home/bob/site" "dat://abc" (ArchiveFS "dat://abc")
              eq_refl unreadable_oracle_ready
              ltac:(vm_compute; discriminate)))))));
    vm_compute; reflexivity.
Defined.

Lemma empty_paths_exclude_all_witness :
  exec (listChangedFiles (H := posix) (JNumber 0) "site" (pathsOpts []))
       (sample_world true)
  = (Ok [], sample_world true).
Proof.
  apply (proj2 (proj2 (proj2
           (empty_paths_exclude_all (H := posix) (pathsOpts []) eq_refl)))
           (sample_world true) 0%Z "site" "/home/bob/site" "dat://abc").
  - vm_compute. reflexivity.
  - apply sample_world_ready.
  - reflexivity.
Defined.

(** ** The rest of the exported api *)

Ltac api_simpl :=
  cbn [apiRun apiTrace AllApiCalls abind mbind api_bind mret api_ret acall
       lift bind prog_bind prog_ret await].

Lemma apiRun_bind {A B : Type} (o : ApiOracle) (p : api A) (f : A → api B) :
  apiRun o (p ≫= f)
  = match apiRun o p with
    | AOk a => apiRun o (f a)
    | AErr e => AErr e
    end.
Proof.
  change (p ≫= f) with (abind p f).
  induction p as [a|e|c k IH]; cbn [abind apiRun]; [done | done |].
  apply IH.
Qed.

Lemma apiTrace_bind {A B : Type} (o : ApiOracle) (p : api A) (f : A → api B) :
  apiTrace o (p ≫= f)
  = apiTrace o p ++ match apiRun o p with
                    | AOk a => apiTrace o (f a)
                    | AErr _ => []
                    end.
Proof.
  change (p ≫= f) with (abind p f).
  induction p as [a|e|c k IH]; cbn [abind apiRun apiTrace app]; [done | done |].
  by rewrite IH.
Qed.

Lemma apiRun_lift {R : Type} (o : ApiOracle) (p : prog R) :
  apiRun o (lift p)
  = match run (fun c => o (base c)) p with
    | Ok r => AOk r
    | Err e => AErr (Thrown e)
    end.
Proof.
  induction p as [r|e|c k IH]; cbn [lift apiRun run]; [done | done |].
  apply IH.
Qed.

Lemma apiTrace_lift {R : Type} (o : ApiOracle) (p : prog R) :
  apiTrace o (lift p) = map base (trace (fun c => o (base c)) p).
Proof.
  induction p as [r|e|c k IH]; cbn [lift apiTrace trace map]; [done | done |].
  by rewrite IH.
Qed.

Lemma AllApiCalls_bind {A B : Type} (P : apiCall → Prop) (p : api A) (f : A → api B) :
  AllApiCalls P p → (∀ a, AllApiCalls P (f a)) → AllApiCalls P (p ≫= f).
Proof.
  change (p ≫= f) with (abind p f). intros Hp Hf.
  induction p as [a|e|c k IH]; cbn [abind AllApiCalls] in *; [done | done |].
  destruct Hp as [Hc Hk]. split; [done |]. intros a. by apply IH.
Qed.

Lemma AllApiCalls_lift {R : Type} (P : apiCall → Prop) (p : prog R) :
  AllCalls (fun c => P (base c)) p → AllApiCalls P (lift p).
Proof.
  induction p as [r|e|c k IH]; cbn [lift AllCalls AllApiCalls]; [done | done |].
  intros [Hc Hk]. split; [done |]. intros a. apply IH, Hk.
Qed.

Lemma AllApiCalls_trace {R : Type} (P : apiCall → Prop) (o : ApiOracle) (p : api R) :
  AllApiCalls P p → ∀ c, c ∈ apiTrace o p → P c.
Proof.
  induction p as [r|e|c k IH]; cbn [AllApiCalls apiTrace].
  - intros _ c Hc. by apply elem_of_nil in Hc.
  - intros _ c Hc. by apply elem_of_nil in Hc.
  - intros [Hc Hk] c' [-> | Hin]%elem_of_cons; [done |]. by eapply IH.
Qed.

(** *** The ignore file *)

(** A piece between two separators holds no separator. *)
Lemma split_piece (sep : ascii) (s x : string) :
  x ∈ split sep s → split sep x = [x].
Proof.
  revert x. induction s as [|c s IH]; intros x; cbn [split].
  - by intros ->%list_elem_of_singleton.
  - pose proof (split_nonempty sep s) as Hne.
    case_bool_decide as Hc.
    + intros [-> | Hin]%elem_of_cons; [done | by apply IH].
    + destruct (split sep s) as [|y ys] eqn:Hs; [done |].
      intros [-> | Hin]%elem_of_cons.
      * cbn [split]. rewrite bool_decide_eq_false_2 by done.
        rewrite (IH y); [done | by apply elem_of_cons; left].
      * apply IH. by apply elem_of_cons; right.
Qed.

Lemma split_join (sep : ascii) (l : list string) :
  l ≠ [] →
  split sep (join (String sep "") l) = concat (map (split sep) l).
Proof.
  induction l as [|x l IH]; [done |]. intros _.
  destruct l as [|y l].
  - cbn [join map concat]. by rewrite app_nil_r.
  - change (join (String sep "") (x :: y :: l))
      with (x +:+ String sep (join (String sep "") (y :: l))).
    rewrite split_app_sep, IH by done. done.
Qed.

Lemma concat_split_pieces (sep : ascii) (l : list string) :
  (∀ x, x ∈ l → split sep x = [x]) → concat (map (split sep) l) = l.
Proof.
  induction l as [|x l IH]; intros Hl; [done |].
  cbn [map concat]. rewrite (Hl x) by (by apply elem_of_cons; left).
  rewrite IH; [done |]. intros y Hy. apply Hl. by apply elem_of_cons; right.
Qed.

Lemma filter_twice {A : Type} (f : A → bool) (l : list A) :
  List.filter f (List.filter f l) = List.filter f l.
Proof.
  induction l as [|x l IH]; cbn [List.filter]; [done |].
  destruct (f x) eqn:Hx; [| done]. cbn [List.filter]. by rewrite Hx, IH.
Qed.

Lemma addToDatignore_content_split (v : option string) (line : string) :
  Boolean line = true →
  split LF (addToDatignore_content v line)
  = List.filter Boolean (split LF (default "" v)) ++ split LF line ++ [""].
Proof.
  intros Hline. unfold addToDatignore_content.
  rewrite split_app_sep. cbn [split]. rewrite app_assoc. f_equal.
  rewrite List.filter_app. cbn [List.filter]. rewrite Hline.
  rewrite split_join by (by destruct (List.filter _ _)).
  rewrite map_app, concat_app. cbn [map concat]. rewrite app_nil_r.
  f_equal. apply concat_split_pieces.
  intros x [Hx _]%list_elem_of_In%filter_In.
  by apply (split_piece LF (default "" v)), list_elem_of_In.
Qed.

Section MoreFacts.
Context `{Externals}.

(** X9.  What [addToDatignore] writes: the non-empty lines of the old
    file, in order, then the line to add, each closed by a line feed and
    nothing else; with no old file it is just the line and a line feed.
    Blank lines of the old file are gone, and a line that the file already
    holds is written once more. *)
Theorem addToDatignore_content_lines (v : option string) (line : string) :
  Boolean line = true →
  split LF (addToDatignore_content v line)
  = List.filter Boolean (split LF (default "" v)) ++ split LF line ++ [""]
  ∧ addToDatignore_content None line = line +:+ String LF ""
  ∧ (split LF line = [line] →
     split LF (addToDatignore_content (Some (addToDatignore_content v line)) line)
     = List.filter Boolean (split LF (default "" v)) ++ [line; line; ""]).
Proof.
  intros Hline. split; [by apply addToDatignore_content_split |]. split.
  - unfold addToDatignore_content. cbn [default split app List.filter].
    change (Boolean "") with false. cbn [List.filter]. by rewrite Hline.
  - intros Hone. rewrite (addToDatignore_content_split (Some _)) by done.
    unfold default at 1. cbn [from_option id].
    rewrite addToDatignore_content_split by done.
    rewrite Hone, !List.filter_app. cbn [List.filter]. rewrite Hline.
    change (Boolean "") with false. cbn [app].
    rewrite <- app_assoc. cbn [app]. f_equal.
    apply filter_twice.
Qed.

(** X10.  Adding a line and reading the rules back: the rules are the
    patterns of the old non-empty lines, then the patterns of the added
    text, then the two fixed rules; for a line without line feed that is
    one new pattern, right before the fixed rules, and every rule of the
    old file is still a rule. *)
Theorem addToDatignore_then_readDatIgnore (v : option string) (line : string) :
  Boolean line = true →
  readDatIgnore_rules (addToDatignore_content v line)
  = map (fun l => path_normalize (if startsWith l "/" then l else "**/" +:+ l))
        (List.filter (fun l => negb (bool_decide (l = ""))) (split LF (default "" v)))
    ++ map (fun l => path_normalize (if startsWith l "/" then l else "**/" +:+ l))
           (List.filter (fun l => negb (bool_decide (l = ""))) (split LF line))
    ++ [path_normalize "/.git"; path_normalize "/.dat"]
  ∧ (split LF line = [line] →
     readDatIgnore_rules (addToDatignore_content v line)
     = map (fun l => path_normalize (if startsWith l "/" then l else "**/" +:+ l))
           (List.filter (fun l => negb (bool_decide (l = ""))) (split LF (default "" v)))
       ++ [path_normalize (if startsWith line "/" then line else "**/" +:+ line);
           path_normalize "/.git"; path_normalize "/.dat"])
  ∧ (∀ rule, rule ∈ readDatIgnore_rules (default "" v) →
             rule ∈ readDatIgnore_rules (addToDatignore_content v line)).
Proof.
  intros Hline.
  assert (Hrules : readDatIgnore_rules (addToDatignore_content v line)
    = map (fun l => path_normalize (if startsWith l "/" then l else "**/" +:+ l))
          (List.filter (fun l => negb (bool_decide (l = ""))) (split LF (default "" v)))
      ++ map (fun l => path_normalize (if startsWith l "/" then l else "**/" +:+ l))
             (List.filter (fun l => negb (bool_decide (l = ""))) (split LF line))
      ++ [path_normalize "/.git"; path_normalize "/.dat"]).
  { rewrite readDatIgnore_rules_eq, addToDatignore_content_split by done.
    rewrite !List.filter_app, !map_app.
    change (fun l : string => negb (bool_decide (l = ""))) with Boolean.
    rewrite filter_twice. cbn [List.filter]. change (Boolean "") with false.
    cbn [map]. by rewrite app_nil_r, <- app_assoc. }
  split; [done | split].
  - intros Hone. rewrite Hrules, Hone. cbn [List.filter].
    unfold Boolean in Hline. by rewrite Hline.
  - intros rule. rewrite Hrules, (readDatIgnore_rules_eq (default "" v)).
    rewrite !elem_of_app. intros [? | ?]; eauto.
Qed.

Lemma last_app_two {A : Type} (l : list A) (a b : A) : last (l ++ [a; b]) = Some b.
Proof. change [a; b] with ([a] ++ [b]). by rewrite app_assoc, last_snoc. Qed.

Lemma addToDatignore_calls (profileId : jsval) (name : string) (line : jsval) :
  AllApiCalls touchesDatignoreOnly (addToDatignore profileId name line).
Proof.
  unfold addToDatignore, assertValidProfileId, assertValidName.
  destruct profileId; api_simpl; try done.
  destruct (WORKSPACE_VALID_NAME_REGEX_test name); api_simpl; [| done].
  destruct line as [| | | |l| |]; try done.
  destruct (Boolean l); api_simpl; [| done].
  split; [exact I |]. intros [ws|]; unfold validateWorkspaceRecord; [| done].
  destruct (truthy (localFilesPath ws)); [| done].
  destruct (truthy (publishTargetUrl ws)); [| done].
  unfold assertDatIsSavedAndOwned. api_simpl.
  split; [exact I |]. intros meta. split; [exact I |]. intros settings.
  destruct (negb _); [done |]. destruct (negb _); [done |]. api_simpl.
  split; [cbn; by eauto |]. intros v. split; [cbn; by eauto |]. done.
Qed.

(** X11.  [addToDatignore] turns down a line that is not a non-empty
    string before it asks anything.  Otherwise the only file it reads and
    the only thing it writes is [".datignore"] of a local folder, and it
    never loads the archive.  For a workspace that passes the validation
    it ends by writing the new content to the ignore file of the
    workspace folder, and returns normally whatever that write
    answers. *)
Theorem addToDatignore_writes_datignore (profileId : jsval) (name : string)
    (line : jsval) :
  ((∀ l, line = JString l → l = "") →
   AllApiCalls (fun _ => False) (addToDatignore profileId name line)
   ∧ (∀ n, profileId = JNumber n → WORKSPACE_VALID_NAME_REGEX_test name = true →
        addToDatignore profileId name line
        = AThrow (Thrown (PlainError "Must provide a pattern to add to the .datignore"))))
  ∧ AllApiCalls touchesDatignoreOnly (addToDatignore profileId name line)
  ∧ (∀ (o : ApiOracle) n l files url,
       profileId = JNumber n → line = JString l →
       WORKSPACE_VALID_NAME_REGEX_test name = true →
       Boolean l = true →
       run (fun c => o (base c))
           (validateWorkspaceRecord name (o (base (workspacesDb_get (JNumber n) name))))
       = Ok (files, url) →
       apiRun o (addToDatignore profileId name line) = AOk tt
       ∧ last (apiTrace o (addToDatignore profileId name line))
         = Some (fs_writeFile (ScopedFS files) ".datignore"
                   (addToDatignore_content
                      (o (base (fs_readFile (ScopedFS files) ".datignore"))) l))).
Proof.
  split; [| split; [apply addToDatignore_calls |]].
  - intros Hbad. unfold addToDatignore, assertValidProfileId, assertValidName.
    assert (Hthrow : match line with
                     | JString l => Boolean l = false
                     | _ => True
                     end).
    { destruct line; try done. by rewrite (Hbad _ eq_refl). }
    split.
    + destruct profileId; api_simpl; try done.
      destruct (WORKSPACE_VALID_NAME_REGEX_test name); api_simpl; [| done].
      destruct line; try done. by rewrite Hthrow.
    + intros n -> Hname. rewrite Hname. api_simpl.
      destruct line; try done. by rewrite Hthrow.
  - intros o n l files url -> -> Hname Hline Hready.
    unfold addToDatignore, assertValidProfileId, assertValidName.
    rewrite Hname, Hline. api_simpl.
    repeat match goal with
    | |- context [abind (lift ?p) ?K] =>
        change (abind (lift p) K) with (lift p ≫= K)
    end.
    rewrite apiRun_bind, apiTrace_bind, apiRun_lift, Hready. api_simpl.
    split; [done |].
    rewrite app_comm_cons. apply last_app_two.
Qed.

(** *** get *)

(** X12.  What [get] reports about the files path.  A non-empty path on
    the returned record is one that [fs.stat] finds to be a folder, and
    the record is then not marked; a record without such a path is marked
    as missing its files path; and a path kept as the missing one has been
    taken off the record because it is no folder.  A name that starts with
    ["dat://"] is looked up as a target url, without the check of the
    name; any other name is checked and then looked up as a name. *)
Theorem get_reports_only_folders (o : ApiOracle) (n : Z) (name : string) :
  (∀ info, apiRun o (get (JNumber n) name) = AOk (Some info) →
     (∀ p, truthy (wi_localFilesPath info) = Some p →
           from_option st_isDirectory false (o (node_stat p)) = true
           ∧ wi_localFilesPathIsMissing info = false
           ∧ wi_missingLocalFilesPath info = None)
     ∧ (truthy (wi_localFilesPath info) = None →
        wi_localFilesPathIsMissing info = true)
     ∧ (∀ p, wi_missingLocalFilesPath info = Some p →
             wi_localFilesPath info = None
             ∧ from_option st_isDirectory false (o (node_stat p)) = false))
  ∧ (startsWith name "dat://" = true →
     head (apiTrace o (get (JNumber n) name))
     = Some (workspacesDb_getByPublishTargetUrl (JNumber n) name))
  ∧ (startsWith name "dat://" = false →
     if WORKSPACE_VALID_NAME_REGEX_test name
     then head (apiTrace o (get (JNumber n) name))
          = Some (base (workspacesDb_get (JNumber n) name))
     else apiRun o (get (JNumber n) name)
          = AErr (Thrown (PlainError ("Invalid workspace name (" +:+ name +:+ ")")))
          ∧ apiTrace o (get (JNumber n) name) = []).
Proof.
  unfold get, assertValidProfileId, assertValidName, assertDatUrl.
  api_simpl.
  assert (Hmarks : ∀ (ws : option WorkspaceRecord) info,
    apiRun o
      match ws with
      | Some ws =>
          match truthy (localFilesPath ws) with
          | Some files =>
              stat ← acall (node_stat files);
              if negb (from_option st_isDirectory false stat)
              then ARet (Some {| wi_localFilesPath := None;
                                 wi_publishTargetUrl := publishTargetUrl ws;
                                 wi_localFilesPathIsMissing := true;
                                 wi_missingLocalFilesPath := Some files |})
              else ARet (Some {| wi_localFilesPath := localFilesPath ws;
                                 wi_publishTargetUrl := publishTargetUrl ws;
                                 wi_localFilesPathIsMissing := false;
                                 wi_missingLocalFilesPath := None |})
          | None =>
              ARet (Some {| wi_localFilesPath := localFilesPath ws;
                            wi_publishTargetUrl := publishTargetUrl ws;
                            wi_localFilesPathIsMissing := true;
                            wi_missingLocalFilesPath := None |})
          end
      | None => ARet None
      end = AOk (Some info) →
    (∀ p, truthy (wi_localFilesPath info) = Some p →
          from_option st_isDirectory false (o (node_stat p)) = true
          ∧ wi_localFilesPathIsMissing info = false
          ∧ wi_missingLocalFilesPath info = None)
    ∧ (truthy (wi_localFilesPath info) = None →
       wi_localFilesPathIsMissing info = true)
    ∧ (∀ p, wi_missingLocalFilesPath info = Some p →
            wi_localFilesPath info = None
            ∧ from_option st_isDirectory false (o (node_stat p)) = false)).
  { intros [ws|] info; api_simpl; [| done].
    destruct (truthy (localFilesPath ws)) as [files|] eqn:Hfiles; api_simpl.
    - destruct (from_option st_isDirectory false (o (node_stat files))) eqn:Hdir;
        cbn [negb]; api_simpl; intros [= <-]; cbn.
      + split; [| split].
        * intros q Hq. rewrite Hfiles in Hq. by injection Hq as <-.
        * intros Hq. congruence.
        * done.
      + split; [| split].
        * done.
        * done.
        * by intros q [= <-].
    - intros [= <-]; cbn. split; [| split]; [| done | done].
      intros q Hq. congruence. }
  destruct (startsWith name "dat://") eqn:Hdat; api_simpl.
  - split; [| by split]. intros info. apply Hmarks.
  - split; [| split; [done |]].
    + intros info.
      destruct (WORKSPACE_VALID_NAME_REGEX_test name); api_simpl; [| done].
      apply Hmarks.
    + intros _. by destruct (WORKSPACE_VALID_NAME_REGEX_test name).
Qed.

(** *** Safe files paths *)

Lemma assertSafeFilesPath_loop_safe (o : ApiOracle) (names : list string)
    (localFilesPath : string) :
  (∀ nm, nm ∈ names →
     path_normalize localFilesPath ≠ path_normalize (o (app_getPath nm))) →
  apiRun o (assertSafeFilesPath_loop names localFilesPath) = AOk tt
  ∧ apiTrace o (assertSafeFilesPath_loop names localFilesPath) = map app_getPath names.
Proof.
  induction names as [|nm names IH]; intros Hsafe; [done |].
  cbn [assertSafeFilesPath_loop]. api_simpl.
  rewrite bool_decide_eq_false_2
    by (apply Hsafe; by apply elem_of_cons; left).
  destruct IH as [-> ->]; [| done].
  intros nm' Hin. apply Hsafe. by apply elem_of_cons; right.
Qed.

Lemma assertSafeFilesPath_loop_protected (o : ApiOracle) (names : list string)
    (localFilesPath : string) :
  (∃ nm, nm ∈ names
         ∧ path_normalize localFilesPath = path_normalize (o (app_getPath nm))) →
  ∃ before nm after,
    names = before ++ nm :: after
    ∧ (∀ m, m ∈ before →
         path_normalize localFilesPath ≠ path_normalize (o (app_getPath m)))
    ∧ path_normalize localFilesPath = path_normalize (o (app_getPath nm))
    ∧ apiRun o (assertSafeFilesPath_loop names localFilesPath)
      = AErr (ProtectedFileNotWritableError
                ("This is the OS " +:+ nm
                 +:+ " folder, which is protected. Please pick another folder or subfolder."))
    ∧ apiTrace o (assertSafeFilesPath_loop names localFilesPath)
      = map app_getPath (before ++ [nm]).
Proof.
  induction names as [|nm names IH]; intros (nm' & Hin & Hnm').
  - by apply elem_of_nil in Hin.
  - cbn [assertSafeFilesPath_loop]. api_simpl. case_bool_decide as Heq.
    + exists [], nm, names. split; [done |]. split.
      * intros m Hm. by apply elem_of_nil in Hm.
      * by api_simpl.
    + apply elem_of_cons in Hin as [-> | Hin]; [done |].
      destruct IH as (before & nm0 & after & -> & Hbefore & Heq0 & Hrun & Htrace);
        [by eauto |].
      exists (nm :: before), nm0, after. split; [done |]. split.
      * intros m [-> | Hm]%elem_of_cons; [done | by apply Hbefore].
      * split; [done |]. split; [done |]. cbn [app map]. by rewrite Htrace.
Qed.

(** X13.  [assertSafeFilesPath] on a folder of the operating system (a
    path that normalizes like [app.getPath] of home, desktop, documents,
    downloads, music, pictures or videos) fails with the error that names
    the first such folder, in that order: the folders before it do not
    match, and [app.getPath] has been asked for them and for it, one
    after the other, and nothing else: nothing is looked up or created.
    On any other path it succeeds exactly when the
    path is a folder already, or is nothing yet and [mkdirp] creates it;
    a path that exists and is no folder gives NotAFolderError, and
    [mkdirp] is called only when [fs.stat] finds nothing. *)
Theorem assertSafeFilesPath_decides (o : ApiOracle) (localFilesPath : string) :
  DISALLOWED_SAVE_PATH_NAMES
  = ["home"; "desktop"; "documents"; "downloads"; "music"; "pictures"; "videos"]
  ∧ ((∃ nm, nm ∈ DISALLOWED_SAVE_PATH_NAMES
            ∧ path_normalize localFilesPath = path_normalize (o (app_getPath nm))) →
     ∃ before nm after,
       DISALLOWED_SAVE_PATH_NAMES = before ++ nm :: after
       ∧ (∀ m, m ∈ before →
            path_normalize localFilesPath ≠ path_normalize (o (app_getPath m)))
       ∧ nm ∈ DISALLOWED_SAVE_PATH_NAMES
       ∧ path_normalize localFilesPath = path_normalize (o (app_getPath nm))
       ∧ apiRun o (assertSafeFilesPath localFilesPath)
         = AErr (ProtectedFileNotWritableError
                   ("This is the OS " +:+ nm
                    +:+ " folder, which is protected. Please pick another folder or subfolder."))
       ∧ apiTrace o (assertSafeFilesPath localFilesPath)
         = map app_getPath (before ++ [nm])
       ∧ ∀ c, c ∈ apiTrace o (assertSafeFilesPath localFilesPath) →
              ∃ m, c = app_getPath m)
  ∧ ((∀ nm, nm ∈ DISALLOWED_SAVE_PATH_NAMES →
        path_normalize localFilesPath ≠ path_normalize (o (app_getPath nm))) →
     (apiRun o (assertSafeFilesPath localFilesPath) = AOk tt
      ↔ from_option st_isDirectory false (o (node_stat localFilesPath)) = true
        ∨ (o (node_stat localFilesPath) = None ∧ o (mkdirp localFilesPath) = None))
     ∧ (∀ st, o (node_stat localFilesPath) = Some st → st_isDirectory st = false →
          apiRun o (assertSafeFilesPath localFilesPath)
          = AErr (NotAFolderError "Invalid target folder: not a folder"))
     ∧ (∀ err, o (node_stat localFilesPath) = None →
          o (mkdirp localFilesPath) = Some err →
          apiRun o (assertSafeFilesPath localFilesPath) = AErr (Rejected err))
     ∧ (mkdirp localFilesPath ∈ apiTrace o (assertSafeFilesPath localFilesPath)
        ↔ o (node_stat localFilesPath) = None)).
Proof.
  split; [done |].
  unfold assertSafeFilesPath.
  rewrite apiRun_bind, apiTrace_bind. split.
  - intros Hprot.
    destruct (assertSafeFilesPath_loop_protected o _ _ Hprot)
      as (before & nm & after & Hlist & Hbefore & Heq & Hrun & Htrace).
    exists before, nm, after. rewrite Hrun, app_nil_r, Htrace.
    split; [done |]. split; [done |]. split.
    { rewrite Hlist. apply elem_of_app. right. by apply elem_of_cons; left. }
    split; [done |]. split; [done |]. split; [done |].
    intros c (m & Hm & _)%list_elem_of_In%in_map_iff. eauto.
  - intros Hsafe.
    destruct (assertSafeFilesPath_loop_safe o _ _ Hsafe) as [-> ->].
    api_simpl.
    assert (Hnot : ∀ c, (∀ nm, c ≠ app_getPath nm) → c ∈ map app_getPath DISALLOWED_SAVE_PATH_NAMES → False).
    { intros c Hc (nm & Heq & _)%list_elem_of_In%in_map_iff. by apply (Hc nm). }
    destruct (o (node_stat localFilesPath)) as [st|] eqn:Hstat; api_simpl;
      cbn [from_option];
      [ destruct (st_isDirectory st) eqn:Hdir; cbn [negb]; api_simpl
      | destruct (o (mkdirp localFilesPath)) as [err|] eqn:Hmk; api_simpl ];
      (split; [split | split; [| split; [| split]]]);
      try done;
      try (intros; simplify_eq; congruence);
      try (by left); try (by right);
      try (intros [? | [? ?]]; congruence);
      try (intros; apply elem_of_app; right;
           apply list_elem_of_further, list_elem_of_here);
      try (intros [Hin | Hin]%elem_of_app; exfalso;
           [ eapply Hnot; [| exact Hin]; done
           | by apply list_elem_of_singleton in Hin ]).
Qed.

(** *** set and create *)

Lemma assertSafeFilesPath_calls (p : string) :
  AllApiCalls (fun c => match c with
                        | app_getPath _ => True
                        | node_stat q | mkdirp q => q = p
                        | _ => False
                        end)
              (assertSafeFilesPath p).
Proof.
  unfold assertSafeFilesPath. apply AllApiCalls_bind.
  - induction DISALLOWED_SAVE_PATH_NAMES as [|nm names IH];
      cbn [assertSafeFilesPath_loop]; api_simpl; [done |].
    split; [done |]. intros a. by case_bool_decide.
  - intros _. api_simpl. split; [done |]. intros [st|].
    + by destruct (negb _).
    + api_simpl. split; [done |]. by intros [err|].
Qed.

Lemma assertSafeFilesPath_writes (o : ApiOracle) (p : string) (c : apiCall) :
  c ∈ apiTrace o (assertSafeFilesPath p) → apiWrites c = true → c = mkdirp p.
Proof.
  intros Hin Hw.
  pose proof (AllApiCalls_trace _ o _ (assertSafeFilesPath_calls p) c Hin) as Hc.
  destruct c; try done. by rewrite Hc.
Qed.

Lemma assertDatIsSavedAndOwned_writes (o : ApiOracle) (url : string) (c : apiCall) :
  c ∈ apiTrace o (lift (assertDatIsSavedAndOwned url)) → apiWrites c = false.
Proof.
  unfold assertDatIsSavedAndOwned. api_simpl.
  destruct (negb _); api_simpl; [| destruct (negb _); api_simpl].
  all: intros [-> | [-> | Hin%elem_of_nil]%elem_of_cons]%elem_of_cons; done.
Qed.

(** X14.  [set] stores the record last and only after every check has
    passed: a number as profile id, a valid name, a safe files path when
    one is given, and a ["dat://"] target that is owned and saved when one
    is given.  The record it stores holds the files path normalized.
    When [set] fails nothing is stored; the only thing it may have
    written by then is the folder of the files path, created by
    [mkdirp]. *)
Theorem set_stores_after_checks (o : ApiOracle) (profileId : jsval) (name : string)
    (opts : WorkspaceOpts) :
  (apiRun o (set profileId name opts) = AOk tt →
   (∃ n, profileId = JNumber n)
   ∧ WORKSPACE_VALID_NAME_REGEX_test name = true
   ∧ (∀ files, wo_localFilesPath opts = Some files →
        apiRun o (assertSafeFilesPath (path_normalize files)) = AOk tt)
   ∧ (∀ url, wo_publishTargetUrl opts = Some url →
        startsWith url "dat://" = true
        ∧ run (fun c => o (base c)) (assertDatIsSavedAndOwned url) = Ok tt)
   ∧ ∃ pre,
       apiTrace o (set profileId name opts)
       = pre ++ [workspacesDb_set profileId name
                   {| wo_name := wo_name opts;
                      wo_localFilesPath := path_normalize <$> wo_localFilesPath opts;
                      wo_publishTargetUrl := wo_publishTargetUrl opts |}]
       ∧ ∀ c, c ∈ pre → apiWrites c = true →
              ∃ files, wo_localFilesPath opts = Some files
                       ∧ c = mkdirp (path_normalize files))
  ∧ (∀ e, apiRun o (set profileId name opts) = AErr e →
       ∀ c, c ∈ apiTrace o (set profileId name opts) → apiWrites c = true →
            ∃ files, wo_localFilesPath opts = Some files
                     ∧ c = mkdirp (path_normalize files)).
Proof.
  unfold set, assertValidProfileId, assertValidName.
  destruct opts as [nm lfp target]. cbn [wo_name wo_localFilesPath wo_publishTargetUrl].
  destruct profileId as [| | |n| | |]; api_simpl;
    try (split; [done | intros e _ c Hc; by apply elem_of_nil in Hc]).
  destruct (WORKSPACE_VALID_NAME_REGEX_test name) eqn:Hname; api_simpl;
    [| split; [done | intros e _ c Hc; by apply elem_of_nil in Hc]].
  assert (Htail : ∀ lfp',
    let t := (match target with
              | Some _ =>
                  assertDatUrl target
                  ≫= λ url : string, lift (assertDatIsSavedAndOwned url)
              | None => ARet ()
              end
              ≫= λ _ : (),
                   acall (workspacesDb_set (JNumber n) name
                            {| wo_name := nm;
                               wo_localFilesPath := lfp';
                               wo_publishTargetUrl := target |})) in
    (apiRun o t = AOk tt →
     (∀ url, target = Some url →
        startsWith url "dat://" = true
        ∧ run (fun c => o (base c)) (assertDatIsSavedAndOwned url) = Ok tt)
     ∧ ∃ pre,
         apiTrace o t
         = pre ++ [workspacesDb_set (JNumber n) name
                     {| wo_name := nm;
                        wo_localFilesPath := lfp';
                        wo_publishTargetUrl := target |}]
         ∧ ∀ c, c ∈ pre → apiWrites c = false)
    ∧ (∀ e, apiRun o t = AErr e → ∀ c, c ∈ apiTrace o t → apiWrites c = false)).
  { intros lfp' t. subst t. rewrite apiRun_bind, apiTrace_bind.
    destruct target as [url|]; api_simpl.
    - unfold assertDatUrl. destruct (startsWith url "dat://") eqn:Hdat; api_simpl.
      + rewrite apiRun_lift.
        destruct (run _ (assertDatIsSavedAndOwned url)) as [[]|e'] eqn:Hown;
          api_simpl.
        * split; [| done]. intros _. split.
          -- by intros ? [= <-].
          -- eexists. split; [done |]. apply assertDatIsSavedAndOwned_writes.
        * split; [done |]. intros e _ c. rewrite app_nil_r.
          apply assertDatIsSavedAndOwned_writes.
      + split; [done |]. intros e _ c Hc. by apply elem_of_nil in Hc.
    - split; [| done]. intros _. split; [done |].
      exists []. split; [done |]. intros c Hc. by apply elem_of_nil in Hc. }
  destruct lfp as [files|]; api_simpl.
  - rewrite apiRun_bind, apiTrace_bind, apiRun_bind, apiTrace_bind.
    destruct (apiRun o (assertSafeFilesPath (path_normalize files)))
      as [[]|e'] eqn:Hsafe; api_simpl.
    + rewrite app_nil_r.
      destruct (Htail (Some (path_normalize files))) as [Hok Hfail]. split.
      * intros Hrun. destruct (Hok Hrun) as (Hurl & pre & Htrace & Hpre).
        split; [by eauto |]. split; [done |]. split; [by intros ? [= <-] |].
        split; [done |]. rewrite Htrace.
        exists (apiTrace o (assertSafeFilesPath (path_normalize files)) ++ pre).
        split; [by rewrite app_assoc |].
        intros c [Hc | Hc]%elem_of_app Hw.
        -- exists files. split; [done |]. by eapply assertSafeFilesPath_writes.
        -- apply Hpre in Hc. congruence.
      * intros e Hrun c [Hc | Hc]%elem_of_app Hw.
        -- exists files. split; [done |]. by eapply assertSafeFilesPath_writes.
        -- apply (Hfail e Hrun) in Hc. congruence.
    + split; [done |]. rewrite !app_nil_r. intros e _ c Hc Hw.
      exists files. split; [done |]. by eapply assertSafeFilesPath_writes.
  - destruct (Htail None) as [Hok Hfail]. split.
    + intros Hrun. destruct (Hok Hrun) as (Hurl & pre & Htrace & Hpre).
      split; [by eauto |]. split; [done |]. split; [done |].
      split; [done |]. exists pre. split; [done |].
      intros c Hc Hw. apply Hpre in Hc. congruence.
    + intros e Hrun c Hc Hw. apply (Hfail e Hrun) in Hc. congruence.
Qed.

(** X15.  [set] looks at the files path before it looks at the target.
    With a files path that passes [assertSafeFilesPath] and a target that
    is no ["dat://"] url, [set] fails with InvalidURLError after it has
    made every call of [assertSafeFilesPath], the [mkdirp] of a missing
    folder among them, and no other call.  With a files path that does
    not pass, [set] fails with the error of the path and never asks about
    the target. *)
Theorem set_checks_folder_first (o : ApiOracle) (n : Z) (name : string)
    (opts : WorkspaceOpts) (files : string) :
  WORKSPACE_VALID_NAME_REGEX_test name = true →
  wo_localFilesPath opts = Some files →
  (∀ url, wo_publishTargetUrl opts = Some url →
     startsWith url "dat://" = false →
     apiRun o (assertSafeFilesPath (path_normalize files)) = AOk tt →
     apiRun o (set (JNumber n) name opts)
     = AErr (InvalidURLError "Invalid publishTargetUrl - must be a dat:// url.")
     ∧ apiTrace o (set (JNumber n) name opts)
       = apiTrace o (assertSafeFilesPath (path_normalize files)))
  ∧ (∀ e, apiRun o (assertSafeFilesPath (path_normalize files)) = AErr e →
       apiRun o (set (JNumber n) name opts) = AErr e
       ∧ apiTrace o (set (JNumber n) name opts)
         = apiTrace o (assertSafeFilesPath (path_normalize files))).
Proof.
  intros Hname Hfiles. unfold set, assertValidProfileId, assertValidName.
  rewrite Hname, Hfiles. api_simpl.
  rewrite apiRun_bind, apiTrace_bind, apiRun_bind, apiTrace_bind. split.
  - intros url Hurl Hdat Hsafe. rewrite Hsafe, Hurl. unfold assertDatUrl.
    rewrite Hdat. api_simpl. by rewrite !app_nil_r.
  - intros e Hsafe. rewrite Hsafe. by rewrite !app_nil_r.
Qed.

Lemma apiTrace_lift_base {R : Type} (o : ApiOracle) (p : prog R) (c : apiCall) :
  c ∈ apiTrace o (lift p) → ∃ b, c = base b.
Proof.
  rewrite apiTrace_lift. intros (b & Hb & _)%list_elem_of_In%in_map_iff. eauto.
Qed.

(** X16.  When [create] succeeds, the profile id is a number, the target
    is a ["dat://"] url of a dat that is owned and saved and has no
    workspace yet, a files path was given and is safe, and the name, the
    one given or else the unused one of the database, is valid; the
    record returned holds that name, the normalized path and the target,
    and storing it under that name was the last thing done.  When
    [create] fails nothing is stored: the only thing it may have written
    is the folder of the files path.  The database is asked for an unused
    name only when no name was given. *)
Theorem create_guarantees (o : ApiOracle) (profileId : jsval) (opts : WorkspaceOpts) :
  (∀ r, apiRun o (create profileId opts) = AOk r →
     ∃ n url files (name : string),
       profileId = JNumber n
       ∧ wo_publishTargetUrl opts = Some url
       ∧ startsWith url "dat://" = true
       ∧ run (fun c => o (base c)) (assertDatIsSavedAndOwned url) = Ok tt
       ∧ o (workspacesDb_getByPublishTargetUrl profileId url) = None
       ∧ name = default (o workspacesDb_getUnusedName) (truthy (wo_name opts))
       ∧ WORKSPACE_VALID_NAME_REGEX_test name = true
       ∧ wo_localFilesPath opts = Some files
       ∧ apiRun o (assertSafeFilesPath (path_normalize files)) = AOk tt
       ∧ r = {| wo_name := Some name;
                wo_localFilesPath := Some (path_normalize files);
                wo_publishTargetUrl := Some url |}
       ∧ last (apiTrace o (create profileId opts))
         = Some (workspacesDb_set profileId name r))
  ∧ (∀ e, apiRun o (create profileId opts) = AErr e →
       ∀ c, c ∈ apiTrace o (create profileId opts) → apiWrites c = true →
            ∃ files, wo_localFilesPath opts = Some files
                     ∧ c = mkdirp (path_normalize files))
  ∧ (workspacesDb_getUnusedName ∈ apiTrace o (create profileId opts) →
     truthy (wo_name opts) = None).
Proof.
  unfold create, assertValidProfileId, assertDatUrl, assertDatHasNoWorkspace.
  destruct opts as [nm lfp target]. cbn [wo_name wo_localFilesPath wo_publishTargetUrl].
  destruct profileId as [| | |n| | |]; api_simpl;
    try (split; [done | split; [intros e _ c Hc | intros Hc];
                        by apply elem_of_nil in Hc]).
  destruct target as [url|]; api_simpl;
    [| split; [done | split; [intros e _ c Hc | intros Hc];
                       by apply elem_of_nil in Hc]].
  destruct (startsWith url "dat://") eqn:Hdat; api_simpl;
    [| split; [done | split; [intros e _ c Hc | intros Hc];
                       by apply elem_of_nil in Hc]].
  rewrite apiRun_bind, apiTrace_bind, apiRun_lift.
  pose proof (assertDatIsSavedAndOwned_writes o url) as Hreads.
  pose proof (apiTrace_lift_base o (assertDatIsSavedAndOwned url)) as Hbase.
  pose proof (fun p => AllApiCalls_trace _ o _ (assertSafeFilesPath_calls p)) as Hsafe_calls.
  pose proof (assertSafeFilesPath_writes o) as Hsafe_writes.
  destruct (run _ (assertDatIsSavedAndOwned url)) as [[]|e0] eqn:Hown; api_simpl;
    [ destruct (o (workspacesDb_getByPublishTargetUrl (JNumber n) url))
        as [ws|] eqn:Hnone; api_simpl;
      [| destruct (truthy nm) as [name|] eqn:Hnm; api_simpl;
         unfold assertValidName;
         [ destruct (WORKSPACE_VALID_NAME_REGEX_test name) eqn:Hname
         | destruct (WORKSPACE_VALID_NAME_REGEX_test (o workspacesDb_getUnusedName))
             eqn:Hname ];
         api_simpl;
         [ destruct lfp as [files|]; api_simpl;
           [ rewrite apiRun_bind, apiTrace_bind;
             destruct (apiRun o (assertSafeFilesPath (path_normalize files)))
               as [[]|e1] eqn:Hsafe; api_simpl |]
         | | destruct lfp as [files|]; api_simpl;
           [ rewrite apiRun_bind, apiTrace_bind;
             destruct (apiRun o (assertSafeFilesPath (path_normalize files)))
               as [[]|e1] eqn:Hsafe; api_simpl |]
         | ] ]
    | ].
  all: rewrite ?app_nil_r.
  all: (split; [| split]).
  all: try (intros r [= <-];
            match goal with
            | |- context [default _ (Some ?x)] => exists n, url, files, x
            | |- context [default ?d None] => exists n, url, files, d
            end;
            repeat (split; [done |]);
            rewrite last_app, ?last_cons, last_snoc).
  all: try done.
  all: try (intros e _ c Hc Hw;
            repeat match type of Hc with
            | _ ∈ _ ++ _ => apply elem_of_app in Hc as [Hc | Hc]
            | _ ∈ _ :: _ => apply elem_of_cons in Hc as [Hc | Hc]
            | _ ∈ [] => apply elem_of_nil in Hc as []
            end;
            first [ by subst c
                  | apply Hreads in Hc; congruence
                  | exists files; split; [done |]; by apply Hsafe_writes ]).
  all: try (intros Hc;
            repeat match type of Hc with
            | _ ∈ _ ++ _ => apply elem_of_app in Hc as [Hc | Hc]
            | _ ∈ _ :: _ => apply elem_of_cons in Hc as [Hc | Hc]
            | _ ∈ [] => apply elem_of_nil in Hc as []
            end;
            first [ done
                  | by apply Hbase in Hc as [? ?]
                  | by apply Hsafe_calls in Hc ]).

Qed.

(** *** The checks every operation starts with *)

(** X17.  Every operation checks the profile id before anything else:
    when it is no number each of them is the program that throws "Must
    provide a valid profile id" and makes no call.  With a number and a
    name the pattern turns down, [set], [remove], [addToDatignore],
    [listChangedFiles], [diff], [publish] and [revert] are the program
    that throws "Invalid workspace name" and makes no call; [setupFolder]
    does not check the name and asks the workspace database for it. *)
Theorem operations_check_id_then_name (profileId : jsval) (name filepath : string)
    (opts : Opts) (wopts : WorkspaceOpts) (line : jsval) :
  ((∀ n, profileId ≠ JNumber n) →
   list_ profileId = AThrow (Thrown (PlainError "Must provide a valid profile id"))
   ∧ get profileId name = AThrow (Thrown (PlainError "Must provide a valid profile id"))
   ∧ set profileId name wopts
     = AThrow (Thrown (PlainError "Must provide a valid profile id"))
   ∧ create profileId wopts
     = AThrow (Thrown (PlainError "Must provide a valid profile id"))
   ∧ remove profileId name
     = AThrow (Thrown (PlainError "Must provide a valid profile id"))
   ∧ addToDatignore profileId name line
     = AThrow (Thrown (PlainError "Must provide a valid profile id"))
   ∧ setupFolder profileId name opts
     = Throw (PlainError "Must provide a valid profile id")
   ∧ listChangedFiles profileId name opts
     = Throw (PlainError "Must provide a valid profile id")
   ∧ diff profileId name filepath
     = Throw (PlainError "Must provide a valid profile id")
   ∧ publish profileId name opts
     = Throw (PlainError "Must provide a valid profile id")
   ∧ revert profileId name opts
     = Throw (PlainError "Must provide a valid profile id"))
  ∧ (∀ n, profileId = JNumber n →
       WORKSPACE_VALID_NAME_REGEX_test name = false →
       set profileId name wopts
       = AThrow (Thrown (PlainError ("Invalid workspace name (" +:+ name +:+ ")")))
       ∧ remove profileId name
         = AThrow (Thrown (PlainError ("Invalid workspace name (" +:+ name +:+ ")")))
       ∧ addToDatignore profileId name line
         = AThrow (Thrown (PlainError ("Invalid workspace name (" +:+ name +:+ ")")))
       ∧ listChangedFiles profileId name opts
         = Throw (PlainError ("Invalid workspace name (" +:+ name +:+ ")"))
       ∧ diff profileId name filepath
         = Throw (PlainError ("Invalid workspace name (" +:+ name +:+ ")"))
       ∧ publish profileId name opts
         = Throw (PlainError ("Invalid workspace name (" +:+ name +:+ ")"))
       ∧ revert profileId name opts
         = Throw (PlainError ("Invalid workspace name (" +:+ name +:+ ")"))
       ∧ ∃ k, setupFolder profileId name opts
              = Call (workspacesDb_get profileId name) k).
Proof.
  unfold list_, get, set, create, remove, addToDatignore, setupFolder,
    listChangedFiles, diff, publish, revert, assertValidProfileId, assertValidName.
  split.
  - intros Hid.
    destruct profileId as [| | |n| | |]; try (exfalso; by eapply Hid);
      api_simpl; done.
  - intros n -> Hname. rewrite Hname. api_simpl.
    repeat (split; [done |]). eexists. reflexivity.
Qed.

(** *** publish, revert and listChangedFiles *)

(** X18.  [revert] is [publish] with the apply turned around: against
    the same answers both end the same way, and [revert] makes the calls
    of [publish] one by one, with [dft.applyLeft] in the place of
    [dft.applyRight] on the same two trees and the same diff.  And
    [publish] applies what [listChangedFiles] lists when asked not to be
    shallow: it makes the calls of [listChangedFiles] and then one apply
    of the list that [listChangedFiles] returns. *)
Theorem revert_mirrors_publish (o : Oracle) (profileId : jsval) (name : string)
    (opts : Opts) :
  run o (revert profileId name opts) = run o (publish profileId name opts)
  ∧ trace o (revert profileId name opts)
    = map turned (trace o (publish profileId name opts))
  ∧ (∀ d, opts_shallow opts = JBoolean false →
          run o (listChangedFiles profileId name opts) = Ok d →
          run o (publish profileId name opts) = Ok tt
          ∧ ∃ l r, trace o (publish profileId name opts)
                   = trace o (listChangedFiles profileId name opts)
                     ++ [dft_applyRight l r d]).
Proof.
  unfold publish, revert, listChangedFiles, assertValidProfileId, assertValidName.
  destruct profileId as [| | |n| | |]; exec_simpl; cbn [trace map]; try done.
  destruct (WORKSPACE_VALID_NAME_REGEX_test name); exec_simpl; cbn [trace map];
    [| done].
  destruct (o (workspacesDb_get (JNumber n) name)) as [ws|];
    unfold validateWorkspaceRecord; [| done].
  destruct (truthy (localFilesPath ws)) as [files|]; [| done].
  destruct (truthy (publishTargetUrl ws)) as [url|]; [| done].
  unfold assertDatIsSavedAndOwned. exec_simpl. cbn [trace map].
  destruct (negb _); exec_simpl; cbn [trace map]; [done |].
  destruct (negb _); exec_simpl; cbn [trace map]; [done |].
  unfold timer. exec_simpl. cbn [trace map].
  destruct (o (timer_getOrLoadArchive 3000 url)) as [archive|];
    exec_simpl; cbn [trace map]; [| done].
  unfold buildFilter, massageDiffOpts. cbn [do_paths].
  destruct (match opts_paths opts with JArray _ => _ | _ => _ end) as [paths|];
    unfold readDatIgnore, readFile; exec_simpl; unfold await;
    cbn [trace map turned app].
  all: assert (Hunit : ∀ x y : unit, Ok x = Ok y :> result unit)
         by (by intros [] []).
  all: split; [apply Hunit |]; split; [done |].
  all: intros d -> [= <-]; split; [apply (Hunit _ tt) |]; eexists _, _; reflexivity.
Qed.

End MoreFacts.

(** ** The further properties on the sample machine *)

Lemma makeDiffFilterByPaths_union_witness :
  makeDiffFilterByPaths (H := posix) ["/img/"; "/docs/a.md"] "/docs" = false.
Proof.
  apply (proj2 (proj2 (makeDiffFilterByPaths_union (H := posix)
                         ["/img/"; "/docs/a.md"] [] "/docs"))).
  exists "/docs/a.md". split.
  - apply list_elem_of_further, list_elem_of_here.
  - vm_compute. reflexivity.
Defined.

Lemma validateWorkspaceRecord_decides_witness :
  run (oracle_of (sample_world true))
      (validateWorkspaceRecord (H := posix) "site"
         (Some {| localFilesPath := Some "/home/bob/site";
                  publishTargetUrl := Some "dat://gone" |}))
  = Err (ArchiveNotWritableError "You can't edit a dat you don't own.").
Proof.
  apply (proj1 (proj2 (proj2 (proj2 (proj2
           (validateWorkspaceRecord_decides (H := posix)
              (oracle_of (sample_world true)) "site"
              (Some {| localFilesPath := Some "/home/bob/site";
                       publishTargetUrl := Some "dat://gone" |}))))))
           _ "/home/bob/site" "dat://gone" eq_refl eq_refl eq_refl).
  vm_compute. reflexivity.
Defined.

Lemma operations_stop_at_validation_witness :
  run (oracle_of (sample_world true))
      (publish (H := posix) (JNumber 0) "other" noOpts)
  = Err (PlainError "No workspace found at other")
  ∧ trace (oracle_of (sample_world true))
          (publish (H := posix) (JNumber 0) "other" noOpts)
    = [workspacesDb_get (JNumber 0) "other"].
Proof.
  apply (proj1 (proj2 (proj2 (proj2
           (operations_stop_at_validation (H := posix)
              (oracle_of (sample_world true)) 0 "other" "index.html" noOpts
              (PlainError "No workspace found at other")
              eq_refl ltac:(vm_compute; discriminate) eq_refl))))).
Defined.

Lemma diff_text_name_skips_sniff_witness :
  AllCalls (fun c => match c with
                     | isFileContentBinary _ _ => False
                     | _ => True
                     end)
           (diff (H := posix) (JNumber 0) "site" "notes.txt").
Proof.
  apply (proj1 (diff_text_name_skips_sniff (H := posix) (JNumber 0) "site"
                  "notes.txt")).
  vm_compute. reflexivity.
Defined.

Lemma diff_guard_order_witness :
  run (sample_oracle 100001 5) (diff (H := posix) (JNumber 0) "site" "notes")
  = Err SourceTooLargeError.
Proof.
  apply (proj1 (proj2
           (diff_guard_order (H := posix) (sample_oracle 100001 5) 0 "site"
              "notes" "/home/bob/site" "dat://abc" (ArchiveFS "dat://abc")
              eq_refl (sample_oracle_ready _ _)
              ltac:(vm_compute; discriminate)))).
  - vm_compute. reflexivity.
  - vm_compute. reflexivity.
Defined.

Lemma operations_write_direction_witness :
  ∃ files, workspaceReady (H := posix) (sample_world true) (JNumber 0) "site"
             files "dat://abc".
Proof.
  apply (proj1 (proj2 (proj2 (proj2
           (proj2 (operations_write_direction (H := posix) (JNumber 0) "site"
                     "index.html" noOpts)
              (sample_world true)))))).
  intros Heq.
  apply (f_equal (fun m : Tree => m !! "/docs")) in Heq.
  vm_compute in Heq. discriminate Heq.
Defined.

Lemma explicit_paths_skip_datignore_witness :
  AllCalls (fun c => match c with fs_readFile _ _ => False | _ => True end)
           (publish (H := posix) (JNumber 0) "site" (pathsOpts ["/docs/"])).
Proof.
  apply (proj1 (proj2
           (proj1 (explicit_paths_skip_datignore (H := posix) (JNumber 0) "site"
                     (pathsOpts ["/docs/"]))
              (JString <$> ["/docs/"]) eq_refl))).
Defined.

Lemma addToDatignore_content_lines_witness :
  split LF (addToDatignore_content
              (Some ("notes.txt" +:+ String LF (String LF "/build"))) "dist")
  = ["notes.txt"; "/build"; "dist"; ""].
Proof.
  apply (proj1 (addToDatignore_content_lines
                  (Some ("notes.txt" +:+ String LF (String LF "/build"))) "dist"
                  eq_refl)).
Defined.

Lemma addToDatignore_then_readDatIgnore_witness :
  readDatIgnore_rules (H := posix)
    (addToDatignore_content (Some ("notes.txt" +:+ String LF "/build")) "dist")
  = ["**/notes.txt"; "/build"; "**/dist"; "/.git"; "/.dat"].
Proof.
  apply (proj1 (proj2
           (addToDatignore_then_readDatIgnore (H := posix)
              (Some ("notes.txt" +:+ String LF "/build")) "dist" eq_refl))).
  reflexivity.
Defined.

Lemma addToDatignore_writes_datignore_witness :
  apiRun sample_api (addToDatignore (H := posix) (JNumber 0) "site" (JString "dist"))
  = AOk tt
  ∧ last (apiTrace sample_api
            (addToDatignore (H := posix) (JNumber 0) "site" (JString "dist")))
    = Some (fs_writeFile (ScopedFS "/home/bob/site") ".datignore"
              (addToDatignore_content
                 (sample_api (base (fs_readFile (ScopedFS "/home/bob/site") ".datignore")))
                 "dist")).
Proof.
  apply (proj2 (proj2
           (addToDatignore_writes_datignore (H := posix) (JNumber 0) "site"
              (JString "dist")))
           sample_api 0%Z "dist" "/home/bob/site" "dat://abc" eq_refl eq_refl).
  - reflexivity.
  - reflexivity.
  - vm_compute. reflexivity.
Defined.

Lemma get_reports_only_folders_witness :
  from_option st_isDirectory false (sample_api (node_stat "/home/bob/site")) = true
  ∧ false = false
  ∧ @None string = None.
Proof.
  apply (proj1 (proj1 (get_reports_only_folders (H := posix) sample_api 0 "site")
                  {| wi_localFilesPath := Some "/home/bob/site";
                     wi_publishTargetUrl := Some "dat://abc";
                     wi_localFilesPathIsMissing := false;
                     wi_missingLocalFilesPath := None |}
                  ltac:(vm_compute; reflexivity))
           "/home/bob/site").
  reflexivity.
Defined.

Lemma assertSafeFilesPath_decides_witness :
  apiRun kiosk_api (assertSafeFilesPath (H := posix) "/home/./bob")
  = AErr (ProtectedFileNotWritableError
            "This is the OS home folder, which is protected. Please pick another folder or subfolder.")
  ∧ apiTrace kiosk_api (assertSafeFilesPath (H := posix) "/home/./bob")
    = [app_getPath "home"].
Proof.
  destruct (proj1 (proj2 (assertSafeFilesPath_decides (H := posix) kiosk_api
                            "/home/./bob")))
    as (before & nm & after & Hlist & Hbefore & _ & _ & Hrun & Htrace & _).
  - exists "videos". split.
    + do 6 apply list_elem_of_further. apply list_elem_of_here.
    + vm_compute. reflexivity.
  - destruct before as [|m before].
    + injection Hlist as <- _. split; [exact Hrun | exact Htrace].
    + exfalso. apply (Hbefore m).
      * apply list_elem_of_here.
      * vm_compute. reflexivity.
Defined.

Lemma set_stores_after_checks_witness :
  startsWith "dat://abc" "dat://" = true
  ∧ run (fun c => sample_api (base c))
        (assertDatIsSavedAndOwned (H := posix) "dat://abc") = Ok tt.
Proof.
  apply (proj1 (proj2 (proj2 (proj2
           (proj1 (set_stores_after_checks (H := posix) sample_api (JNumber 0) "site"
                     {| wo_name := None;
                        wo_localFilesPath := Some "/home/bob/site/../new";
                        wo_publishTargetUrl := Some "dat://abc" |})
              ltac:(vm_compute; reflexivity)))))
           "dat://abc" eq_refl).
Defined.

Lemma set_checks_folder_first_witness :
  apiRun sample_api
    (set (H := posix) (JNumber 0) "site"
       {| wo_name := None;
          wo_localFilesPath := Some "/home/bob/new";
          wo_publishTargetUrl := Some "http://abc" |})
  = AErr (InvalidURLError "Invalid publishTargetUrl - must be a dat:// url.")
  ∧ apiTrace sample_api
      (set (H := posix) (JNumber 0) "site"
         {| wo_name := None;
            wo_localFilesPath := Some "/home/bob/new";
            wo_publishTargetUrl := Some "http://abc" |})
    = apiTrace sample_api
        (assertSafeFilesPath (H := posix)
           (path_normalize (Externals := posix) "/home/bob/new")).
Proof.
  apply (proj1 (set_checks_folder_first (H := posix) sample_api 0 "site"
                  {| wo_name := None;
                     wo_localFilesPath := Some "/home/bob/new";
                     wo_publishTargetUrl := Some "http://abc" |}
                  "/home/bob/new" eq_refl eq_refl)
           "http://abc" eq_refl eq_refl).
  vm_compute. reflexivity.
Defined.

Lemma create_guarantees_witness :
  ∃ n url files (name : string),
    JNumber 0 = JNumber n
    ∧ Some "dat://abc" = Some url
    ∧ startsWith url "dat://" = true
    ∧ run (fun c => fresh_api (base c)) (assertDatIsSavedAndOwned (H := posix) url)
      = Ok tt
    ∧ fresh_api (workspacesDb_getByPublishTargetUrl (JNumber 0) url) = None
    ∧ name = default (fresh_api workspacesDb_getUnusedName) (truthy (Some ""))
    ∧ WORKSPACE_VALID_NAME_REGEX_test (Externals := posix) name = true
    ∧ Some "/home/bob/new/" = Some files
    ∧ apiRun fresh_api
        (assertSafeFilesPath (H := posix) (path_normalize (Externals := posix) files))
      = AOk tt
    ∧ {| wo_name := Some "untitled-1";
         wo_localFilesPath := Some "/home/bob/new/";
         wo_publishTargetUrl := Some "dat://abc" |}
      = {| wo_name := Some name;
           wo_localFilesPath := Some (path_normalize (Externals := posix) files);
           wo_publishTargetUrl := Some url |}
    ∧ last (apiTrace fresh_api
              (create (H := posix) (JNumber 0)
                 {| wo_name := Some "";
                    wo_localFilesPath := Some "/home/bob/new/";
                    wo_publishTargetUrl := Some "dat://abc" |}))
      = Some (workspacesDb_set (JNumber 0) name
                {| wo_name := Some "untitled-1";
                   wo_localFilesPath := Some "/home/bob/new/";
                   wo_publishTargetUrl := Some "dat://abc" |}).
Proof.
  apply (proj1 (create_guarantees (H := posix) fresh_api (JNumber 0)
                  {| wo_name := Some "";
                     wo_localFilesPath := Some "/home/bob/new/";
                     wo_publishTargetUrl := Some "dat://abc" |})
           {| wo_name := Some "untitled-1";
              wo_localFilesPath := Some "/home/bob/new/";
              wo_publishTargetUrl := Some "dat://abc" |}).
  vm_compute. reflexivity.
Defined.

Lemma operations_check_id_then_name_witness :
  remove (H := posix) (JString "0") "site"
  = AThrow (Thrown (PlainError "Must provide a valid profile id")).
Proof.
  apply (proj1 (proj2 (proj2 (proj2 (proj2
           (proj1 (operations_check_id_then_name (H := posix) (JString "0") "site"
                     "index.html" noOpts
                     {| wo_name := None; wo_localFilesPath := None;
                        wo_publishTargetUrl := None |}
                     JUndefined)
              ltac:(intros n; discriminate))))))).
Defined.

Lemma revert_mirrors_publish_witness :
  run (oracle_of (sample_world true))
      (publish (H := posix) (JNumber 0) "site"
         {| opts_compareContent := JUndefined; opts_shallow := JBoolean false;
            opts_paths := JUndefined |})
  = Ok tt
  ∧ ∃ l r,
      trace (oracle_of (sample_world true))
            (publish (H := posix) (JNumber 0) "site"
               {| opts_compareContent := JUndefined; opts_shallow := JBoolean false;
                  opts_paths := JUndefined |})
      = trace (oracle_of (sample_world true))
              (listChangedFiles (H := posix) (JNumber 0) "site"
                 {| opts_compareContent := JUndefined; opts_shallow := JBoolean false;
                    opts_paths := JUndefined |})
        ++ [dft_applyRight l r
              [ {| d_change := ChangeDel; d_path := "/img/logo.png";
                   d_isDirectory := false |};
                {| d_change := ChangeDel; d_path := "/img"; d_isDirectory := true |};
                {| d_change := ChangeAdd; d_path := "/.datignore";
                   d_isDirectory := false |};
                {| d_change := ChangeAdd; d_path := "/docs/a.md";
                   d_isDirectory := false |};
                {| d_change := ChangeAdd; d_path := "/docs"; d_isDirectory := true |};
                {| d_change := ChangeDel; d_path := "/dat.json";
                   d_isDirectory := false |} ]].
Proof.
  apply (proj2 (proj2
           (revert_mirrors_publish (H := posix) (oracle_of (sample_world true))
              (JNumber 0) "site"
              {| opts_compareContent := JUndefined; opts_shallow := JBoolean false;
                 opts_paths := JUndefined |}))
           _ eq_refl).
  vm_compute. reflexivity.
Defined.
